(** * Mazda car controller: per-cycle command synthesis

    A shallow embedding of [selfdrive/car/mazda/carcontroller.py]
    ([CarController.__init__] and [CarController.update]) and the properties
    of its steering limiter, cancel debounce, acceleration blending and
    hold/resume logic; of [selfdrive/car/mazda/interface.py], which derives
    the flags the controller is built from and the events of the car state;
    and of the sample buffer of [system/micd.py].

    Python values are modelled as they are at run time: numbers are either
    unbounded integers or IEEE binary64 floats ([pynum]), dictionaries are
    finite maps keyed by strings, and a statement that can raise is a
    computation in a state-and-exception monad over the mutable objects the
    method touches ([self], [CS], the shared-memory store, the timer class). *)

From Stdlib Require Import ZArith Floats Bool List Lia.
From stdpp Require Import base gmap strings list.

Set Warnings "-inexact-float".
Local Open Scope Z_scope.

(** ** Python numbers *)

Inductive exn : Type :=
| ValueError
| OverflowError
| ZeroDivisionError
| KeyError (key : string).

(** The outcome of a Python expression: a value or a raised exception. *)
Definition result (A : Type) : Type := exn + A.

Definition result_bind {A B} (r : result A) (k : A -> result B) : result B :=
  match r with
  | inl e => inl e
  | inr a => k a
  end.

Module PyNum.

Inductive pynum : Type :=
| PyInt (z : Z)
| PyFloat (f : float).

(** [float(z)]: the nearest binary64 value, ties to even;
    OverflowError when the integer is out of the binary64 range. *)
Definition float_of_Z (z : Z) : float :=
  SF2Prim (binary_normalize prec emax z 0 false).

Definition to_float (x : pynum) : result float :=
  match x with
  | PyFloat f => inr f
  | PyInt z =>
      let f := float_of_Z z in
      if is_infinity f then inl OverflowError else inr f
  end.

(** The magnitude of a finite float [m * 2^e], truncated toward zero. *)
Definition trunc_mag (m : positive) (e : Z) : Z :=
  if 0 <=? e then Z.pos m * 2 ^ e else Z.pos m / 2 ^ (- e).

(** The magnitude of a finite float [m * 2^e], rounded to the nearest
    integer, ties to the even one (Python 3 [round] with one argument). *)
Definition round_mag (m : positive) (e : Z) : Z :=
  if 0 <=? e then Z.pos m * 2 ^ e
  else
    let d := 2 ^ (- e) in
    let q := Z.pos m / d in
    let r := Z.pos m mod d in
    match 2 * r ?= d with
    | Lt => q
    | Gt => q + 1
    | Eq => if Z.even q then q else q + 1
    end.

Definition float_to_Z (mag : positive -> Z -> Z) (f : float) : result Z :=
  match Prim2SF f with
  | S754_zero _ => inr 0
  | S754_infinity _ => inl OverflowError
  | S754_nan => inl ValueError
  | S754_finite s m e => inr (if s then - mag m e else mag m e)
  end.

(** [int(x)] *)
Definition int (x : pynum) : result Z :=
  match x with
  | PyInt z => inr z
  | PyFloat f => float_to_Z trunc_mag f
  end.

(** [round(x)] *)
Definition round (x : pynum) : result Z :=
  match x with
  | PyInt z => inr z
  | PyFloat f => float_to_Z round_mag f
  end.

(** Binary arithmetic: exact on two integers, otherwise both operands are
    converted to float. *)
Definition arith (fz : Z -> Z -> Z) (ff : float -> float -> float)
    (x y : pynum) : result pynum :=
  match x, y with
  | PyInt a, PyInt b => inr (PyInt (fz a b))
  | _, _ =>
      result_bind (to_float x) (fun a =>
      result_bind (to_float y) (fun b => inr (PyFloat (ff a b))))
  end.

Definition add := arith Z.add PrimFloat.add.
Definition sub := arith Z.sub PrimFloat.sub.
Definition mul := arith Z.mul PrimFloat.mul.

(** [a / b] on two integers: the correctly rounded quotient. The scaled
    quotient keeps two bits more than the mantissa and a sticky bit, so the
    final rounding to nearest even is that of the exact quotient. *)
Definition Z_truediv (a b : Z) : float :=
  let n := Z.abs a in
  let d := Z.abs b in
  let k := Z.max 0 (56 + Z.log2 d - Z.log2 n) in
  let q := (n * 2 ^ k) / d in
  let r := (n * 2 ^ k) mod d in
  let m := 2 * q + (if r =? 0 then 0 else 1) in
  let m := if Z.sgn a * Z.sgn b <? 0 then - m else m in
  SF2Prim (binary_normalize prec emax m (- k - 1) false).

Definition truediv (x y : pynum) : result pynum :=
  match x, y with
  | PyInt a, PyInt b =>
      if b =? 0 then inl ZeroDivisionError
      else
        let f := Z_truediv a b in
        if is_infinity f then inl OverflowError else inr (PyFloat f)
  | _, _ =>
      result_bind (to_float x) (fun a =>
      result_bind (to_float y) (fun b =>
        if (b =? 0)%float then inl ZeroDivisionError
        else inr (PyFloat (a / b)%float)))
  end.

Definition abs (x : pynum) : pynum :=
  match x with
  | PyInt z => PyInt (Z.abs z)
  | PyFloat f => PyFloat (PrimFloat.abs f)
  end.

(** Ordering of an integer and a float is exact in Python: the integer is
    not rounded to a float first. [cmp_Z_float z f] is [None] for a NaN. *)
Definition cmp_Z_float (z : Z) (f : float) : option comparison :=
  match Prim2SF f with
  | S754_nan => None
  | S754_infinity s => Some (if s then Gt else Lt)
  | S754_zero _ => Some (z ?= 0)
  | S754_finite s m e =>
      let v := if s then Z.neg m else Z.pos m in
      Some (if 0 <=? e then z ?= v * 2 ^ e else z * 2 ^ (- e) ?= v)
  end.

(** [x < y] *)
Definition lt (x y : pynum) : bool :=
  match x, y with
  | PyInt a, PyInt b => a <? b
  | PyFloat a, PyFloat b => (a <? b)%float
  | PyInt a, PyFloat b =>
      match cmp_Z_float a b with Some Lt => true | _ => false end
  | PyFloat a, PyInt b =>
      match cmp_Z_float b a with Some Gt => true | _ => false end
  end.

(** [x > y] *)
Definition gt (x y : pynum) : bool := lt y x.

(** Truth value of a number: nonzero. A NaN is true. *)
Definition truthy (x : pynum) : bool :=
  match x with
  | PyInt z => negb (z =? 0)
  | PyFloat f => negb (f =? 0)%float
  end.

(** The builtins [min(a, b)] and [max(a, b)]: the first argument is kept
    unless the second compares strictly below (above) it. *)
Definition min (a b : pynum) : pynum := if lt b a then b else a.
Definition max (a b : pynum) : pynum := if gt b a then b else a.

End PyNum.

Export PyNum.


(** ** Message schema and car constants *)

Module VisualAlert.
Inductive t : Type :=
| none | fcw | steerRequired | brakePressed | wrongGear
| seatbeltUnbuckled | speedTooHigh | ldw.
#[global] Instance visual_alert_eq_dec : EqDecision t.
Proof. solve_decision. Defined.
End VisualAlert.

Module LongCtrlState.
Inductive t : Type := off | starting | active | stopping.
#[global] Instance long_ctrl_state_eq_dec : EqDecision t.
Proof. solve_decision. Defined.
End LongCtrlState.

Module Buttons.
Inductive t : Type := SET_PLUS | SET_MINUS | RESUME | CANCEL.
#[global] Instance buttons_eq_dec : EqDecision t.
Proof. solve_decision. Defined.
End Buttons.

(** The bit masks of [MazdaFlags] ([values.py]); the controller only tests
    these three, with [self.CP.flags & MazdaFlags.X]. *)
Record MazdaFlagsT : Type := {
  GEN1 : Z;
  TORQUE_INTERCEPTOR : Z;
  RADAR_INTERCEPTOR : Z;
}.

(** [flags & mask] used as a condition. *)
Definition has_flag (flags mask : Z) : bool := negb (Z.land flags mask =? 0).

(** [CarControllerParams]: the two maxima the controller reads, and the
    limiter parameters of each torque path (maximum rate of change, driver
    override threshold and factor). *)
Record CarControllerParams : Type := {
  STEER_MAX : Z;
  STEER_DELTA_MAX : Z;
  STEER_DRIVER_ALLOWANCE : Z;
  STEER_DRIVER_FACTOR : Z;
  TI_STEER_MAX : Z;
  TI_STEER_DELTA_MAX : Z;
  TI_STEER_DRIVER_ALLOWANCE : Z;
  TI_STEER_DRIVER_FACTOR : Z;
}.

(** A decoded bus message: signal name to value. *)
Abbreviation dict := (gmap string pynum).

(** [d[k]] *)
Definition getitem (d : dict) (k : string) : result pynum :=
  match d !! k with
  | Some v => inr v
  | None => inl (KeyError k)
  end.

Record Actuators : Type := {
  steer : float;
  accel : float;
  longControlState : LongCtrlState.t;
}.

Module CruiseControl.
Record t : Type := { cancel : bool; resume : bool; override : bool }.
End CruiseControl.

Record CarControl : Type := {
  latActive : bool;
  longActive : bool;
  actuators : Actuators;
  cruiseControl : CruiseControl.t;
  visualAlert : VisualAlert.t;          (* CC.hudControl.visualAlert *)
}.

(** [CS.out] *)
Record CarStateOut : Type := {
  steeringTorque : float;
  brakePressed : bool;
  gasPressed : bool;
  standstill : bool;
}.

Record CarState : Type := {
  out : CarStateOut;
  acc : dict;
  crz_info : dict;
  crz_btns_counter : pynum;
  cam_laneinfo : dict;
  cam_lkas : dict;
  ti_lkas_allowed : bool;
  lkas_allowed_speed : bool;
}.

Definition set_acc (d : dict) (cs : CarState) : CarState :=
  {| out := out cs; acc := d; crz_info := crz_info cs;
     crz_btns_counter := crz_btns_counter cs; cam_laneinfo := cam_laneinfo cs;
     cam_lkas := cam_lkas cs; ti_lkas_allowed := ti_lkas_allowed cs;
     lkas_allowed_speed := lkas_allowed_speed cs |}.

Definition set_crz_info (d : dict) (cs : CarState) : CarState :=
  {| out := out cs; acc := acc cs; crz_info := d;
     crz_btns_counter := crz_btns_counter cs; cam_laneinfo := cam_laneinfo cs;
     cam_lkas := cam_lkas cs; ti_lkas_allowed := ti_lkas_allowed cs;
     lkas_allowed_speed := lkas_allowed_speed cs |}.

(** The echo returned to the caller: a copy of [CC.actuators] with the two
    steering fields written. *)
Record ActuatorsBuilder : Type := {
  base : Actuators;
  new_steer : pynum;
  steerOutputCan : Z;
}.

(** Modelled from the spec: the frames of [mazdacan] (the encoder is not in
    src/). Each frame is tagged with its semantic type and carries the
    arguments the controller passes to its constructor, the packer and car
    parameters apart. *)
Inductive Command : Type :=
| ButtonCommand (counter : pynum) (button : Buttons.t)
| AlertCommand (laneinfo : dict) (ldw steer_required : bool)
| AuxiliaryAccelCommand (frame : Z) (long_active : bool) (cs : CarState) (hold : bool)
| AccCommand (acc_msg : dict) (hold resume : bool)
| SteeringControl (frame : Z) (apply_steer : Z) (lkas : dict).

Definition create_button_cmd (counter : pynum) (button : Buttons.t) : Command :=
  ButtonCommand counter button.
Definition create_alert_command (laneinfo : dict) (ldw steer_required : bool) : Command :=
  AlertCommand laneinfo ldw steer_required.
Definition create_radar_command (frame : Z) (long_active : bool) (cs : CarState)
    (hold : bool) : list Command :=
  [AuxiliaryAccelCommand frame long_active cs hold].
Definition create_acc_cmd (acc_msg : dict) (hold resume : bool) : Command :=
  AccCommand acc_msg hold resume.
Definition create_steering_control (frame apply_steer : Z) (lkas : dict) : list Command :=
  [SteeringControl frame apply_steer lkas].

Definition is_steering (c : Command) : bool :=
  match c with
  | SteeringControl _ _ _ => true
  | _ => false
  end.

Definition is_cancel_button (c : Command) : bool :=
  match c with
  | ButtonCommand _ Buttons.CANCEL => true
  | _ => false
  end.

(** ** Timers *)

(** The control period in seconds. *)
Definition DT_CTRL : float := 0.01.

(** Modelled from the spec: [ControlsTimer] of [common/realtime.py] (not in
    src/). A timer has a duration and the time elapsed since its last reset;
    [reset] sets the elapsed time to zero, a tick advances it by the fixed
    period, and the timer is active while the elapsed time is less than the
    duration. *)
Module Timer.
Record t : Type := { duration : float; elapsed : float }.

Definition new (d : float) : t := {| duration := d; elapsed := 0 |}.
Definition reset (tm : t) : t := {| duration := duration tm; elapsed := 0 |}.
Definition advance (tm : t) : t :=
  {| duration := duration tm; elapsed := (elapsed tm + DT_CTRL)%float |}.
Definition active (tm : t) : bool := (elapsed tm <? duration tm)%float.
End Timer.

(** ** The acceleration filter *)

(** [FirstOrderFilter] of [common/filter_simple.py] is not in src/; the
    controller is defined over any implementation of the three operations it
    calls: the constructor [FirstOrderFilter(x0, rc, dt, initialized)],
    [update_alpha] and [update]. *)
Class FirstOrderFilter (F : Type) : Type := {
  filter_new : float -> float -> float -> bool -> F;
  filter_update_alpha : pynum -> F -> result F;
  filter_update : pynum -> F -> result (F * pynum);
}.

(** Modelled from the spec: the filter of section 4.3, state [alpha],
    [lastOutput] and [initialized]. [update_alpha] sets the coefficient,
    clamped to (0,1]: a value above 1 becomes 1 and, the interval being open
    at 0, a value that is not positive becomes the smallest positive float
    (the spec names no value for that case). [update] returns its input and
    marks the filter initialized the first time;
    afterwards [alpha * input + (1 - alpha) * lastOutput]. *)
Module SpecFilter.
Record t : Type := { alpha : float; x : pynum; initialized : bool }.

Definition min_positive : float := next_up 0.

Definition clamp_alpha (a : float) : float :=
  if (1 <? a)%float then 1%float
  else if (a <=? 0)%float then min_positive
  else a.

Definition update_alpha (a : pynum) (f : t) : result t :=
  result_bind (to_float a) (fun a =>
    inr {| alpha := clamp_alpha a; x := x f; initialized := initialized f |}).

Definition new (x0 rc dt : float) (init : bool) : t :=
  {| alpha := clamp_alpha rc; x := PyFloat x0; initialized := init |}.

Definition update (input : pynum) (f : t) : result (t * pynum) :=
  if initialized f then
    result_bind (PyNum.mul (PyFloat (alpha f)) input) (fun a =>
    result_bind (PyNum.mul (PyFloat (1 - alpha f)) (x f)) (fun b =>
    result_bind (PyNum.add a b) (fun y =>
      inr ({| alpha := alpha f; x := y; initialized := true |}, y))))
  else
    inr ({| alpha := alpha f; x := input; initialized := true |}, input).

#[global] Instance ops : FirstOrderFilter t :=
  {| filter_new := new; filter_update_alpha := update_alpha; filter_update := update |}.
End SpecFilter.

(** ** Steering limiters *)

(** [clip(x, lo, hi)] *)
Definition clip (x lo hi : Z) : Z := Z.max lo (Z.min x hi).

(** The driver torque opposes the requested torque: opposite signs. *)
Definition driver_opposes (torque : Z) (driver_torque : float) : bool :=
  ((0 <? torque) && (driver_torque <? 0)%float)
  || ((torque <? 0) && (0 <? driver_torque)%float).

(** The magnitude allowed to the controller: the maximum, reduced in
    proportion to the amount by which an opposing driver torque exceeds the
    override threshold, and never below zero. *)
Definition allowed_magnitude (torque : Z) (driver_torque : float)
    (max_torque allowance factor : Z) : Z :=
  if driver_opposes torque driver_torque
     && PyNum.lt (PyInt allowance) (PyFloat (PrimFloat.abs driver_torque))
  then
    match float_to_Z trunc_mag (PrimFloat.abs driver_torque) with
    | inr d => Z.max 0 (Z.min max_torque (max_torque - factor * (d - allowance)))
    | inl _ => 0
    end
  else max_torque.

(** Modelled from the spec: the limiter of section 4.2 behind
    [apply_driver_steer_torque_limits] and [apply_ti_steer_torque_limits]
    ([selfdrive/car/__init__.py] is not in src/). The requested torque is
    clamped (c) to the magnitude the driver torque allows, which is (a) at
    most the maximum, and then (b) to within the maximum rate of change of
    the previous applied value. *)
Definition limit_steer_torque (apply_torque apply_torque_last : Z)
    (driver_torque : float) (max_torque delta allowance factor : Z) : Z :=
  let allowed := allowed_magnitude apply_torque driver_torque max_torque allowance factor in
  let limited := clip apply_torque (- allowed) allowed in
  clip limited (apply_torque_last - delta) (apply_torque_last + delta).

Definition apply_driver_steer_torque_limits (apply_torque apply_torque_last : Z)
    (driver_torque : float) (LIMITS : CarControllerParams) : Z :=
  limit_steer_torque apply_torque apply_torque_last driver_torque
    (STEER_MAX LIMITS) (STEER_DELTA_MAX LIMITS)
    (STEER_DRIVER_ALLOWANCE LIMITS) (STEER_DRIVER_FACTOR LIMITS).

Definition apply_ti_steer_torque_limits (apply_torque apply_torque_last : Z)
    (driver_torque : float) (LIMITS : CarControllerParams) : Z :=
  limit_steer_torque apply_torque apply_torque_last driver_torque
    (TI_STEER_MAX LIMITS) (TI_STEER_DELTA_MAX LIMITS)
    (TI_STEER_DRIVER_ALLOWANCE LIMITS) (TI_STEER_DRIVER_FACTOR LIMITS).

(** ** The parameter stores *)

(** Modelled from the spec: the key-value stores behind [Params]
    ([common/params.py] is not in src/). A key that cannot be resolved reads
    as its default: false for a flag, 0 for an integer. *)
Definition get_bool (store : gmap string bool) (key : string) : bool :=
  default false (store !! key).
Definition get_int (store : gmap string Z) (key : string) : Z :=
  default 0 (store !! key).
Definition put_int (key : string) (v : Z) (store : gmap string Z) : gmap string Z :=
  <[key := v]> store.

(** The limiter parameters are usable: no maximum is negative. *)
Definition limits_well_formed (P : CarControllerParams) : Prop :=
  0 <= STEER_MAX P /\ 0 <= STEER_DELTA_MAX P
  /\ 0 <= TI_STEER_MAX P /\ 0 <= TI_STEER_DELTA_MAX P.

(** One step of the stock-transition counter: unchanged, one up below 20,
    held at 20, or one down above 0. *)
Definition counter_step (c c' : Z) : Prop :=
  c' = c \/ c < 20 /\ c' = c + 1 \/ 20 <= c /\ c' = 20 \/ 0 < c /\ c' = c - 1.

(** ** The controller *)

Section Controller.

Context {F : Type} {FOF : FirstOrderFilter F}.
Variable MazdaFlags : MazdaFlagsT.

(** The attributes of [self]. [CP_flags] is [self.CP.flags]; the packer has
    no state; the two [Params] handles are in the [World]. *)
Record CarController : Type := {
  CP_flags : Z;
  apply_steer_last : Z;
  ti_apply_steer_last : Z;
  brake_counter : Z;
  frame : Z;
  ccp : CarControllerParams;
  hold_timer : Timer.t;
  hold_delay : Timer.t;
  resume_timer : Timer.t;
  cancel_delay : Timer.t;
  acc_filter : F;
  filtered_acc_last : pynum;
}.

(** The mutable objects [update] reads and writes: the controller, the car
    state [CS] handed in by the caller, the persistent store of toggles
    ([Params()]), the shared-memory store ([Params("/dev/shm/params")]) and
    the count of ticks of the timer class. *)
Record World : Type := {
  self : CarController;
  CS : CarState;
  params : gmap string bool;
  params_memory : gmap string Z;
  Timer_ticks : Z;
}.

Definition with_self (f : CarController -> CarController) (w : World) : World :=
  {| self := f (self w); CS := CS w; params := params w;
     params_memory := params_memory w; Timer_ticks := Timer_ticks w |}.

Definition with_CS (f : CarState -> CarState) (w : World) : World :=
  {| self := self w; CS := f (CS w); params := params w;
     params_memory := params_memory w; Timer_ticks := Timer_ticks w |}.

Definition with_params_memory (f : gmap string Z -> gmap string Z) (w : World) : World :=
  {| self := self w; CS := CS w; params := params w;
     params_memory := f (params_memory w); Timer_ticks := Timer_ticks w |}.

Definition set_steer_last (a t : Z) (c : CarController) : CarController :=
  {| CP_flags := CP_flags c; apply_steer_last := a; ti_apply_steer_last := t;
     brake_counter := brake_counter c; frame := frame c; ccp := ccp c;
     hold_timer := hold_timer c; hold_delay := hold_delay c;
     resume_timer := resume_timer c; cancel_delay := cancel_delay c;
     acc_filter := acc_filter c; filtered_acc_last := filtered_acc_last c |}.

Definition set_brake_counter (n : Z) (c : CarController) : CarController :=
  {| CP_flags := CP_flags c; apply_steer_last := apply_steer_last c;
     ti_apply_steer_last := ti_apply_steer_last c;
     brake_counter := n; frame := frame c; ccp := ccp c;
     hold_timer := hold_timer c; hold_delay := hold_delay c;
     resume_timer := resume_timer c; cancel_delay := cancel_delay c;
     acc_filter := acc_filter c; filtered_acc_last := filtered_acc_last c |}.

Definition set_frame (n : Z) (c : CarController) : CarController :=
  {| CP_flags := CP_flags c; apply_steer_last := apply_steer_last c;
     ti_apply_steer_last := ti_apply_steer_last c;
     brake_counter := brake_counter c; frame := n; ccp := ccp c;
     hold_timer := hold_timer c; hold_delay := hold_delay c;
     resume_timer := resume_timer c; cancel_delay := cancel_delay c;
     acc_filter := acc_filter c; filtered_acc_last := filtered_acc_last c |}.

Definition set_timers (ht hd rt cd : Timer.t) (c : CarController) : CarController :=
  {| CP_flags := CP_flags c; apply_steer_last := apply_steer_last c;
     ti_apply_steer_last := ti_apply_steer_last c;
     brake_counter := brake_counter c; frame := frame c; ccp := ccp c;
     hold_timer := ht; hold_delay := hd; resume_timer := rt; cancel_delay := cd;
     acc_filter := acc_filter c; filtered_acc_last := filtered_acc_last c |}.

Definition set_hold_timer (t : Timer.t) (c : CarController) : CarController :=
  set_timers t (hold_delay c) (resume_timer c) (cancel_delay c) c.
Definition set_hold_delay (t : Timer.t) (c : CarController) : CarController :=
  set_timers (hold_timer c) t (resume_timer c) (cancel_delay c) c.
Definition set_resume_timer (t : Timer.t) (c : CarController) : CarController :=
  set_timers (hold_timer c) (hold_delay c) t (cancel_delay c) c.

Definition set_acc_filter (f : F) (c : CarController) : CarController :=
  {| CP_flags := CP_flags c; apply_steer_last := apply_steer_last c;
     ti_apply_steer_last := ti_apply_steer_last c;
     brake_counter := brake_counter c; frame := frame c; ccp := ccp c;
     hold_timer := hold_timer c; hold_delay := hold_delay c;
     resume_timer := resume_timer c; cancel_delay := cancel_delay c;
     acc_filter := f; filtered_acc_last := filtered_acc_last c |}.

Definition set_filtered_acc_last (x : pynum) (c : CarController) : CarController :=
  {| CP_flags := CP_flags c; apply_steer_last := apply_steer_last c;
     ti_apply_steer_last := ti_apply_steer_last c;
     brake_counter := brake_counter c; frame := frame c; ccp := ccp c;
     hold_timer := hold_timer c; hold_delay := hold_delay c;
     resume_timer := resume_timer c; cancel_delay := cancel_delay c;
     acc_filter := acc_filter c; filtered_acc_last := x |}.

(** *** The state-and-exception monad *)

(** A statement: from the objects as they are to a value or a raised
    exception, and the objects as the statement leaves them. An exception
    keeps the writes made before it. *)
Definition M (A : Type) : Type := World -> result A * World.

#[local] Instance M_ret : MRet M := fun A a w => (inr a, w).

#[local] Instance M_bind : MBind M := fun A B k m w =>
  match m w with
  | (inl e, w') => (inl e, w')
  | (inr a, w') => k a w'
  end.

Definition gets {A} (f : World -> A) : M A := fun w => (inr (f w), w).
Definition modify (f : World -> World) : M unit := fun w => (inr tt, f w).
Definition lift {A} (r : result A) : M A := fun w => (r, w).

(** [self.acc_filter.update_alpha(a)] *)
Definition acc_filter_update_alpha (a : pynum) : M unit :=
  f ← gets (fun w => acc_filter (self w));
  f' ← lift (filter_update_alpha a f);
  modify (with_self (set_acc_filter f')).

(** [self.acc_filter.update(x)] *)
Definition acc_filter_update (x : pynum) : M pynum :=
  f ← gets (fun w => acc_filter (self w));
  '(f', y) ← lift (filter_update x f);
  modify (with_self (set_acc_filter f'));;
  mret y.

(** [Timer.interval(n)]: true on every [n]-th tick of the timer class. *)
Definition Timer_interval (n : Z) : M bool :=
  gets (fun w => Timer_ticks w mod n =? 0).

(** [Timer.tick()]: the one global advance of every timer. *)
Definition Timer_tick : M unit :=
  modify (fun w =>
    {| self := set_timers (Timer.advance (hold_timer (self w)))
                          (Timer.advance (hold_delay (self w)))
                          (Timer.advance (resume_timer (self w)))
                          (Timer.advance (cancel_delay (self w))) (self w);
       CS := CS w; params := params w; params_memory := params_memory w;
       Timer_ticks := Timer_ticks w + 1 |}).

(** *** [CarController.__init__] *)

Definition init (flags : Z) (P : CarControllerParams) : CarController :=
  {| CP_flags := flags;
     apply_steer_last := 0;
     ti_apply_steer_last := 0;
     brake_counter := 0;
     frame := 0;
     ccp := P;
     hold_timer := Timer.new 6.0;
     hold_delay := Timer.new 0.5;
     resume_timer := Timer.new 0.5;
     cancel_delay := Timer.new 0.07;
     acc_filter := filter_new 0.0 0.1 DT_CTRL false;
     filtered_acc_last := PyInt 0 |}.

(** The objects after construction: the constructor writes the two counters
    of the shared-memory store; [cs] is the car state object the caller will
    hand to [update]. *)
Definition init_world (flags : Z) (P : CarControllerParams) (cs : CarState)
    (toggles : gmap string bool) (memory : gmap string Z) : World :=
  {| self := init flags P;
     CS := cs;
     params := toggles;
     params_memory := put_int "Coasting" 0 (put_int "CEFramesCounter" 0 memory);
     Timer_ticks := 0 |}.

(** *** [CarController.update] *)

(** The nested function [is_resuming]. The chain of [or] stops at the first
    true operand, so the stock RESUME signal is only read when the others
    are false. *)
Definition is_resuming (CC : CarControl) : M bool :=
  cs ← gets CS;
  if CruiseControl.resume (cruiseControl CC)
     || CruiseControl.override (cruiseControl CC)
     || gasPressed (out cs)
     || bool_decide (longControlState (actuators CC) = LongCtrlState.starting)
  then mret true
  else
    v ← lift (getitem (acc cs) "RESUME");
    mret (truthy v).

(** [int(round(fraction * maximum))] *)
Definition scaled_steer (fraction : float) (maximum : Z) : result Z :=
  result_bind (PyNum.mul (PyFloat fraction) (PyInt maximum)) PyNum.round.

(** Lines 43-57: the applied steering torque of both paths, stored as the
    previous value of the next cycle. *)
Definition update_steer (CC : CarControl) : M (Z * Z) :=
  '(apply_steer, ti_apply_steer) ←
    (if latActive CC then
       c ← gets self;
       cs ← gets CS;
       new_steer ← lift (scaled_steer (steer (actuators CC)) (STEER_MAX (ccp c)));
       let apply_steer :=
         apply_driver_steer_torque_limits new_steer (apply_steer_last c)
           (steeringTorque (out cs)) (ccp c) in
       ti_apply_steer ←
         (if has_flag (CP_flags c) (TORQUE_INTERCEPTOR MazdaFlags) then
            if ti_lkas_allowed cs then
              ti_new_steer ← lift (scaled_steer (steer (actuators CC)) (TI_STEER_MAX (ccp c)));
              mret (apply_ti_steer_torque_limits ti_new_steer (ti_apply_steer_last c)
                      (steeringTorque (out cs)) (ccp c))
            else mret 0
          else mret 0);
       mret (apply_steer, ti_apply_steer)
     else mret (0, 0));
  modify (with_self (set_steer_last apply_steer ti_apply_steer));;
  mret (apply_steer, ti_apply_steer).

(** Lines 60-75: the cancel debounce and the resume button. *)
Definition gen1_buttons (CC : CarControl) : M (list Command) :=
  cs ← gets CS;
  if CruiseControl.cancel (cruiseControl CC) then
    modify (with_self (fun c => set_brake_counter (brake_counter c + 1) c));;
    c ← gets self;
    if (frame c mod 10 =? 0) && negb (brakePressed (out cs) && (brake_counter c <? 7))
    then mret [create_button_cmd (crz_btns_counter cs) Buttons.CANCEL]
    else mret []
  else
    modify (with_self (set_brake_counter 0));;
    c ← gets self;
    if CruiseControl.resume (cruiseControl CC) && (frame c mod 5 =? 0)
    then mret [create_button_cmd (crz_btns_counter cs) Buttons.RESUME]
    else mret [].

(** Lines 78-83: the HUD alert. *)
Definition gen1_hud (CC : CarControl) : M (list Command) :=
  c ← gets self;
  cs ← gets CS;
  if frame c mod 50 =? 0 then
    let ldw := bool_decide (visualAlert CC = VisualAlert.ldw) in
    let steer_required := bool_decide (visualAlert CC = VisualAlert.steerRequired) in
    let steer_required := steer_required && lkas_allowed_speed cs in
    mret [create_alert_command (cam_laneinfo cs) ldw steer_required]
  else mret [].

(** Lines 86-90: the hold flag of the radar path. *)
Definition gen1_radar_hold : M bool :=
  cs ← gets CS;
  if standstill (out cs) then
    gets (fun w => Timer.active (hold_timer (self w)))
  else
    modify (with_self (fun c => set_hold_timer (Timer.reset (hold_timer c)) c));;
    mret false.

(** [abs(x - self.filtered_acc_last) / 1000] *)
Definition alpha_of_change (x last : pynum) : result pynum :=
  result_bind (PyNum.sub x last) (fun d => PyNum.truediv (PyNum.abs d) (PyInt 1000)).

(** Lines 92-108: the acceleration command of the radar path. *)
Definition gen1_radar_accel (CC : CarControl) : M unit :=
  if longActive CC then
    raw_acc_output ← lift (PyNum.mul (PyFloat (accel (actuators CC))) (PyInt 1150));
    let raw_acc_output := PyNum.max (PyInt (-1000)) (PyNum.min raw_acc_output (PyInt 1000)) in
    blended ← gets (fun w => get_bool (params w) "BlendedACC");
    if blended : bool then
      CEStatus ← gets (fun w => get_int (params_memory w) "CEStatus");
      filtered_acc_output ←
        (if negb (CEStatus =? 0) then
           last ← gets (fun w => filtered_acc_last (self w));
           a ← lift (alpha_of_change raw_acc_output last);
           acc_filter_update_alpha a;;
           y ← acc_filter_update raw_acc_output;
           lift (PyNum.int y)
         else
           cs ← gets CS;
           stock ← lift (getitem (crz_info cs) "ACCEL_CMD");
           last ← gets (fun w => filtered_acc_last (self w));
           a ← lift (alpha_of_change stock last);
           acc_filter_update_alpha a;;
           stock ← lift (getitem (crz_info cs) "ACCEL_CMD");
           y ← acc_filter_update stock;
           lift (PyNum.int y));
      modify (with_CS (fun cs =>
        set_crz_info (<["ACCEL_CMD" := PyInt filtered_acc_output]> (crz_info cs)) cs));;
      modify (with_self (set_filtered_acc_last (PyInt filtered_acc_output)))
    else
      (* acc_output = raw_acc_output: a local that is not read again *)
      mret tt
  else mret tt.

(** Lines 85-111: the radar path of a GEN1 car. *)
Definition gen1_radar (CC : CarControl) : M (list Command) :=
  hold ← gen1_radar_hold;
  gen1_radar_accel CC;;
  c ← gets self;
  cs ← gets CS;
  if frame c mod 2 =? 0
  then mret (create_radar_command (frame c) (longActive CC) cs hold)
  else mret [].

(** Lines 116-120: the raw acceleration output of a GEN2 car. *)
Definition gen2_raw_acc_output (CC : CarControl) : M pynum :=
  resuming ← is_resuming CC;
  blended ← gets (fun w => get_bool (params w) "BlendedACC");
  CEFramesCounter ← gets (fun w => get_int (params_memory w) "CEFramesCounter");
  if resuming && blended && (CEFramesCounter =? 0) then
    cs ← gets CS;
    lift (getitem (acc cs) "ACCEL_CMD")
  else
    scaled ← lift (PyNum.mul (PyFloat (accel (actuators CC))) (PyInt 240));
    lift (PyNum.add scaled (PyInt 2000)).

(** [n / 500 + 0.01] *)
Definition alpha_of_counter (n : Z) : result pynum :=
  result_bind (PyNum.truediv (PyInt n) (PyInt 500)) (fun q => PyNum.add q (PyFloat 0.01)).

(** Lines 122-143: blending with the stock command. *)
Definition gen2_acc_output (raw_acc_output : pynum) : M pynum :=
  blended ← gets (fun w => get_bool (params w) "BlendedACC");
  if blended : bool then
    CEFramesCounter ← gets (fun w => get_int (params_memory w) "CEFramesCounter");
    CEStatus ← gets (fun w => get_int (params_memory w) "CEStatus");
    filtered_acc_output ←
      (if negb (CEStatus =? 0) then
         a ← lift (alpha_of_counter (20 - CEFramesCounter));
         acc_filter_update_alpha a;;
         y ← acc_filter_update raw_acc_output;
         filtered ← lift (PyNum.int y);
         modify (with_params_memory (put_int "CEFramesCounter"
           (if CEFramesCounter <? 20 then CEFramesCounter + 1 else 20)));;
         mret (PyInt filtered)
       else
         if 0 <? CEFramesCounter then
           a ← lift (alpha_of_counter CEFramesCounter);
           acc_filter_update_alpha a;;
           cs ← gets CS;
           stock ← lift (getitem (acc cs) "ACCEL_CMD");
           y ← acc_filter_update stock;
           filtered ← lift (PyNum.int y);
           modify (with_params_memory (put_int "CEFramesCounter"
             (if 0 <? CEFramesCounter then CEFramesCounter - 1 else 0)));;
           mret (PyInt filtered)
         else
           cs ← gets CS;
           lift (getitem (acc cs) "ACCEL_CMD"));
    modify (with_self (set_filtered_acc_last filtered_acc_output));;
    mret filtered_acc_output
  else mret raw_acc_output.

(** Lines 153-154: the write-back into the outgoing ACC message. *)
Definition gen2_write_back (CC : CarControl) (acc_output : pynum) : M unit :=
  experimental ← gets (fun w => get_bool (params w) "ExperimentalLongitudinalEnabled");
  if experimental && longActive CC then
    modify (with_CS (fun cs => set_acc (<["ACCEL_CMD" := acc_output]> (acc cs)) cs))
  else mret tt.

(** Lines 167-178: the hold and resume flags of one 50 Hz tick. *)
Definition gen2_hold_resume (CC : CarControl) : M (bool * bool) :=
  cs ← gets CS;
  hold ←
    (if standstill (out cs) then
       delaying ← gets (fun w => Timer.active (hold_delay (self w)));
       if negb delaying then
         resuming ← is_resuming CC;
         if resuming : bool then
           modify (with_self (fun c => set_resume_timer (Timer.reset (resume_timer c)) c));;
           mret false
         else gets (fun w => Timer.active (hold_timer (self w)))
       else mret false
     else
       modify (with_self (fun c => set_hold_timer (Timer.reset (hold_timer c)) c));;
       modify (with_self (fun c => set_hold_delay (Timer.reset (hold_delay c)) c));;
       mret false);
  resume ← gets (fun w => Timer.active (resume_timer (self w)));
  mret (hold, resume).

(** Lines 157-179: the ACC command, sent at 50 Hz. *)
Definition gen2_acc_cmd (CC : CarControl) : M (list Command) :=
  tick ← Timer_interval 2;
  if tick : bool then
    '(hold, resume) ← gen2_hold_resume CC;
    cs ← gets CS;
    mret [create_acc_cmd (acc cs) hold resume]
  else mret [].

(** Lines 113-179: a GEN2 car. *)
Definition gen2 (CC : CarControl) : M (list Command) :=
  raw_acc_output ← gen2_raw_acc_output CC;
  acc_output ← gen2_acc_output raw_acc_output;
  gen2_write_back CC acc_output;;
  gen2_acc_cmd CC.

(** Lines 59-111: a GEN1 car. *)
Definition gen1 (CC : CarControl) : M (list Command) :=
  buttons ← gen1_buttons CC;
  alert ← gen1_hud CC;
  c ← gets self;
  radar ←
    (if has_flag (CP_flags c) (RADAR_INTERCEPTOR MazdaFlags)
     then gen1_radar CC
     else mret []);
  mret (buttons ++ alert ++ radar).

(** Line 59: the branch on the generation. *)
Definition generation_block (CC : CarControl) : M (list Command) :=
  c ← gets self;
  if has_flag (CP_flags c) (GEN1 MazdaFlags) then gen1 CC else gen2 CC.

Definition update (CC : CarControl) : M (ActuatorsBuilder * list Command) :=
  '(apply_steer, ti_apply_steer) ← update_steer CC;
  can_sends ← generation_block CC;
  c ← gets self;
  cs ← gets CS;
  let can_sends := can_sends ++ create_steering_control (frame c) apply_steer (cam_lkas cs) in
  steer_fraction ← lift (PyNum.truediv (PyInt apply_steer) (PyInt (STEER_MAX (ccp c))));
  let new_actuators :=
    {| base := actuators CC; new_steer := steer_fraction; steerOutputCan := apply_steer |} in
  modify (with_self (fun c => set_frame (frame c + 1) c));;
  Timer_tick;;
  mret (new_actuators, can_sends).

(** Lines 189-190: the writes that end a cycle, [self.frame += 1] and
    [Timer.tick()]. *)
Definition end_of_cycle (w : World) : World :=
  snd ((modify (with_self (fun c => set_frame (frame c + 1) c));; Timer_tick) w).

(** *** Cycles *)

(** What one control cycle brings from outside: the planner's intent, the
    decoded car state, the toggles of the persistent store as they are this
    cycle, and the writes other processes made to the shared-memory store
    since the previous cycle. *)
Record CycleInput : Type := {
  in_CC : CarControl;
  in_CS : CarState;
  in_params : gmap string bool;
  in_memory_writes : list (string * Z);
}.

Definition apply_writes (writes : list (string * Z)) (store : gmap string Z) : gmap string Z :=
  fold_left (fun m kv => put_int (fst kv) (snd kv) m) writes store.

Definition enter (i : CycleInput) (w : World) : World :=
  {| self := self w;
     CS := in_CS i;
     params := in_params i;
     params_memory := apply_writes (in_memory_writes i) (params_memory w);
     Timer_ticks := Timer_ticks w |}.

(** One call of [update]: its outcome and the objects it leaves. *)
Definition cycle (i : CycleInput) (w : World) : result (ActuatorsBuilder * list Command) * World :=
  update (in_CC i) (enter i w).

(** The frames a cycle puts on the bus: [can_sends] when [update] returns,
    none when it raises. *)
Definition emitted (r : result (ActuatorsBuilder * list Command)) : list Command :=
  match r with
  | inr (_, can_sends) => can_sends
  | inl _ => []
  end.

(** The objects after a sequence of cycles. *)
Definition run (inputs : list CycleInput) (w : World) : World :=
  fold_left (fun w i => snd (cycle i w)) inputs w.

(** The outcome of each cycle of a sequence, in order. *)
Fixpoint outcomes (inputs : list CycleInput) (w : World)
    : list (result (ActuatorsBuilder * list Command)) :=
  match inputs with
  | [] => []
  | i :: rest => fst (cycle i w) :: outcomes rest (snd (cycle i w))
  end.

(** What the acceleration blocks may write: the filter, the last filtered
    value, the stock command of the radar path and the shared-memory store. *)
Definition accel_writes (f : F) (x : pynum) (d : gmap string pynum) (m : gmap string Z)
    (w : World) : World :=
  with_params_memory (fun _ => m)
    (with_CS (set_crz_info d)
       (with_self (fun c => set_filtered_acc_last x (set_acc_filter f c)) w)).

(** The stock ACC message [a] is the incoming one with its acceleration
    command overwritten by the command computed this cycle. *)
Definition written_back (CC : CarControl) (w : World) (a : gmap string pynum) : Prop :=
  exists raw_acc_output acc_output,
    fst (gen2_raw_acc_output CC w) = inr raw_acc_output
    /\ fst (gen2_acc_output raw_acc_output w) = inr acc_output
    /\ a = <["ACCEL_CMD" := acc_output]> (acc (CS w)).

(** [True] when the call returned. *)
Definition returned {A} (r : result A) : bool :=
  match r with
  | inr _ => true
  | inl _ => false
  end.

(** The cancel-button frames of a cycle. *)
Definition cancel_frames (r : result (ActuatorsBuilder * list Command)) : list Command :=
  List.filter is_cancel_button (emitted r).

(** The stock-transition counter, as the shared-memory store holds it. *)
Definition CEFramesCounter (w : World) : Z :=
  get_int (params_memory w) "CEFramesCounter".

(** Another process writes the transition counter before this cycle. *)
Definition writes_counter (i : CycleInput) : bool :=
  existsb (fun kv => bool_decide (fst kv = "CEFramesCounter")) (in_memory_writes i).

(** The same cycle with another acceleration command from the planner. *)
Definition with_accel (a : float) (i : CycleInput) : CycleInput :=
  {| in_CC :=
       {| latActive := latActive (in_CC i);
          longActive := longActive (in_CC i);
          actuators :=
            {| steer := steer (actuators (in_CC i));
               accel := a;
               longControlState := longControlState (actuators (in_CC i)) |};
          cruiseControl := cruiseControl (in_CC i);
          visualAlert := visualAlert (in_CC i) |};
     in_CS := in_CS i;
     in_params := in_params i;
     in_memory_writes := in_memory_writes i |}.

(** Cancel intent is held and the brake is not pressed. *)
Definition cancel_held (i : CycleInput) : bool :=
  CruiseControl.cancel (cruiseControl (in_CC i)) && negb (brakePressed (out (in_CS i))).

(** Neither lateral nor long control is active. *)
Definition disengaged (i : CycleInput) : bool :=
  negb (latActive (in_CC i)) && negb (longActive (in_CC i)).

(** The condition under which line 69 appends a cancel-button frame. *)
Definition cancel_due (i : CycleInput) (w : World) : bool :=
  has_flag (CP_flags (self w)) (GEN1 MazdaFlags)
  && CruiseControl.cancel (cruiseControl (in_CC i))
  && (frame (self w) mod 10 =? 0)
  && negb (brakePressed (out (in_CS i)) && (brake_counter (self w) + 1 <? 7)).

(** All cancel-button frames of a sequence of cycles. *)
Definition all_cancel_frames (inputs : list CycleInput) (w : World) : list Command :=
  concat (List.map cancel_frames (outcomes inputs w)).

(** The zero-indexed offsets of the cycles of a sequence that emit a
    cancel-button frame. *)
Definition cancel_offsets (inputs : list CycleInput) (w : World) : list nat :=
  List.map fst
    (List.filter (fun kr => negb (Nat.eqb (length (cancel_frames (snd kr))) 0))
       (combine (seq 0 (length inputs)) (outcomes inputs w))).

(** The previous applied torques are within the configured maxima. *)
Definition steer_bounded (w : World) : Prop :=
  Z.abs (apply_steer_last (self w)) <= STEER_MAX (ccp (self w))
  /\ Z.abs (ti_apply_steer_last (self w)) <= TI_STEER_MAX (ccp (self w)).

(** A resume condition holds (the operands of [is_resuming]). *)
Definition resume_requested (CC : CarControl) (cs : CarState) : bool :=
  CruiseControl.resume (cruiseControl CC)
  || CruiseControl.override (cruiseControl CC)
  || gasPressed (out cs)
  || bool_decide (longControlState (actuators CC) = LongCtrlState.starting)
  || match acc cs !! "RESUME" with
     | Some v => truthy v
     | None => false
     end.

End Controller.

Arguments CarController : clear implicits.
Arguments World : clear implicits.

(** ** A concrete car *)

(** An assignment of the flag bits, for the examples. *)
Definition example_flags : MazdaFlagsT :=
  {| GEN1 := 1; TORQUE_INTERCEPTOR := 2; RADAR_INTERCEPTOR := 4 |}.

Definition example_ccp : CarControllerParams :=
  {| STEER_MAX := 800; STEER_DELTA_MAX := 10;
     STEER_DRIVER_ALLOWANCE := 15; STEER_DRIVER_FACTOR := 1;
     TI_STEER_MAX := 600; TI_STEER_DELTA_MAX := 6;
     TI_STEER_DRIVER_ALLOWANCE := 15; TI_STEER_DRIVER_FACTOR := 1 |}.

Definition example_out (standstill_ brake gas : bool) : CarStateOut :=
  {| steeringTorque := 0; brakePressed := brake; gasPressed := gas;
     standstill := standstill_ |}.

(** A car state whose stock ACC message commands 2000 (the zero point) and
    shows no resume. *)
Definition example_CS (standstill_ brake gas : bool) : CarState :=
  {| out := example_out standstill_ brake gas;
     acc := {[ "ACCEL_CMD" := PyFloat 2000; "RESUME" := PyFloat 0 ]};
     crz_info := {[ "ACCEL_CMD" := PyFloat 0 ]};
     crz_btns_counter := PyInt 0;
     cam_laneinfo := ∅;
     cam_lkas := ∅;
     ti_lkas_allowed := true;
     lkas_allowed_speed := true |}.

Definition example_CC (lat long cancel_ : bool) (steer_ accel_ : float) : CarControl :=
  {| latActive := lat;
     longActive := long;
     actuators := {| steer := steer_; accel := accel_;
                     longControlState := LongCtrlState.off |};
     cruiseControl := {| CruiseControl.cancel := cancel_;
                         CruiseControl.resume := false;
                         CruiseControl.override := false |};
     visualAlert := VisualAlert.none |}.

Definition example_input (CC : CarControl) (cs : CarState)
    (toggles : gmap string bool) : CycleInput :=
  {| in_CC := CC; in_CS := cs; in_params := toggles; in_memory_writes := [] |}.

(** The controller of the example car after construction, with the spec's
    filter; [flags] selects the generation and the interceptors. *)
Definition example_world (flags : Z) : World SpecFilter.t :=
  init_world flags example_ccp (example_CS false false false) ∅ ∅.

(** A cycle with nothing engaged: at standstill or moving, gas pressed or
    not. *)
Definition idle_input (standstill_ gas : bool) : CycleInput :=
  example_input (example_CC false false false 0 0) (example_CS standstill_ false gas) ∅.

(** A cycle with cancel intent, the car moving and the brake released. *)
Definition cancel_input : CycleInput :=
  example_input (example_CC false false true 0 0) (example_CS false false false) ∅.

(** A cycle with lateral control active and the given steering fraction. *)
Definition steer_input (fraction : float) : CycleInput :=
  example_input (example_CC true false false fraction 0) (example_CS false false false) ∅.

(** A cycle at standstill with long control active, the gas pressed and an
    acceleration command of 1 m/s^2. *)
Definition resume_input (toggles : gmap string bool) : CycleInput :=
  example_input (example_CC false true false 0 1) (example_CS true false true) toggles.

(** A cycle with long control active in blended mode, the stock system
    reported active by another process. *)
Definition blend_input : CycleInput :=
  {| in_CC := example_CC false true false 0 1;
     in_CS := example_CS false false false;
     in_params := {[ "BlendedACC" := true; "ExperimentalLongitudinalEnabled" := true ]};
     in_memory_writes := [("CEStatus", 1)] |}.

(** Sixty cycles at standstill, a resume request (gas) on the next, and one
    more cycle without. *)
Definition stop_and_go : list CycleInput :=
  repeat (idle_input true false) 60 ++ [idle_input true true; idle_input true false].

(** ** Observations on a sequence of cycles *)

(** The number of calls of a sequence that returned. *)
Definition returned_count {A} (rs : list (result A)) : Z :=
  Z.of_nat (length (List.filter returned rs)).

(** The kinds of frames. *)
Definition is_button (c : Command) : bool :=
  match c with
  | ButtonCommand _ _ => true
  | _ => false
  end.

Definition is_resume_button (c : Command) : bool :=
  match c with
  | ButtonCommand _ Buttons.RESUME => true
  | _ => false
  end.

Definition is_alert (c : Command) : bool :=
  match c with
  | AlertCommand _ _ _ => true
  | _ => false
  end.

Definition is_radar (c : Command) : bool :=
  match c with
  | AuxiliaryAccelCommand _ _ _ _ => true
  | _ => false
  end.

Definition is_acc (c : Command) : bool :=
  match c with
  | AccCommand _ _ _ => true
  | _ => false
  end.

(** The frames of one kind that a sequence of cycles puts on the bus. *)
Definition frames_of (kind : Command -> bool)
    (rs : list (result (ActuatorsBuilder * list Command))) : list Command :=
  concat (List.map (fun r => List.filter kind (emitted r)) rs).

(** The number of multiples of [period] among the [n] counts from [f] on. *)
Definition slots (period f n : Z) : Z :=
  (f + n + (period - 1)) / period - (f + (period - 1)) / period.

(** Resume intent is held and cancel intent is not. *)
Definition resume_held (i : CycleInput) : bool :=
  CruiseControl.resume (cruiseControl (in_CC i))
  && negb (CruiseControl.cancel (cruiseControl (in_CC i))).

(** Lines 93-94: the planner's acceleration scaled to the units of the radar
    path and clipped by [max(-1000, min(x, 1000))]. *)
Definition clipped_accel (a : float) : pynum :=
  PyNum.max (PyInt (-1000)) (PyNum.min (PyFloat (a * 1150)) (PyInt 1000)).

(** The status of the stock system, as another process left it in the
    shared-memory store. *)
Definition CEStatus {F : Type} (w : World F) : Z :=
  get_int (params_memory w) "CEStatus".

(** Blended mode is on and no other process writes the shared-memory store
    before the cycle. *)
Definition blended_undisturbed (i : CycleInput) : bool :=
  get_bool (in_params i) "BlendedACC"
  && bool_decide (in_memory_writes i = []).

(** Another process writes key [k] of the shared-memory store before this
    cycle. *)
Definition writes_key (k : string) (i : CycleInput) : bool :=
  existsb (fun kv => bool_decide (fst kv = k)) (in_memory_writes i).

(** One of the operands of [is_resuming] that are evaluated before the stock
    RESUME signal is read holds. *)
Definition resume_operands (CC : CarControl) (cs : CarState) : bool :=
  CruiseControl.resume (cruiseControl CC)
  || CruiseControl.override (cruiseControl CC)
  || gasPressed (out cs)
  || bool_decide (longControlState (actuators CC) = LongCtrlState.starting).

(** ** More cycles of the example car *)

Definition example_CC_with (long cancel_ resume_ : bool) (alert : VisualAlert.t)
    (accel_ : float) : CarControl :=
  {| latActive := false;
     longActive := long;
     actuators := {| steer := 0; accel := accel_;
                     longControlState := LongCtrlState.off |};
     cruiseControl := {| CruiseControl.cancel := cancel_;
                         CruiseControl.resume := resume_;
                         CruiseControl.override := false |};
     visualAlert := alert |}.

(** A cycle with resume intent held. *)
Definition held_resume_input : CycleInput :=
  example_input (example_CC_with false false true VisualAlert.none 0)
    (example_CS true false false) ∅.

(** A cycle with cancel intent and the brake pressed. *)
Definition braking_cancel_input : CycleInput :=
  example_input (example_CC false false true 0 0) (example_CS false true false) ∅.

(** A cycle that asks for the lane departure warning. *)
Definition ldw_input : CycleInput :=
  example_input (example_CC_with false false false VisualAlert.ldw 0)
    (example_CS false false false) ∅.

(** A cycle with long control active and the given toggles, the car moving:
    an acceleration command of 1 m/s^2. *)
Definition long_input (toggles : gmap string bool) : CycleInput :=
  example_input (example_CC false true false 0 1) (example_CS false false false) toggles.

(** A car state whose messages carry no signal at all. *)
Definition silent_CS : CarState :=
  {| out := example_out false false false;
     acc := ∅;
     crz_info := ∅;
     crz_btns_counter := PyInt 0;
     cam_laneinfo := ∅;
     cam_lkas := ∅;
     ti_lkas_allowed := true;
     lkas_allowed_speed := true |}.

(** A cycle in blended mode on such a car state. *)
Definition silent_input : CycleInput :=
  example_input (example_CC false true false 0 1) silent_CS {[ "BlendedACC" := true ]}.

(** * The car interface

    [selfdrive/car/mazda/interface.py]: [CarInterface._get_params], which
    derives the car parameters the controller is built from, and
    [CarInterface._update], which turns the car state into events. *)

Module Interface.

(** The value of an attribute of a message under construction. A message is
    modelled as the map from attribute path to the value last assigned; an
    attribute never assigned reads as the default of its type (0, false,
    the empty list). The narrowing of a stored number to the wire type of
    its field is outside the model. *)
#[warnings="-register-all"]
Inductive attr : Type :=
| ABool (b : bool)
| ANum (x : pynum)
| AList (l : list pynum)
| AStr (s : string)
| AStruct (fields : gmap string attr).

Abbreviation struct := (gmap string attr).

(** A nested message, as [ret.lateralTuning]. *)
Definition get_struct (ret : struct) (k : string) : struct :=
  match ret !! k with
  | Some (AStruct fields) => fields
  | _ => ∅
  end.

Definition get_num (ret : struct) (k : string) : pynum :=
  match ret !! k with
  | Some (ANum x) => x
  | _ => PyInt 0
  end.

(** An integer attribute, as [ret.flags]. *)
Definition get_Z (ret : struct) (k : string) : Z :=
  match get_num ret k with
  | PyInt z => z
  | PyFloat _ => 0
  end.

Definition get_flag (ret : struct) (k : string) : bool :=
  match ret !! k with
  | Some (ABool b) => b
  | _ => false
  end.

(** [ret.k |= mask] *)
Definition or_into (k : string) (mask : Z) (ret : struct) : struct :=
  <[k := ANum (PyInt (Z.lor (get_Z ret k) mask))]> ret.

(** The two members of [MazdaFlags] that only the interface sets. *)
Record MazdaOptionFlags : Type := {
  NO_MRCC : Z;
  NO_FSC : Z;
}.

(** The flags of the safety model ([Panda.FLAG_MAZDA_*]). *)
Record PandaFlags : Type := {
  FLAG_MAZDA_GEN1 : Z;
  FLAG_MAZDA_GEN2 : Z;
  FLAG_MAZDA_TORQUE_INTERCEPTOR : Z;
  FLAG_MAZDA_RADAR_INTERCEPTOR : Z;
  FLAG_MAZDA_NO_MRCC : Z;
  FLAG_MAZDA_NO_FSC : Z;
}.

(** The value [x] carries every bit of [mask]. *)
Definition carries (x mask : Z) : Prop := Z.land x mask = mask.

(** [mask] ored into [x] when the toggle [key] of the store is on. *)
Definition opt (p : gmap string bool) (key : string) (mask x : Z) : Z :=
  if get_bool p key then Z.lor x mask else x.

(** What [values.py] and [common/conversions.py] provide: the two sets of
    platforms, the four platforms named in the test of line 92, and the two
    constants of the minimum steering speed. *)
Module CARS.
Record t (CAR : Type) : Type := {
  GEN1 : list CAR;
  GEN2 : list CAR;
  MAZDA_CX5_2022 : CAR;
  MAZDA_3_2019 : CAR;
  MAZDA_CX_30 : CAR;
  MAZDA_CX_50 : CAR;
  DISABLE_SPEED : pynum;
  KPH_TO_MS : float;
}.
Arguments GEN1 {CAR}.
Arguments GEN2 {CAR}.
Arguments MAZDA_CX5_2022 {CAR}.
Arguments MAZDA_3_2019 {CAR}.
Arguments MAZDA_CX_30 {CAR}.
Arguments MAZDA_CX_50 {CAR}.
Arguments DISABLE_SPEED {CAR}.
Arguments KPH_TO_MS {CAR}.
End CARS.

Section GetParams.

Context {CAR : Type} `{EqDecision CAR}.
Variable MazdaFlags : MazdaFlagsT.
Variable Options : MazdaOptionFlags.
Variable Panda : PandaFlags.
Variable V : CARS.t CAR.

(** [get_safety_config(SafetyModel.mazda)] and
    [CarInterfaceBase.configure_torque_tune] are not in src/: the safety
    parameter of the configuration the first returns, and what the second
    does to the lateral tuning message it is handed. *)
Variable safety_param : Z.
Variable configure_torque_tune : CAR -> struct -> struct.

Definition safetyParam : string := "safetyConfigs[0].safetyParam".

(** Lines 30-51: the hardware options of a GEN1 platform. *)
Definition gen1_options (p : gmap string bool) (ret : struct) : struct * list string :=
  let '(ret, stdout) :=
    if get_bool p "TorqueInterceptorEnabled" then
      (or_into safetyParam (FLAG_MAZDA_TORQUE_INTERCEPTOR Panda)
         (or_into "flags" (TORQUE_INTERCEPTOR MazdaFlags) ret),
       ["Torque Interceptor Installed"])
    else (ret, []) in
  let ret :=
    if get_bool p "RadarInterceptorEnabled" then
      let ret := or_into "flags" (RADAR_INTERCEPTOR MazdaFlags) ret in
      let ret := <["experimentalLongitudinalAvailable" := ABool true]> ret in
      let ret := <["radarUnavailable" := ABool false]> ret in
      let ret := <["startingState" := ABool true]> ret in
      let ret := <["longitudinalTuning.kpBP" :=
                    AList [PyFloat 0; PyFloat 5; PyFloat 30]]> ret in
      let ret := <["longitudinalTuning.kpV" :=
                    AList [PyFloat 1.3; PyFloat 1.0; PyFloat 0.7]]> ret in
      let ret := <["longitudinalTuning.kiBP" :=
                    AList [PyFloat 0; PyFloat 5; PyFloat 20; PyFloat 30]]> ret in
      let ret := <["longitudinalTuning.kiV" :=
                    AList [PyFloat 0.36; PyFloat 0.23; PyFloat 0.17; PyFloat 0.1]]> ret in
      or_into safetyParam (FLAG_MAZDA_RADAR_INTERCEPTOR Panda) ret
    else ret in
  let ret :=
    if get_bool p "NoMRCC" then
      or_into safetyParam (FLAG_MAZDA_NO_MRCC Panda) (or_into "flags" (NO_MRCC Options) ret)
    else ret in
  let ret :=
    if get_bool p "NoFSC" then
      or_into safetyParam (FLAG_MAZDA_NO_FSC Panda) (or_into "flags" (NO_FSC Options) ret)
    else ret in
  (<["steerActuatorDelay" := ANum (PyFloat 0.1)]> ret, stdout).

(** Lines 56-83: a GEN2 platform. *)
Definition gen2_tuning (p : gmap string bool) (ret : struct) : struct :=
  let ret := or_into safetyParam (FLAG_MAZDA_GEN2 Panda) ret in
  let ret := <["experimentalLongitudinalAvailable" := ABool true]> ret in
  let ret := <["stopAccel" := ANum (PyFloat (-0.5))]> ret in
  let ret := <["stoppingDecelRate" := ANum (PyFloat 0.1)]> ret in
  let ret := <["vEgoStarting" := ANum (PyFloat 0.1)]> ret in
  let ret := <["vEgoStopping" := ANum (PyFloat 0.1)]> ret in
  let ret := <["longitudinalTuning.kpV" := AList [PyInt 0]]> ret in
  let ret := <["longitudinalTuning.kiV" := AList [PyFloat 1.0]]> ret in
  let ret := <["startingState" := ABool true]> ret in
  let ret := <["steerActuatorDelay" := ANum (PyFloat 0.35)]> ret in
  if get_bool p "CSLCEnabled" then
    let ret := <["openpilotLongitudinalControl" := ABool true]> ret in
    let ret := <["longitudinalTuning.deadzoneBP" := AList [PyFloat 0]]> ret in
    let ret := <["longitudinalTuning.deadzoneV" := AList [PyFloat 0.9]]> ret in
    let ret := <["stoppingDecelRate" := ANum (PyFloat 4.5)]> ret in
    let ret := <["longitudinalTuning.kpBP" :=
                  AList [PyFloat 8.94; PyFloat 7.2; PyFloat 28]]> ret in
    let ret := <["longitudinalTuning.kpV" :=
                  AList [PyFloat 0; PyFloat 4; PyFloat 2]]> ret in
    let ret := <["longitudinalTuning.kiBP" := AList [PyFloat 0]]> ret in
    <["longitudinalTuning.kiV" := AList [PyFloat 0.1]]> ret
  else ret.

(** [CarInterface._get_params]: the message [ret] as the function leaves it
    and what it prints; [p] is the persistent store of toggles. The
    arguments the body does not read are left out. *)
Definition _get_params (ret : struct) (candidate : CAR) (p : gmap string bool)
    : result (struct * list string) :=
  let ret := <["carName" := AStr "mazda"]> ret in
  let ret := <["safetyConfigs[0].safetyModel" := AStr "mazda"]> ret in
  let ret := <[safetyParam := ANum (PyInt safety_param)]> ret in
  let ret := <["radarUnavailable" := ABool true]> ret in
  let ret := <["dashcamOnly" := ABool false]> ret in
  let ret := <["openpilotLongitudinalControl" := ABool true]> ret in
  let '(ret, stdout) :=
    if bool_decide (candidate ∈ CARS.GEN1 V) then
      gen1_options p (or_into safetyParam (FLAG_MAZDA_GEN1 Panda) ret)
    else (ret, []) in
  let ret :=
    if bool_decide (candidate ∈ CARS.GEN2 V) then gen2_tuning p ret else ret in
  let ret := <["steerLimitTimer" := ANum (PyFloat 1.0)]> ret in
  let tuning := configure_torque_tune candidate (get_struct ret "lateralTuning") in
  let tuning := <["torque.kp" := ANum (PyFloat 0.85)]> tuning in
  let ret := <["lateralTuning" := AStruct tuning]> ret in
  result_bind
    (if bool_decide (candidate ∉ [CARS.MAZDA_CX5_2022 V; CARS.MAZDA_3_2019 V;
                                 CARS.MAZDA_CX_30 V; CARS.MAZDA_CX_50 V])
        && negb (has_flag (get_Z ret "flags") (TORQUE_INTERCEPTOR MazdaFlags))
     then
       result_bind (PyNum.mul (CARS.DISABLE_SPEED V) (PyFloat (CARS.KPH_TO_MS V)))
         (fun v => inr (<["minSteerSpeed" := ANum v]> ret))
     else inr ret)
    (fun ret =>
       result_bind (PyNum.mul (get_num ret "wheelbase") (PyFloat 0.41)) (fun c =>
         inr (<["centerToFront" := ANum c]> ret, stdout))).

End GetParams.

(** ** Events *)

(** The events [_update] adds; [create_common_events] adds others. *)
Inductive EventName : Type :=
| lkasDisabled | belowSteerSpeed | steerTempUnavailable | resumeRequired.

#[global] Instance event_name_eq_dec : EqDecision EventName.
Proof. solve_decision. Defined.

(** The button event types used: five of [ButtonType] and [lkas] of
    [FrogPilotButtonType]. *)
Inductive ButtonType : Type :=
| accelCruise | decelCruise | resumeCruise | cancel | gapAdjustCruise | lkas.

(** [BUTTONS_DICT]; [value] gives the integer of a member of [Buttons]
    ([values.py]). *)
Definition BUTTONS_DICT (value : Buttons.t -> Z) : list (Z * ButtonType) :=
  [(value Buttons.SET_PLUS, accelCruise); (value Buttons.SET_MINUS, decelCruise);
   (value Buttons.RESUME, resumeCruise); (value Buttons.CANCEL, cancel)].

(** The attributes of the car state object that [_update] reads, as
    [CS.update] left them. *)
Record CarStateView : Type := {
  cruise_buttons : Z;
  prev_cruise_buttons : Z;
  distance_button : Z;
  prev_distance_button : Z;
  lkas_enabled : bool;
  lkas_previously_enabled : bool;
  lkas_disabled : bool;
  low_speed_alert : bool;
  acc_active_last : bool;
  ti_lkas_allowed : bool;
}.

Section Update.

(** [create_button_events], the [Events] class, [create_common_events] and
    the car state message are not in src/: [_update] is defined over any
    implementation of the operations it calls. *)
Context {ButtonEvent Events Msg Ret FpRet : Type}.
Variable MazdaFlags : MazdaFlagsT.
Variable button_value : Buttons.t -> Z.
Variable create_button_events : Z -> Z -> list (Z * ButtonType) -> list ButtonEvent.
Variable create_common_events : Ret -> Events.
Variable events_add : EventName -> Events -> Events.
Variable to_msg : Events -> Msg.
Variable set_buttonEvents : list ButtonEvent -> Ret -> Ret.
Variable set_events : Msg -> Ret -> Ret.

(** [CarInterface._update], after the call of [self.CS.update] that
    produced [ret], [fp_ret] and the car state [cs]; [flags] is
    [self.CP.flags] and [memory] the shared-memory store. *)
Definition _update (flags : Z) (cs : CarStateView) (memory : gmap string Z)
    (ret : Ret) (fp_ret : FpRet) : Ret * FpRet :=
  let ret :=
    set_buttonEvents
      (create_button_events (cruise_buttons cs) (prev_cruise_buttons cs)
         (BUTTONS_DICT button_value)
       ++ create_button_events (distance_button cs) (prev_distance_button cs)
            [(1, gapAdjustCruise)]
       ++ create_button_events (Z.b2z (lkas_enabled cs))
            (Z.b2z (lkas_previously_enabled cs)) [(1, lkas)])
      ret in
  let events := create_common_events ret in
  let events :=
    if has_flag flags (GEN1 MazdaFlags) then
      let events :=
        if lkas_disabled cs then events_add lkasDisabled events
        else if low_speed_alert cs then events_add belowSteerSpeed events
        else events in
      if negb (acc_active_last cs) && negb (ti_lkas_allowed cs)
      then events_add steerTempUnavailable events
      else events
    else events in
  let events :=
    if negb (get_int memory "Coasting" =? 0)
    then events_add resumeRequired events
    else events in
  (set_events (to_msg events) ret, fp_ret).

(** The names [_update] adds to the common events, in the order of the
    calls of [events.add]. *)
Definition added_events (flags : Z) (cs : CarStateView) (memory : gmap string Z)
    : list EventName :=
  (if has_flag flags (GEN1 MazdaFlags) then
     (if lkas_disabled cs then [lkasDisabled]
      else if low_speed_alert cs then [belowSteerSpeed] else [])
     ++ (if negb (acc_active_last cs) && negb (ti_lkas_allowed cs)
         then [steerTempUnavailable] else [])
   else [])
  ++ (if negb (get_int memory "Coasting" =? 0) then [resumeRequired] else []).

End Update.

(** An assignment of the option bits and of the Panda flags, and platforms,
    for the examples. *)
Definition example_options : MazdaOptionFlags := {| NO_MRCC := 8; NO_FSC := 16 |}.

Definition example_panda : PandaFlags :=
  {| FLAG_MAZDA_GEN1 := 1; FLAG_MAZDA_GEN2 := 2; FLAG_MAZDA_TORQUE_INTERCEPTOR := 4;
     FLAG_MAZDA_RADAR_INTERCEPTOR := 8; FLAG_MAZDA_NO_MRCC := 16; FLAG_MAZDA_NO_FSC := 32 |}.

Definition example_cars : CARS.t string :=
  {| CARS.GEN1 := ["CX5"; "CX9"; "MAZDA3"];
     CARS.GEN2 := ["CX5_2022"; "MAZDA3_2019"; "CX30"; "CX50"];
     CARS.MAZDA_CX5_2022 := "CX5_2022";
     CARS.MAZDA_3_2019 := "MAZDA3_2019";
     CARS.MAZDA_CX_30 := "CX30";
     CARS.MAZDA_CX_50 := "CX50";
     CARS.DISABLE_SPEED := PyInt 45;
     CARS.KPH_TO_MS := (1 / 3.6)%float |}.

(** [_get_params] of the example platforms, on a fresh message. *)
Definition example_get_params (candidate : string) (p : gmap string bool)
    : result (struct * list string) :=
  _get_params example_flags example_options example_panda example_cars 0
    (fun _ tuning => tuning) ∅ candidate p.

End Interface.

(** * The microphone daemon

    [system/micd.py]: [calculate_spl] and the methods of [Mic] that keep the
    sample buffer, the frame index and the raw sample. The numerical kernels
    of numpy (the root mean square of a window, the decimal logarithm, the
    A-weighting by FFT, the conversion to 16-bit samples) are operations the
    model is given; samples are binary64 floats. *)

Module Micd.

Definition FFT_SAMPLES : nat := 1280.
Definition REFERENCE_SPL : float := 2e-5.
Definition SAMPLE_BUFFER : Z := 1280.
Definition SAMPLE_RATE : Z := 16000.

Section Mic.

(** [np.sqrt(np.mean(measurements ** 2))] and [np.log10]. *)
Variable np_rms : list float -> float.
Variable np_log10 : float -> float.
(** The body of [apply_a_weighting], a composition of numpy array
    operations. *)
Variable apply_a_weighting : list float -> list float.
(** [np.int16(raw_sample * 32767).tobytes()] *)
Variable int16_bytes : list float -> list Z.

(** [calculate_spl]: the sound pressure and its level in dB, which is the
    integer 0 when the pressure is not positive. *)
Definition calculate_spl (measurements : list float) : float * pynum :=
  let sound_pressure := np_rms measurements in
  let sound_pressure_level :=
    if (0 <? sound_pressure)%float
    then PyFloat (20 * np_log10 (sound_pressure / REFERENCE_SPL))%float
    else PyInt 0 in
  (sound_pressure, sound_pressure_level).

(** The attributes of a [Mic]; [indata_ready] is the flag of
    [indata_ready_event]. *)
Record Mic : Type := {
  measurements : list float;
  sound_pressure : pynum;
  sound_pressure_weighted : pynum;
  sound_pressure_level_weighted : pynum;
  frame_index : Z;
  frame_index_last : Z;
  raw_sample : list float;
  listening_allowed : bool;
  indata_ready : bool;
}.

(** [Mic.__init__]; [uninitialised] is what [np.empty(SAMPLE_BUFFER)] finds
    in the memory it is given. *)
Definition init (uninitialised : list float) : Mic :=
  {| measurements := [];
     sound_pressure := PyInt 0;
     sound_pressure_weighted := PyInt 0;
     sound_pressure_level_weighted := PyInt 0;
     frame_index := 0;
     frame_index_last := 0;
     raw_sample := uninitialised;
     listening_allowed := false;
     indata_ready := false |}.

Inductive Message : Type :=
| microphone (soundPressure soundPressureWeighted soundPressureWeightedDb : float)
| microphoneRaw (rawSample : list Z) (frameIndex : Z).

(** Lines 60-67 of [update]: the toggle is read and the levels are sent. A
    level that cannot be converted raises after the toggle has been
    stored. *)
Definition update_levels (params : gmap string bool) (self : Mic) : result Message * Mic :=
  let self :=
    {| measurements := measurements self;
       sound_pressure := sound_pressure self;
       sound_pressure_weighted := sound_pressure_weighted self;
       sound_pressure_level_weighted := sound_pressure_level_weighted self;
       frame_index := frame_index self;
       frame_index_last := frame_index_last self;
       raw_sample := raw_sample self;
       listening_allowed := get_bool params "VoiceControl";
       indata_ready := indata_ready self |} in
  (result_bind (to_float (sound_pressure self)) (fun sp =>
   result_bind (to_float (sound_pressure_weighted self)) (fun spw =>
   result_bind (to_float (sound_pressure_level_weighted self)) (fun db =>
     inr (microphone sp spw db)))),
   self).

(** Lines 69-79 of [update], after the wait for the next block of samples:
    the raw sample is sent with the frame index, a gap in the index is
    logged, and the event is cleared. The second component is the number
    logged as skipped, if any. *)
Definition update_raw (self : Mic) : Message * option Z * Mic :=
  let msg := microphoneRaw (int16_bytes (raw_sample self)) (frame_index self) in
  let log :=
    if negb ((frame_index_last self =? frame_index self)
             || (frame_index self - frame_index_last self =? SAMPLE_BUFFER))
    then Some ((frame_index self - frame_index_last self) / SAMPLE_BUFFER - 1)
    else None in
  (msg, log,
   {| measurements := measurements self;
      sound_pressure := sound_pressure self;
      sound_pressure_weighted := sound_pressure_weighted self;
      sound_pressure_level_weighted := sound_pressure_level_weighted self;
      frame_index := frame_index self;
      frame_index_last := frame_index self;
      raw_sample := raw_sample self;
      listening_allowed := listening_allowed self;
      indata_ready := false |}).

(** Lines 92-98: one turn of the loop of [callback] on a buffer that holds a
    full window. *)
Definition process_window (self : Mic) : Mic :=
  let window := take FFT_SAMPLES (measurements self) in
  let '(sp, _) := calculate_spl window in
  let measurements_weighted := apply_a_weighting window in
  let '(spw, db) := calculate_spl measurements_weighted in
  {| measurements := drop FFT_SAMPLES (measurements self);
     sound_pressure := PyFloat sp;
     sound_pressure_weighted := PyFloat spw;
     sound_pressure_level_weighted := db;
     frame_index := frame_index self;
     frame_index_last := frame_index_last self;
     raw_sample := raw_sample self;
     listening_allowed := listening_allowed self;
     indata_ready := indata_ready self |}.

(** The three levels a [Mic] holds, and those lines 94-96 compute from a
    window. *)
Definition levels (self : Mic) : pynum * pynum * pynum :=
  (sound_pressure self, sound_pressure_weighted self, sound_pressure_level_weighted self).

Definition window_levels (window : list float) : pynum * pynum * pynum :=
  levels (process_window
            {| measurements := window; sound_pressure := PyInt 0;
               sound_pressure_weighted := PyInt 0;
               sound_pressure_level_weighted := PyInt 0;
               frame_index := 0; frame_index_last := 0; raw_sample := [];
               listening_allowed := false; indata_ready := false |}).

(** The loop of line 91, with a bound on its turns. *)
Fixpoint process_windows (fuel : nat) (self : Mic) : Mic :=
  match fuel with
  | O => self
  | S fuel =>
      if (FFT_SAMPLES <=? length (measurements self))%nat
      then process_windows fuel (process_window self)
      else self
  end.

(** [Mic.callback]; [indata] is the one channel of the block, [frames] the
    count the audio library reports. Each turn of the loop shortens the
    buffer, so its length bounds the turns. *)
Definition callback (indata : list float) (frames : Z) (self : Mic) : Mic :=
  let self :=
    {| measurements := measurements self ++ indata;
       sound_pressure := sound_pressure self;
       sound_pressure_weighted := sound_pressure_weighted self;
       sound_pressure_level_weighted := sound_pressure_level_weighted self;
       frame_index := frame_index self;
       frame_index_last := frame_index_last self;
       raw_sample := raw_sample self;
       listening_allowed := listening_allowed self;
       indata_ready := indata_ready self |} in
  let self := process_windows (length (measurements self)) self in
  {| measurements := measurements self;
     sound_pressure := sound_pressure self;
     sound_pressure_weighted := sound_pressure_weighted self;
     sound_pressure_level_weighted := sound_pressure_level_weighted self;
     frame_index := frame_index self + frames;
     frame_index_last := frame_index_last self;
     raw_sample := if listening_allowed self then indata else raw_sample self;
     listening_allowed := listening_allowed self;
     indata_ready := true |}.

(** What the daemon does, in the order it happens: the two halves of
    [update] on the main thread, and the callbacks of the audio thread, each
    taken as one step. *)
Inductive Step : Type :=
| UpdateLevels (params : gmap string bool)
| UpdateRaw
| Callback (indata : list float) (frames : Z).

(** One step: the messages sent, the number logged as skipped, and the
    object after it. A step that raises sends nothing. *)
Definition step (s : Step) (self : Mic) : list Message * option Z * Mic :=
  match s with
  | UpdateLevels params =>
      match update_levels params self with
      | (inr msg, self') => ([msg], None, self')
      | (inl _, self') => ([], None, self')
      end
  | UpdateRaw =>
      let '(msg, log, self') := update_raw self in ([msg], log, self')
  | Callback indata frames => ([], None, callback indata frames self)
  end.

Fixpoint run (steps : list Step) (self : Mic) : list Message * Mic :=
  match steps with
  | [] => ([], self)
  | s :: rest =>
      let '(sent, _, self') := step s self in
      let '(more, final) := run rest self' in
      (sent ++ more, final)
  end.

(** The attributes after a sequence of callbacks. *)
Definition callbacks (blocks : list (list float * Z)) (self : Mic) : Mic :=
  fold_left (fun self block => callback (fst block) (snd block) self) blocks self.

(** The toggle is off at every update of a sequence. *)
Definition never_listening (steps : list Step) : Prop :=
  Forall (fun s => match s with
                   | UpdateLevels params => get_bool params "VoiceControl" = false
                   | _ => True
                   end) steps.

End Mic.

End Micd.

(** * Properties *)

(** ** Arithmetic of the constants *)

Lemma mul_float_240 a : PyNum.mul (PyFloat a) (PyInt 240) = inr (PyFloat (a * 240)%float).
Proof. reflexivity. Qed.

Lemma add_float_2000 a : PyNum.add (PyFloat a) (PyInt 2000) = inr (PyFloat (a + 2000)%float).
Proof. reflexivity. Qed.

Lemma mul_float_1150 a : PyNum.mul (PyFloat a) (PyInt 1150) = inr (PyFloat (a * 1150)%float).
Proof. reflexivity. Qed.

(** ** The limiter *)

Lemma clip_bounds x lo hi : lo <= hi -> lo <= clip x lo hi <= hi.
Proof. unfold clip. lia. Qed.

Lemma allowed_magnitude_bounds torque driver_torque max_torque allowance factor :
  0 <= max_torque ->
  0 <= allowed_magnitude torque driver_torque max_torque allowance factor <= max_torque.
Proof.
  intros Hmax. unfold allowed_magnitude.
  destruct (_ && _); [destruct (float_to_Z _ _)|]; lia.
Qed.

Lemma limit_steer_torque_rate apply_torque last driver_torque max_torque delta allowance factor :
  0 <= delta ->
  Z.abs (limit_steer_torque apply_torque last driver_torque max_torque delta allowance factor
         - last) <= delta.
Proof.
  intros Hd. unfold limit_steer_torque.
  pose proof (clip_bounds
    (clip apply_torque
       (- allowed_magnitude apply_torque driver_torque max_torque allowance factor)
       (allowed_magnitude apply_torque driver_torque max_torque allowance factor))
    (last - delta) (last + delta)).
  lia.
Qed.

Lemma limit_steer_torque_magnitude apply_torque last driver_torque max_torque delta allowance factor :
  0 <= max_torque -> 0 <= delta -> Z.abs last <= max_torque ->
  Z.abs (limit_steer_torque apply_torque last driver_torque max_torque delta allowance factor)
  <= max_torque.
Proof.
  intros Hmax Hd Hlast. unfold limit_steer_torque.
  pose proof (allowed_magnitude_bounds apply_torque driver_torque max_torque allowance factor Hmax).
  unfold clip. lia.
Qed.

(** ** Floats that are not finite *)

Lemma SFcompare_refl (x : spec_float) : x <> S754_nan -> SFcompare x x = Some Eq.
Proof.
  destruct x as [s | s | | s m e]; intros H; try congruence; cbn [SFcompare].
  - reflexivity.
  - destruct s; reflexivity.
  - rewrite Z.compare_refl.
    change (Pos.compare_cont Eq m m) with (Pos.compare m m).
    rewrite Pos.compare_refl. destruct s; reflexivity.
Qed.

Lemma is_nan_Prim2SF (f : float) : is_nan f = true -> Prim2SF f = S754_nan.
Proof.
  unfold is_nan. rewrite FloatAxioms.eqb_spec. unfold SFeqb. intros H.
  destruct (Prim2SF f) eqn:E; try reflexivity;
    rewrite SFcompare_refl in H by discriminate; discriminate.
Qed.

Lemma is_infinity_Prim2SF (f : float) :
  is_infinity f = true -> exists s, Prim2SF f = S754_infinity s.
Proof.
  unfold is_infinity. rewrite FloatAxioms.eqb_spec, abs_spec. unfold SFeqb.
  change (Prim2SF infinity) with (S754_infinity false).
  destruct (Prim2SF f) as [s | s | | s m e]; cbn; try discriminate.
  intros _. exists s. reflexivity.
Qed.

Lemma not_finite_Prim2SF (f : float) :
  is_finite f = false -> Prim2SF f = S754_nan \/ exists s, Prim2SF f = S754_infinity s.
Proof.
  unfold is_finite. intros H. apply negb_false_iff, orb_true_iff in H as [H | H].
  - left. apply is_nan_Prim2SF. exact H.
  - right. apply is_infinity_Prim2SF. exact H.
Qed.

(** A product with a NaN is a NaN; a product with an infinity is an infinity
    or a NaN. *)
Lemma mul_not_finite (f g : float) :
  is_finite f = false ->
  (Prim2SF (f * g) = S754_nan \/ exists s, Prim2SF (f * g) = S754_infinity s)
  /\ (is_nan f = true -> Prim2SF (f * g) = S754_nan).
Proof.
  intros H. rewrite mul_spec. unfold SF64mul. split.
  - destruct (not_finite_Prim2SF f H) as [-> | [s ->]]; [left; reflexivity |].
    destruct (Prim2SF g) as [t | t | | t m e]; cbn [SFmul]; eauto.
  - intros Hn. rewrite (is_nan_Prim2SF f Hn). reflexivity.
Qed.

(** [int(round(x))] raises on a value that is not finite. *)
Lemma scaled_steer_not_finite (fraction : float) (maximum : Z) :
  is_finite fraction = false ->
  exists e,
    scaled_steer fraction maximum = inl e
    /\ (e = ValueError \/ e = OverflowError)
    /\ (is_nan fraction = true -> is_infinity (float_of_Z maximum) = false ->
        e = ValueError).
Proof.
  intros H. unfold scaled_steer, PyNum.mul, arith, to_float.
  cbn [result_bind].
  destruct (is_infinity (float_of_Z maximum)) eqn:Hmax; cbn [result_bind].
  { exists OverflowError. split; [reflexivity |]. split; [auto | discriminate]. }
  destruct (mul_not_finite fraction (float_of_Z maximum) H) as [Hp Hnan].
  unfold PyNum.round, float_to_Z.
  destruct Hp as [Hp | [s Hp]]; rewrite Hp.
  - exists ValueError. auto.
  - exists OverflowError. split; [reflexivity |]. split; [auto |].
    intros Hn _. rewrite (Hnan Hn) in Hp. discriminate.
Qed.

(** ** The clip of the radar path *)

Lemma clipped_accel_cases (a : float) :
  let raw := PyFloat (a * 1150) in
  (PyNum.lt (PyInt 1000) raw = true /\ clipped_accel a = PyInt 1000)
  \/ (PyNum.lt (PyInt 1000) raw = false /\ PyNum.lt (PyInt (-1000)) raw = true
      /\ clipped_accel a = raw)
  \/ (PyNum.lt (PyInt 1000) raw = false /\ PyNum.lt (PyInt (-1000)) raw = false
      /\ clipped_accel a = PyInt (-1000)).
Proof.
  cbv zeta. unfold clipped_accel, PyNum.max, PyNum.min, PyNum.gt.
  destruct (PyNum.lt (PyInt 1000) (PyFloat (a * 1150))) eqn:Hhi.
  - left. split; reflexivity.
  - right. destruct (PyNum.lt (PyInt (-1000)) (PyFloat (a * 1150))) eqn:Hlo.
    + left. repeat split.
    + right. repeat split.
Qed.

Lemma clipped_accel_bounds (a : float) :
  PyNum.lt (clipped_accel a) (PyInt (-1000)) = false
  /\ PyNum.gt (clipped_accel a) (PyInt 1000) = false.
Proof.
  destruct (clipped_accel_cases a) as [[_ ->] | [(Hhi & Hlo & ->) | (_ & _ & ->)]];
    try (split; reflexivity).
  split; [| exact Hhi].
  unfold PyNum.lt in *. destruct (cmp_Z_float (-1000) (a * 1150)) as [[] |];
    try discriminate; reflexivity.
Qed.

Lemma clipped_accel_nan (a : float) : is_nan a = true -> clipped_accel a = PyInt (-1000).
Proof.
  intros Hnan.
  assert (Hp : Prim2SF (a * 1150) = S754_nan).
  { apply mul_not_finite; [| exact Hnan]. unfold is_finite. rewrite Hnan. reflexivity. }
  unfold clipped_accel, PyNum.max, PyNum.min, PyNum.gt, PyNum.lt, cmp_Z_float.
  rewrite Hp. cbn. rewrite Hp. reflexivity.
Qed.

Section Properties.

Context {F : Type} {FOF : FirstOrderFilter F}.
Variable MazdaFlags : MazdaFlagsT.


(** ** Symbolic execution of the monad *)

Ltac munfold :=
  unfold mbind, M_bind, mret, M_ret, gets, modify, lift;
  cbn beta iota delta
    [fst snd with_self with_CS with_params_memory accel_writes
     self CS params params_memory Timer_ticks
     CP_flags apply_steer_last ti_apply_steer_last brake_counter frame ccp
     hold_timer hold_delay resume_timer cancel_delay acc_filter filtered_acc_last
     set_steer_last set_brake_counter set_frame set_timers set_hold_timer
     set_hold_delay set_resume_timer set_acc_filter set_filtered_acc_last
     out acc crz_info crz_btns_counter cam_laneinfo cam_lkas ti_lkas_allowed
     lkas_allowed_speed set_acc set_crz_info].

Ltac wsimpl_all :=
  cbn beta iota delta
    [fst snd with_self with_CS with_params_memory accel_writes
     self CS params params_memory Timer_ticks
     CP_flags apply_steer_last ti_apply_steer_last brake_counter frame ccp
     hold_timer hold_delay resume_timer cancel_delay acc_filter filtered_acc_last
     set_steer_last set_brake_counter set_frame set_timers set_hold_timer
     set_hold_delay set_resume_timer set_acc_filter set_filtered_acc_last
     out acc crz_info crz_btns_counter cam_laneinfo cam_lkas ti_lkas_allowed
     lkas_allowed_speed set_acc set_crz_info] in *.

(** Normal form of a world whose fields are exposed. *)
Ltac wnorm :=
  cbv beta iota delta
    [fst snd with_self with_CS with_params_memory accel_writes end_of_cycle
     Timer_tick mbind M_bind mret M_ret gets modify lift
     self CS params params_memory Timer_ticks
     CP_flags apply_steer_last ti_apply_steer_last brake_counter frame ccp
     hold_timer hold_delay resume_timer cancel_delay acc_filter filtered_acc_last
     set_steer_last set_brake_counter set_frame set_timers set_hold_timer
     set_hold_delay set_resume_timer set_acc_filter set_filtered_acc_last
     out acc crz_info crz_btns_counter cam_laneinfo cam_lkas ti_lkas_allowed
     lkas_allowed_speed set_acc set_crz_info].

Ltac msplit :=
  match goal with
  | |- context [match ?x with _ => _ end] =>
      lazymatch x with
      | context [match _ with _ => _ end] => fail
      | _ => destruct x eqn:?
      end
  end.

Ltac mexec := munfold; repeat (msplit; munfold).

(** Exposes the fields of a world. *)
Ltac wdestruct w :=
  let c := fresh "c" in
  let cs := fresh "cs" in
  destruct w as [c cs ? ? ?]; destruct c, cs.

Ltac absurd_cases := try (exfalso; simpl andb in *; simpl negb in *; congruence).

(** ** The blocks of [update] *)

Lemma update_steer_spec CC (w : World F) :
  (latActive CC = true /\ exists e, update_steer MazdaFlags CC w = (inl e, w))
  \/ exists a t,
       update_steer MazdaFlags CC w = (inr (a, t), with_self (set_steer_last a t) w)
       /\ (if latActive CC then
             (exists n,
                 scaled_steer (steer (actuators CC)) (STEER_MAX (ccp (self w))) = inr n
                 /\ a = apply_driver_steer_torque_limits n (apply_steer_last (self w))
                          (steeringTorque (out (CS w))) (ccp (self w)))
             /\ (if has_flag (CP_flags (self w)) (TORQUE_INTERCEPTOR MazdaFlags)
                    && ti_lkas_allowed (CS w)
                 then exists m,
                     scaled_steer (steer (actuators CC)) (TI_STEER_MAX (ccp (self w))) = inr m
                     /\ t = apply_ti_steer_torque_limits m (ti_apply_steer_last (self w))
                              (steeringTorque (out (CS w))) (ccp (self w))
                 else t = 0)
           else a = 0 /\ t = 0).
Proof.
  unfold update_steer. mexec; absurd_cases.
  all: try (left; split; [reflexivity | eexists; reflexivity]).
  all: right; do 2 eexists; (split; [reflexivity |]); eauto 10.
Qed.

Lemma update_steer_inactive CC (w : World F) :
  latActive CC = false ->
  update_steer MazdaFlags CC w = (inr (0, 0), with_self (set_steer_last 0 0) w).
Proof. intros H. unfold update_steer. rewrite H. reflexivity. Qed.

Lemma gen1_buttons_eq CC (w : World F) :
  gen1_buttons CC w =
  (inr (if CruiseControl.cancel (cruiseControl CC) then
          if (frame (self w) mod 10 =? 0)
             && negb (brakePressed (out (CS w)) && (brake_counter (self w) + 1 <? 7))
          then [create_button_cmd (crz_btns_counter (CS w)) Buttons.CANCEL] else []
        else
          if CruiseControl.resume (cruiseControl CC) && (frame (self w) mod 5 =? 0)
          then [create_button_cmd (crz_btns_counter (CS w)) Buttons.RESUME] else []),
   with_self (set_brake_counter
     (if CruiseControl.cancel (cruiseControl CC) then brake_counter (self w) + 1 else 0)) w).
Proof. unfold gen1_buttons. mexec; reflexivity. Qed.

Lemma gen1_hud_eq CC (w : World F) :
  gen1_hud CC w =
  (inr (if frame (self w) mod 50 =? 0 then
          [create_alert_command (cam_laneinfo (CS w))
             (bool_decide (visualAlert CC = VisualAlert.ldw))
             (bool_decide (visualAlert CC = VisualAlert.steerRequired)
              && lkas_allowed_speed (CS w))]
        else []), w).
Proof. unfold gen1_hud. mexec; reflexivity. Qed.

Lemma gen1_radar_hold_eq (w : World F) :
  gen1_radar_hold w =
  (inr (standstill (out (CS w)) && Timer.active (hold_timer (self w))),
   if standstill (out (CS w)) then w
   else with_self (fun c => set_hold_timer (Timer.reset (hold_timer c)) c) w).
Proof. unfold gen1_radar_hold. mexec; reflexivity. Qed.

Lemma gen1_radar_accel_spec CC (w : World F) :
  exists r f x d,
    gen1_radar_accel CC w = (r, accel_writes f x d (params_memory w) w)
    /\ (d = crz_info (CS w)
        \/ longActive CC = true /\ get_bool (params w) "BlendedACC" = true
           /\ r = inr tt /\ exists n, d = <["ACCEL_CMD" := PyInt n]> (crz_info (CS w)))
    /\ (longActive CC && get_bool (params w) "BlendedACC" = false ->
        r = inr tt /\ f = acc_filter (self w) /\ x = filtered_acc_last (self w)
        /\ d = crz_info (CS w)).
Proof.
  wdestruct w.
  unfold gen1_radar_accel, acc_filter_update_alpha, acc_filter_update.
  rewrite mul_float_1150. mexec.
  all: do 4 eexists; (split; [wnorm; exact eq_refl |]).
  all: (split; [| intros; absurd_cases; auto]).
  all: lazymatch goal with
       | |- ?a = ?a \/ _ => left; exact eq_refl
       | _ => right; repeat split; try exact eq_refl; eexists; exact eq_refl
       end.
Qed.

Lemma gen1_radar_spec CC (w : World F) :
  exists r f x d,
    let hold := standstill (out (CS w)) && Timer.active (hold_timer (self w)) in
    let w1 :=
      if standstill (out (CS w)) then w
      else with_self (fun c => set_hold_timer (Timer.reset (hold_timer c)) c) w in
    let w2 := accel_writes f x d (params_memory w) w1 in
    gen1_radar CC w =
      (match r with
       | inl e => inl e
       | inr _ =>
           inr (if frame (self w) mod 2 =? 0
                then create_radar_command (frame (self w)) (longActive CC) (CS w2) hold
                else [])
       end, w2)
    /\ (d = crz_info (CS w)
        \/ longActive CC = true /\ get_bool (params w) "BlendedACC" = true
           /\ r = inr tt /\ exists n, d = <["ACCEL_CMD" := PyInt n]> (crz_info (CS w)))
    /\ (longActive CC && get_bool (params w) "BlendedACC" = false ->
        r = inr tt /\ f = acc_filter (self w) /\ x = filtered_acc_last (self w)
        /\ d = crz_info (CS w)).
Proof.
  unfold gen1_radar. unfold mbind at 1. unfold M_bind at 1.
  rewrite gen1_radar_hold_eq.
  set (w1 := if standstill (out (CS w)) then w else _).
  unfold mbind at 1. unfold M_bind at 1.
  destruct (gen1_radar_accel_spec CC w1) as (r & f & x & d & Heq & Hd & Hplain).
  assert (Hw1 : crz_info (CS w1) = crz_info (CS w) /\ params w1 = params w
                /\ params_memory w1 = params_memory w /\ frame (self w1) = frame (self w)
                /\ acc_filter (self w1) = acc_filter (self w)
                /\ filtered_acc_last (self w1) = filtered_acc_last (self w)).
  { subst w1. destruct (standstill _); repeat split. }
  destruct Hw1 as (E1 & E2 & E3 & E4 & E5 & E6).
  rewrite E1, E2 in Hd. rewrite E1, E2, E5, E6 in Hplain. rewrite E3 in Heq.
  exists r, f, x, d. cbv zeta. fold w1. rewrite Heq.
  split; [| split; assumption].
  destruct r as [e | []]; [reflexivity |].
  munfold. unfold accel_writes at 1 2. munfold. rewrite E4.
  destruct (frame (self w) mod 2 =? 0); reflexivity.
Qed.

Lemma is_resuming_eq CC (w : World F) :
  is_resuming CC w =
  (if CruiseControl.resume (cruiseControl CC)
      || CruiseControl.override (cruiseControl CC)
      || gasPressed (out (CS w))
      || bool_decide (longControlState (actuators CC) = LongCtrlState.starting)
   then inr true
   else match getitem (acc (CS w)) "RESUME" with
        | inl e => inl e
        | inr v => inr (truthy v)
        end, w).
Proof. unfold is_resuming. mexec; reflexivity. Qed.

Lemma is_resuming_requested CC (w : World F) b :
  fst (is_resuming CC w) = inr b -> b = resume_requested CC (CS w).
Proof.
  rewrite is_resuming_eq. unfold resume_requested, getitem. cbn [fst].
  destruct (_ || _ || _ || _); [intros [= <-]; reflexivity |].
  destruct (acc (CS w) !! "RESUME"); intros [= <-]. reflexivity.
Qed.

Lemma gen2_raw_acc_output_eq CC (w : World F) :
  gen2_raw_acc_output CC w =
  (match fst (is_resuming CC w) with
   | inl e => inl e
   | inr resuming =>
       if resuming && get_bool (params w) "BlendedACC" && (CEFramesCounter w =? 0)
       then getitem (acc (CS w)) "ACCEL_CMD"
       else inr (PyFloat (accel (actuators CC) * 240 + 2000)%float)
   end, w).
Proof.
  unfold gen2_raw_acc_output, CEFramesCounter. unfold mbind at 1. unfold M_bind at 1.
  rewrite is_resuming_eq. cbn [fst].
  rewrite mul_float_240. mexec; try reflexivity.
Qed.

Lemma gen2_acc_output_spec raw (w : World F) :
  exists r f x m,
    gen2_acc_output raw w = (r, accel_writes f x (crz_info (CS w)) m w)
    /\ (forall k, k <> "CEFramesCounter" -> m !! k = params_memory w !! k)
    /\ (let c := CEFramesCounter w in
        let c' := get_int m "CEFramesCounter" in
        c' = c \/ c < 20 /\ c' = c + 1 \/ 20 <= c /\ c' = 20 \/ 0 < c /\ c' = c - 1)
    /\ (get_bool (params w) "BlendedACC" = false ->
        r = inr raw /\ f = acc_filter (self w) /\ x = filtered_acc_last (self w)
        /\ m = params_memory w).
Proof.
  wdestruct w.
  unfold gen2_acc_output, acc_filter_update_alpha, acc_filter_update, CEFramesCounter.
  mexec.
  all: do 4 eexists; (split; [wnorm; exact eq_refl |]).
  all: (split; [| split; [| intros; absurd_cases; auto]]).
  all: try (intros k Hk; unfold put_int; rewrite ?lookup_insert_ne by congruence; reflexivity).
  all: cbv zeta; unfold put_int, get_int in *; rewrite ?lookup_insert_eq;
    cbn [default from_option id].
  all: try (left; reflexivity).
  all: repeat match goal with
         | H : (_ <? _) = true |- _ => apply Z.ltb_lt in H
         | H : (_ <? _) = false |- _ => apply Z.ltb_ge in H
         end; lia.
Qed.

Lemma gen2_write_back_eq CC acc_output (w : World F) :
  gen2_write_back CC acc_output w =
  (inr tt,
   if get_bool (params w) "ExperimentalLongitudinalEnabled" && longActive CC
   then with_CS (fun cs => set_acc (<["ACCEL_CMD" := acc_output]> (acc cs)) cs) w
   else w).
Proof. unfold gen2_write_back. mexec; reflexivity. Qed.

Lemma gen2_hold_resume_eq CC (w : World F) :
  gen2_hold_resume CC w =
  if standstill (out (CS w)) then
    if Timer.active (hold_delay (self w)) then
      (inr (false, Timer.active (resume_timer (self w))), w)
    else
      match fst (is_resuming CC w) with
      | inl e => (inl e, w)
      | inr true =>
          (inr (false, Timer.active (Timer.reset (resume_timer (self w)))),
           with_self (fun c => set_resume_timer (Timer.reset (resume_timer c)) c) w)
      | inr false =>
          (inr (Timer.active (hold_timer (self w)), Timer.active (resume_timer (self w))), w)
      end
  else
    (inr (false, Timer.active (resume_timer (self w))),
     with_self (fun c => set_hold_delay (Timer.reset (hold_delay c)) c)
       (with_self (fun c => set_hold_timer (Timer.reset (hold_timer c)) c) w)).
Proof.
  unfold gen2_hold_resume. unfold mbind at 1. unfold M_bind at 1.
  unfold gets at 1. cbv beta iota.
  destruct (standstill (out (CS w))); [| reflexivity].
  unfold mbind at 1. unfold M_bind at 1.
  unfold mbind at 1. unfold M_bind at 1. unfold gets at 1. cbv beta iota.
  destruct (Timer.active (hold_delay (self w))); cbn [negb]; [reflexivity |].
  unfold mbind at 1. unfold M_bind at 1.
  destruct (is_resuming CC w) as [[e | []] w'] eqn:E;
    rewrite is_resuming_eq in E; injection E as E <-; reflexivity.
Qed.

Lemma gen2_acc_cmd_eq CC (w : World F) :
  gen2_acc_cmd CC w =
  if Timer_ticks w mod 2 =? 0 then
    match gen2_hold_resume CC w with
    | (inl e, w') => (inl e, w')
    | (inr (hold, resume), w') => (inr [create_acc_cmd (acc (CS w')) hold resume], w')
    end
  else (inr [], w).
Proof.
  unfold gen2_acc_cmd, Timer_interval. unfold mbind at 1. unfold M_bind at 1.
  unfold gets at 1. cbv beta iota.
  destruct (Timer_ticks w mod 2 =? 0); [| reflexivity].
  unfold mbind at 1. unfold M_bind at 1.
  destruct (gen2_hold_resume CC w) as [[e | [h r]] w']; reflexivity.
Qed.

Lemma generation_block_eq CC (w : World F) :
  generation_block MazdaFlags CC w =
  (if has_flag (CP_flags (self w)) (GEN1 MazdaFlags) then gen1 MazdaFlags CC else gen2 CC) w.
Proof. reflexivity. Qed.

Lemma update_eq CC (w : World F) :
  update MazdaFlags CC w =
  match update_steer MazdaFlags CC w with
  | (inl e, w1) => (inl e, w1)
  | (inr (apply_steer, _), w1) =>
      match generation_block MazdaFlags CC w1 with
      | (inl e, w2) => (inl e, w2)
      | (inr can_sends, w2) =>
          match PyNum.truediv (PyInt apply_steer) (PyInt (STEER_MAX (ccp (self w2)))) with
          | inl e => (inl e, w2)
          | inr fraction =>
              (inr ({| base := actuators CC; new_steer := fraction;
                       steerOutputCan := apply_steer |},
                    can_sends
                    ++ create_steering_control (frame (self w2)) apply_steer (cam_lkas (CS w2))),
               end_of_cycle w2)
          end
      end
  end.
Proof.
  unfold update. unfold mbind at 1. unfold M_bind at 1.
  destruct (update_steer MazdaFlags CC w) as [[e | [a t]] w1]; [reflexivity |].
  unfold mbind at 1. unfold M_bind at 1.
  destruct (generation_block MazdaFlags CC w1) as [[e | sends] w2]; [reflexivity |].
  unfold end_of_cycle, Timer_tick. mexec; reflexivity.
Qed.

(** ** The two generations *)

Lemma gen1_spec CC (w : World F) :
  exists r f x d,
    let radar_on := has_flag (CP_flags (self w)) (RADAR_INTERCEPTOR MazdaFlags) in
    let cancel := CruiseControl.cancel (cruiseControl CC) in
    let count := if cancel then brake_counter (self w) + 1 else 0 in
    let hold := standstill (out (CS w)) && Timer.active (hold_timer (self w)) in
    let buttons :=
      if cancel then
        if (frame (self w) mod 10 =? 0)
           && negb (brakePressed (out (CS w)) && (count <? 7))
        then [create_button_cmd (crz_btns_counter (CS w)) Buttons.CANCEL] else []
      else
        if CruiseControl.resume (cruiseControl CC) && (frame (self w) mod 5 =? 0)
        then [create_button_cmd (crz_btns_counter (CS w)) Buttons.RESUME] else [] in
    let alert :=
      if frame (self w) mod 50 =? 0 then
        [create_alert_command (cam_laneinfo (CS w))
           (bool_decide (visualAlert CC = VisualAlert.ldw))
           (bool_decide (visualAlert CC = VisualAlert.steerRequired)
            && lkas_allowed_speed (CS w))]
      else [] in
    let w1 := with_self (set_brake_counter count) w in
    let w2 :=
      if radar_on && negb (standstill (out (CS w)))
      then with_self (fun c => set_hold_timer (Timer.reset (hold_timer c)) c) w1
      else w1 in
    let w3 := accel_writes f x d (params_memory w) w2 in
    gen1 MazdaFlags CC w =
      (match r with
       | inl e => inl e
       | inr _ =>
           inr (buttons ++ alert
                ++ (if radar_on && (frame (self w) mod 2 =? 0)
                    then create_radar_command (frame (self w)) (longActive CC) (CS w3) hold
                    else []))
       end, w3)
    /\ (d = crz_info (CS w)
        \/ radar_on = true /\ longActive CC = true
           /\ get_bool (params w) "BlendedACC" = true
           /\ r = inr tt /\ exists n, d = <["ACCEL_CMD" := PyInt n]> (crz_info (CS w)))
    /\ (radar_on && longActive CC && get_bool (params w) "BlendedACC" = false ->
        r = inr tt /\ f = acc_filter (self w) /\ x = filtered_acc_last (self w)
        /\ d = crz_info (CS w)).
Proof.
  unfold gen1. unfold mbind at 1. unfold M_bind at 1. rewrite gen1_buttons_eq.
  unfold mbind at 1. unfold M_bind at 1. rewrite gen1_hud_eq.
  unfold mbind at 1. unfold M_bind at 1. unfold gets at 1. cbv beta iota.
  unfold mbind at 1. unfold M_bind at 1.
  set (count := if CruiseControl.cancel (cruiseControl CC) then _ else _).
  set (w1 := with_self (set_brake_counter count) w).
  change (CP_flags (self w1)) with (CP_flags (self w)).
  change (frame (self w1)) with (frame (self w)).
  change (CS w1) with (CS w).
  destruct (has_flag (CP_flags (self w)) (RADAR_INTERCEPTOR MazdaFlags)) eqn:Hradar.
  - destruct (gen1_radar_spec CC w1) as (r & f & x & d & Heq & Hd & Hplain).
    cbv zeta in Heq.
    change (CS w1) with (CS w) in *. change (params w1) with (params w) in *.
    change (params_memory w1) with (params_memory w) in *.
    change (frame (self w1)) with (frame (self w)) in *.
    change (hold_timer (self w1)) with (hold_timer (self w)) in *.
    change (acc_filter (self w1)) with (acc_filter (self w)) in *.
    change (filtered_acc_last (self w1)) with (filtered_acc_last (self w)) in *.
    exists r, f, x, d. cbv zeta. rewrite Heq. cbn [andb].
    split; [| split].
    + subst w1 count.
      destruct (CruiseControl.cancel (cruiseControl CC));
        destruct (standstill (out (CS w))); cbn [negb];
        destruct r as [e | []]; munfold; try reflexivity;
        destruct (frame (self w) mod 2 =? 0); reflexivity.
    + destruct Hd as [Hd | (H1 & H2 & H3 & H4)]; [left; exact Hd | right; auto].
    + exact Hplain.
  - exists (inr tt), (acc_filter (self w)), (filtered_acc_last (self w)), (crz_info (CS w)).
    cbv zeta. cbn [andb]. split; [| split; [left; reflexivity | auto]].
    subst w1 count. munfold. rewrite app_nil_r.
    destruct (CruiseControl.cancel (cruiseControl CC)); f_equal; wdestruct w; reflexivity.
Qed.

Lemma getitem_insert_ne (d : gmap string pynum) k k' v :
  k <> k' -> getitem (<[k := v]> d) k' = getitem d k'.
Proof. intros H. unfold getitem. rewrite lookup_insert_ne by exact H. reflexivity. Qed.

Lemma gen2_spec CC (w : World F) :
  exists r f x m a ht hd rt,
    let enabled := get_bool (params w) "ExperimentalLongitudinalEnabled" && longActive CC in
    let w1 := accel_writes f x (crz_info (CS w)) m w in
    let w2 := with_CS (set_acc a) w1 in
    let w3 := with_self (set_timers ht hd rt (cancel_delay (self w))) w2 in
    gen2 CC w = (r, w3)
    /\ (forall k, k <> "CEFramesCounter" -> m !! k = params_memory w !! k)
    /\ (let c := CEFramesCounter w in
        let c' := get_int m "CEFramesCounter" in
        c' = c \/ c < 20 /\ c' = c + 1 \/ 20 <= c /\ c' = 20 \/ 0 < c /\ c' = c - 1)
    /\ (a = acc (CS w) \/ enabled = true /\ written_back CC w a)
    /\ (enabled = false -> a = acc (CS w))
    /\ (forall can_sends, r = inr can_sends ->
        (enabled = true -> written_back CC w a)
        /\ if Timer_ticks w mod 2 =? 0 then
             exists hold resume,
               can_sends = [create_acc_cmd a hold resume]
               /\ hold = standstill (out (CS w))
                         && negb (Timer.active (hold_delay (self w)))
                         && negb (resume_requested CC (CS w))
                         && Timer.active (hold_timer (self w))
               /\ resume = Timer.active rt
               /\ rt = (if standstill (out (CS w))
                           && negb (Timer.active (hold_delay (self w)))
                           && resume_requested CC (CS w)
                        then Timer.reset (resume_timer (self w))
                        else resume_timer (self w))
           else can_sends = []).
Proof.
  destruct (gen2_raw_acc_output CC w) as [rr wr] eqn:Hraw.
  assert (Hwr : wr = w) by (rewrite gen2_raw_acc_output_eq in Hraw; congruence).
  subst wr.
  unfold gen2. unfold mbind at 1. unfold M_bind at 1. rewrite Hraw.
  destruct rr as [e | raw].
  { exists (inl e), (acc_filter (self w)), (filtered_acc_last (self w)), (params_memory w),
      (acc (CS w)), (hold_timer (self w)), (hold_delay (self w)), (resume_timer (self w)).
    cbv zeta. split; [f_equal; wdestruct w; reflexivity |].
    repeat split; auto; discriminate. }
  destruct (gen2_acc_output_spec raw w) as (ro & f & x & m & Heq & Hk & Hc & Hplain).
  unfold mbind at 1. unfold M_bind at 1. rewrite Heq.
  destruct ro as [e | acc_output].
  { exists (inl e), f, x, m, (acc (CS w)), (hold_timer (self w)), (hold_delay (self w)),
      (resume_timer (self w)).
    cbv zeta. split; [f_equal; wdestruct w; reflexivity |].
    repeat split; auto; discriminate. }
  assert (Hwritten : written_back CC w (<["ACCEL_CMD" := acc_output]> (acc (CS w)))).
  { exists raw, acc_output. rewrite Hraw, Heq. auto. }
  clear Hraw Heq Hplain.
  unfold mbind at 1. unfold M_bind at 1. rewrite gen2_write_back_eq.
  rewrite gen2_acc_cmd_eq, gen2_hold_resume_eq, is_resuming_eq.
  unfold resume_requested, getitem, CEFramesCounter in *.
  set (P := written_back CC w) in *. clearbody P.
  wdestruct w. wsimpl_all.
  repeat (msplit; wsimpl_all; rewrite ?lookup_insert_ne in * by discriminate).
  all: do 8 eexists; (split; [wnorm; exact eq_refl |]).
  all: (split; [exact Hk |]); (split; [exact Hc |]).
  all: (split; [first [left; exact eq_refl | right; split; [exact eq_refl | exact Hwritten]] |]).
  all: (split; [intros; first [exact eq_refl | discriminate] |]).
  all: intros can_sends Hsends; try discriminate Hsends; injection Hsends as <-.
  all: (split; [intros; first [assumption | discriminate] |]).
  all: try exact eq_refl.
  all: do 2 eexists; (split; [exact eq_refl |]).
  all: cbn [andb orb negb]; auto.
  all: exfalso; cbn [andb orb negb] in *;
    repeat match goal with
      | H : ?b = _, H' : context [?b] |- _ => rewrite H in H'; cbn [andb orb negb] in H'
      end; congruence.
Qed.

(** ** One cycle *)

Lemma generation_block_frame CC (w : World F) :
  let w' := snd (generation_block MazdaFlags CC w) in
  CP_flags (self w') = CP_flags (self w)
  /\ ccp (self w') = ccp (self w)
  /\ apply_steer_last (self w') = apply_steer_last (self w)
  /\ ti_apply_steer_last (self w') = ti_apply_steer_last (self w)
  /\ frame (self w') = frame (self w)
  /\ cam_lkas (CS w') = cam_lkas (CS w)
  /\ out (CS w') = out (CS w)
  /\ forall can_sends, fst (generation_block MazdaFlags CC w) = inr can_sends ->
       forallb (fun c => negb (is_steering c)) can_sends = true.
Proof.
  rewrite generation_block_eq.
  destruct (has_flag (CP_flags (self w)) (GEN1 MazdaFlags)).
  - destruct (gen1_spec CC w) as (r & f & x & d & Heq & _ & _). cbv zeta in Heq.
    rewrite Heq. cbv zeta. cbn [fst snd].
    repeat match goal with |- _ /\ _ => split end;
      try (destruct (has_flag (CP_flags (self w)) (RADAR_INTERCEPTOR MazdaFlags)
                     && negb (standstill (out (CS w)))); reflexivity).
    intros can_sends Hr. destruct r as [e | []]; [discriminate |]. injection Hr as <-.
    rewrite !forallb_app.
    repeat match goal with
           | |- context [if ?b then _ else _] => destruct b
           end; reflexivity.
  - destruct (gen2_spec CC w) as (r & f & x & m & a & ht & hd & rt & Heq & _ & _ & _ & _ & Hs).
    cbv zeta in Heq. rewrite Heq. cbv zeta. cbn [fst snd].
    repeat match goal with |- _ /\ _ => split end; try reflexivity.
    intros can_sends Hr. destruct (Hs can_sends Hr) as [_ Hc].
    destruct (Timer_ticks w mod 2 =? 0).
    + destruct Hc as (h & res & -> & _). reflexivity.
    + subst can_sends. reflexivity.
Qed.

Lemma end_of_cycle_frame (w : World F) :
  frame (self (end_of_cycle w)) = frame (self w) + 1
  /\ CP_flags (self (end_of_cycle w)) = CP_flags (self w)
  /\ ccp (self (end_of_cycle w)) = ccp (self w)
  /\ apply_steer_last (self (end_of_cycle w)) = apply_steer_last (self w)
  /\ ti_apply_steer_last (self (end_of_cycle w)) = ti_apply_steer_last (self w)
  /\ brake_counter (self (end_of_cycle w)) = brake_counter (self w)
  /\ CS (end_of_cycle w) = CS w
  /\ params_memory (end_of_cycle w) = params_memory w
  /\ hold_timer (self (end_of_cycle w)) = Timer.advance (hold_timer (self w)).
Proof. repeat split. Qed.

(** The steering part of a cycle: either [update] raises in the steering
    block, before anything is written, or the block returns the two applied
    torques, which are stored, echoed and put in the steering frame. *)
Lemma cycle_steer (i : CycleInput) (w : World F) :
  let r := fst (cycle MazdaFlags i w) in
  let w' := snd (cycle MazdaFlags i w) in
  ccp (self w') = ccp (self w)
  /\ CP_flags (self w') = CP_flags (self w)
  /\ ((latActive (in_CC i) = true /\ returned r = false
       /\ apply_steer_last (self w') = apply_steer_last (self w)
       /\ ti_apply_steer_last (self w') = ti_apply_steer_last (self w))
      \/ exists a t,
           fst (update_steer MazdaFlags (in_CC i) (enter i w)) = inr (a, t)
           /\ apply_steer_last (self w') = a
           /\ ti_apply_steer_last (self w') = t
           /\ forall acts can_sends, r = inr (acts, can_sends) ->
                steerOutputCan acts = a
                /\ List.filter is_steering can_sends
                   = [SteeringControl (frame (self w)) a (cam_lkas (in_CS i))]).
Proof.
  cbv zeta. unfold cycle. rewrite update_eq.
  destruct (update_steer_spec (in_CC i) (enter i w)) as [[Hlat [e He]] | (a & t & He & _)];
    rewrite He.
  { cbn [fst snd]. repeat split. left. repeat split. exact Hlat. }
  set (w1 := with_self (set_steer_last a t) (enter i w)).
  destruct (generation_block_frame (in_CC i) w1) as (G1 & G2 & G3 & G4 & G5 & G6 & G7 & G8).
  destruct (generation_block MazdaFlags (in_CC i) w1) as [[e | sends] w2].
  { cbn [fst snd] in *. rewrite G1, G2, G3, G4. repeat split.
    right. exists a, t. repeat split; discriminate. }
  cbn [fst snd] in *.
  destruct (PyNum.truediv _ _) as [e | q]; cbn [fst snd].
  { rewrite G1, G2, G3, G4. repeat split. right. exists a, t. repeat split; discriminate. }
  destruct (end_of_cycle_frame w2) as (E1 & E2 & E3 & E4 & E5 & _).
  rewrite E2, E3, E4, E5, G1, G2, G3, G4. repeat split.
  right. exists a, t. split; [reflexivity |]. split; [reflexivity |]. split; [reflexivity |].
  intros acts can_sends [= <- <-]. split; [reflexivity |].
  rewrite G5, G6. unfold create_steering_control.
  rewrite List.filter_app. cbn [List.filter is_steering].
  specialize (G8 sends eq_refl).
  assert (Hnone : List.filter is_steering sends = []).
  { clear -G8. induction sends as [| c l IH]; [reflexivity |].
    cbn [forallb] in G8. apply andb_true_iff in G8 as [Hc Hl].
    cbn [List.filter]. destruct (is_steering c); [discriminate |]. auto. }
  rewrite Hnone. reflexivity.
Qed.

Lemma update_steer_bounded CC (w : World F) a t :
  limits_well_formed (ccp (self w)) -> steer_bounded w ->
  fst (update_steer MazdaFlags CC w) = inr (a, t) ->
  Z.abs a <= STEER_MAX (ccp (self w)) /\ Z.abs t <= TI_STEER_MAX (ccp (self w)).
Proof.
  intros (H1 & H2 & H3 & H4) [B1 B2] Hr.
  destruct (update_steer_spec CC w) as [[_ [e He]] | (a' & t' & He & Hat)];
    rewrite He in Hr; [discriminate |].
  injection Hr as <- <-.
  destruct (latActive CC).
  - destruct Hat as [[n [_ ->]] Ht]. split.
    + apply limit_steer_torque_magnitude; assumption.
    + destruct (_ && _).
      * destruct Ht as [m [_ ->]]. apply limit_steer_torque_magnitude; assumption.
      * subst t'. cbn. lia.
  - destruct Hat as [-> ->]. cbn. lia.
Qed.

Lemma cycle_steer_bounded (i : CycleInput) (w : World F) :
  limits_well_formed (ccp (self w)) -> steer_bounded w ->
  steer_bounded (snd (cycle MazdaFlags i w)).
Proof.
  intros Hwf Hb. unfold steer_bounded.
  destruct (cycle_steer i w) as (Hccp & _ & [(_ & _ & -> & ->) | (a & t & Hr & -> & -> & _)]);
    rewrite Hccp; [exact Hb |].
  apply (update_steer_bounded (in_CC i) (enter i w)); assumption.
Qed.

Lemma run_steer_bounded (inputs : list CycleInput) (w : World F) :
  limits_well_formed (ccp (self w)) -> steer_bounded w ->
  ccp (self (run MazdaFlags inputs w)) = ccp (self w)
  /\ CP_flags (self (run MazdaFlags inputs w)) = CP_flags (self w)
  /\ steer_bounded (run MazdaFlags inputs w).
Proof.
  revert w. induction inputs as [| i rest IH]; intros w Hwf Hb; [auto |].
  cbn [run fold_left]. fold (run MazdaFlags rest (snd (cycle MazdaFlags i w))).
  destruct (cycle_steer i w) as (Hccp & Hflags & _).
  destruct (IH (snd (cycle MazdaFlags i w))) as (I1 & I2 & I3).
  - rewrite Hccp. exact Hwf.
  - apply cycle_steer_bounded; assumption.
  - rewrite I1, I2, Hccp, Hflags. auto.
Qed.

Lemma run_ccp (inputs : list CycleInput) (w : World F) :
  ccp (self (run MazdaFlags inputs w)) = ccp (self w)
  /\ CP_flags (self (run MazdaFlags inputs w)) = CP_flags (self w).
Proof.
  revert w. induction inputs as [| i rest IH]; intros w; [auto |].
  cbn [run fold_left]. fold (run MazdaFlags rest (snd (cycle MazdaFlags i w))).
  destruct (cycle_steer i w) as (Hccp & Hflags & _).
  destruct (IH (snd (cycle MazdaFlags i w))) as [-> ->]. auto.
Qed.

Lemma cycle_inactive (i : CycleInput) (w : World F) :
  latActive (in_CC i) = false ->
  apply_steer_last (self (snd (cycle MazdaFlags i w))) = 0
  /\ ti_apply_steer_last (self (snd (cycle MazdaFlags i w))) = 0
  /\ forall acts can_sends, fst (cycle MazdaFlags i w) = inr (acts, can_sends) ->
       steerOutputCan acts = 0
       /\ forall f a l, In (SteeringControl f a l) can_sends -> a = 0.
Proof.
  intros Hlat.
  destruct (cycle_steer i w) as (_ & _ & [(Hact & _) | (a & t & Hr & -> & -> & Hout)]);
    [congruence |].
  rewrite update_steer_inactive in Hr by exact Hlat. injection Hr as <- <-.
  split; [reflexivity |]. split; [reflexivity |].
  intros acts can_sends Hret. destruct (Hout acts can_sends Hret) as [-> Hf].
  split; [reflexivity |]. intros f a l Hin.
  assert (Hin' : In (SteeringControl f a l) (List.filter is_steering can_sends)).
  { apply filter_In. split; [exact Hin | reflexivity]. }
  rewrite Hf in Hin'. destruct Hin' as [[= _ <- _] | []]. reflexivity.
Qed.

(** ** Steering *)

(** C2. From the constructed controller, after any sequence of cycles, a
    cycle with lateral control active leaves an applied steering torque
    within the maximum rate of change of the previous one and within the
    maximum magnitude, on the standard path and, when the torque interceptor
    is installed and allowed this cycle, on the auxiliary path; the value
    stored is the one echoed and sent in the steering frame. *)
Theorem steer_limits_respected (flags : Z) (P : CarControllerParams) (cs0 : CarState)
    (toggles : gmap string bool) (memory : gmap string Z)
    (inputs : list CycleInput) (i : CycleInput) :
  limits_well_formed P ->
  latActive (in_CC i) = true ->
  let w := run MazdaFlags inputs (init_world flags P cs0 toggles memory) in
  let r := fst (cycle MazdaFlags i w) in
  let w' := snd (cycle MazdaFlags i w) in
  (Z.abs (apply_steer_last (self w') - apply_steer_last (self w)) <= STEER_DELTA_MAX P
   /\ Z.abs (apply_steer_last (self w')) <= STEER_MAX P)
  /\ (has_flag flags (TORQUE_INTERCEPTOR MazdaFlags) = true ->
      ti_lkas_allowed (in_CS i) = true ->
      Z.abs (ti_apply_steer_last (self w') - ti_apply_steer_last (self w))
        <= TI_STEER_DELTA_MAX P
      /\ Z.abs (ti_apply_steer_last (self w')) <= TI_STEER_MAX P)
  /\ forall acts can_sends, r = inr (acts, can_sends) ->
       steerOutputCan acts = apply_steer_last (self w')
       /\ List.filter is_steering can_sends
          = [SteeringControl (frame (self w)) (apply_steer_last (self w')) (cam_lkas (in_CS i))].
Proof.
  intros Hwf Hlat. cbv zeta.
  set (w0 := init_world flags P cs0 toggles memory).
  destruct (run_steer_bounded inputs w0) as (Hccp & Hflags & [B1 B2]).
  { exact Hwf. }
  { split; cbn; destruct Hwf as (? & ? & ? & ?); lia. }
  set (w := run MazdaFlags inputs w0) in *.
  change (ccp (self w0)) with P in *. change (CP_flags (self w0)) with flags in *.
  rewrite Hccp in B1, B2.
  destruct Hwf as (H1 & H2 & H3 & H4).
  destruct (cycle_steer i w) as (_ & _ & [(_ & Hret & -> & ->) | (a & t & Hr & -> & -> & Hout)]).
  { rewrite !Z.sub_diag. cbn [Z.abs].
    split; [split; assumption |]. split; [intros; split; assumption |].
    intros acts can_sends Hr. rewrite Hr in Hret. discriminate. }
  destruct (update_steer_spec (in_CC i) (enter i w)) as [[_ [e He]] | (a' & t' & He & Hat)];
    rewrite He in Hr; [discriminate |].
  injection Hr as <- <-. rewrite Hlat in Hat.
  change (apply_steer_last (self (enter i w))) with (apply_steer_last (self w)) in Hat.
  change (ti_apply_steer_last (self (enter i w))) with (ti_apply_steer_last (self w)) in Hat.
  change (ccp (self (enter i w))) with (ccp (self w)) in Hat.
  change (CP_flags (self (enter i w))) with (CP_flags (self w)) in Hat.
  change (CS (enter i w)) with (in_CS i) in Hat.
  rewrite Hccp, Hflags in Hat.
  destruct Hat as [[n [_ ->]] Ht].
  split; [| split].
  - split.
    + apply limit_steer_torque_rate; assumption.
    + apply limit_steer_torque_magnitude; assumption.
  - intros Hti Hallowed. rewrite Hti, Hallowed in Ht. destruct Ht as [m [_ ->]]. split.
    + apply limit_steer_torque_rate; assumption.
    + apply limit_steer_torque_magnitude; assumption.
  - exact Hout.
Qed.

(** C8. While lateral control is inactive, every cycle stores zero as the
    applied torque of both paths, echoes zero and sends zero in its steering
    frame; and the first cycle of the next engagement limits the rate from
    zero. *)
Theorem inactive_steer_is_zero (inputs : list CycleInput) (i : CycleInput) (w : World F) :
  latActive (in_CC i) = false ->
  Forall (fun j => latActive (in_CC j) = false) inputs ->
  let w1 := snd (cycle MazdaFlags i w) in
  let w2 := run MazdaFlags inputs w1 in
  Forall (fun r => forall acts can_sends, r = inr (acts, can_sends) ->
            steerOutputCan acts = 0
            /\ forall f a l, In (SteeringControl f a l) can_sends -> a = 0)
         (fst (cycle MazdaFlags i w) :: outcomes MazdaFlags inputs w1)
  /\ apply_steer_last (self w1) = 0 /\ ti_apply_steer_last (self w1) = 0
  /\ apply_steer_last (self w2) = 0 /\ ti_apply_steer_last (self w2) = 0
  /\ forall next acts can_sends,
       latActive (in_CC next) = true ->
       fst (cycle MazdaFlags next w2) = inr (acts, can_sends) ->
       exists n,
         scaled_steer (steer (actuators (in_CC next))) (STEER_MAX (ccp (self w))) = inr n
         /\ steerOutputCan acts
            = apply_driver_steer_torque_limits n 0
                (steeringTorque (out (in_CS next))) (ccp (self w)).
Proof.
  intros Hlat Hall. cbv zeta.
  set (w1 := snd (cycle MazdaFlags i w)).
  destruct (cycle_inactive i w Hlat) as (Z1 & Z2 & Zout). fold w1 in Z1, Z2.
  assert (Hrun : forall js (v : World F),
            Forall (fun j => latActive (in_CC j) = false) js ->
            apply_steer_last (self v) = 0 -> ti_apply_steer_last (self v) = 0 ->
            Forall (fun r => forall acts can_sends, r = inr (acts, can_sends) ->
                      steerOutputCan acts = 0
                      /\ forall f a l, In (SteeringControl f a l) can_sends -> a = 0)
                   (outcomes MazdaFlags js v)
            /\ apply_steer_last (self (run MazdaFlags js v)) = 0
            /\ ti_apply_steer_last (self (run MazdaFlags js v)) = 0).
  { induction js as [| j js IH]; intros v Hjs Hv1 Hv2.
    - cbn. auto.
    - inversion Hjs as [| ? ? Hj Hjs']; subst.
      destruct (cycle_inactive j v Hj) as (Y1 & Y2 & Yout).
      destruct (IH (snd (cycle MazdaFlags j v)) Hjs' Y1 Y2) as (I1 & I2 & I3).
      cbn [outcomes run fold_left]. split; [constructor; assumption |]. auto. }
  destruct (Hrun inputs w1 Hall Z1 Z2) as (R1 & R2 & R3).
  split; [constructor; assumption |].
  repeat match goal with |- _ /\ _ => split; [assumption |] end.
  intros next acts can_sends Hnext Hret.
  set (w2 := run MazdaFlags inputs w1) in *.
  assert (Hccp : ccp (self w2) = ccp (self w)).
  { subst w2 w1. destruct (run_ccp inputs (snd (cycle MazdaFlags i w))) as [-> _].
    destruct (cycle_steer i w) as (-> & _). reflexivity. }
  destruct (cycle_steer next w2) as (_ & _ & [(_ & Hno & _) | (a & t & Hr & _ & _ & Hout)]).
  { rewrite Hret in Hno. discriminate. }
  destruct (Hout acts can_sends Hret) as [-> _].
  destruct (update_steer_spec (in_CC next) (enter next w2))
    as [[_ [e He]] | (a' & t' & He & Hat)]; rewrite He in Hr; [discriminate |].
  injection Hr as <- <-. rewrite Hnext in Hat. destruct Hat as [(n & Hn & ->) _].
  change (ccp (self (enter next w2))) with (ccp (self w2)) in *.
  change (apply_steer_last (self (enter next w2))) with (apply_steer_last (self w2)).
  change (CS (enter next w2)) with (in_CS next).
  rewrite Hccp in *. rewrite R2. exists n. auto.
Qed.

(** ** The stock-transition counter *)

Lemma apply_writes_counter (writes : list (string * Z)) (m : gmap string Z) :
  existsb (fun kv => bool_decide (fst kv = "CEFramesCounter")) writes = false ->
  get_int (apply_writes writes m) "CEFramesCounter" = get_int m "CEFramesCounter".
Proof.
  revert m. induction writes as [| [k v] rest IH]; intros m H; [reflexivity |].
  cbn [existsb fst] in H. apply orb_false_iff in H as [Hk Hrest].
  apply bool_decide_eq_false in Hk.
  cbn [apply_writes fold_left fst snd]. fold (apply_writes rest (put_int k v m)).
  rewrite IH by exact Hrest.
  unfold get_int, put_int. rewrite lookup_insert_ne by exact Hk. reflexivity.
Qed.

Lemma generation_block_counter CC (w : World F) :
  counter_step (CEFramesCounter w) (CEFramesCounter (snd (generation_block MazdaFlags CC w))).
Proof.
  rewrite generation_block_eq.
  destruct (has_flag (CP_flags (self w)) (GEN1 MazdaFlags)).
  - destruct (gen1_spec CC w) as (r & f & x & d & Heq & _ & _). cbv zeta in Heq.
    rewrite Heq. left. reflexivity.
  - destruct (gen2_spec CC w) as (r & f & x & m & a & ht & hd & rt & Heq & _ & Hc & _).
    cbv zeta in Heq. rewrite Heq. exact Hc.
Qed.

Lemma cycle_counter (i : CycleInput) (w : World F) :
  writes_counter i = false ->
  counter_step (CEFramesCounter w) (CEFramesCounter (snd (cycle MazdaFlags i w))).
Proof.
  intros Hown. unfold cycle. rewrite update_eq.
  assert (H0 : CEFramesCounter (enter i w) = CEFramesCounter w).
  { apply apply_writes_counter. exact Hown. }
  rewrite <- H0.
  destruct (update_steer_spec (in_CC i) (enter i w)) as [[_ [e He]] | (a & t & He & _)];
    rewrite He; [left; reflexivity |].
  set (w1 := with_self (set_steer_last a t) (enter i w)).
  change (CEFramesCounter (enter i w)) with (CEFramesCounter w1).
  pose proof (generation_block_counter (in_CC i) w1) as Hstep.
  destruct (generation_block MazdaFlags (in_CC i) w1) as [[e | sends] w2]; [exact Hstep |].
  destruct (PyNum.truediv _ _); exact Hstep.
Qed.

Lemma counter_step_bounds c c' :
  0 <= c <= 20 -> counter_step c c' -> 0 <= c' <= 20 /\ Z.abs (c' - c) <= 1.
Proof. unfold counter_step. lia. Qed.

Lemma run_counter (inputs : list CycleInput) (w : World F) :
  Forall (fun j => writes_counter j = false) inputs ->
  0 <= CEFramesCounter w <= 20 ->
  0 <= CEFramesCounter (run MazdaFlags inputs w) <= 20.
Proof.
  revert w. induction inputs as [| i rest IH]; intros w Hown Hc; [exact Hc |].
  inversion Hown as [| ? ? Hi Hrest]; subst.
  cbn [run fold_left]. apply IH; [exact Hrest |].
  apply (counter_step_bounds (CEFramesCounter w)); [exact Hc |].
  apply cycle_counter. exact Hi.
Qed.

(** C3. From the constructed controller, as long as no other process writes
    the counter, the stock-transition counter is within [0, 20] before and
    after every cycle, and a cycle changes it by at most 1. *)
Theorem transition_counter_bounded (flags : Z) (P : CarControllerParams) (cs0 : CarState)
    (toggles : gmap string bool) (memory : gmap string Z)
    (inputs : list CycleInput) (i : CycleInput) :
  Forall (fun j => writes_counter j = false) inputs ->
  writes_counter i = false ->
  let w := run MazdaFlags inputs (init_world flags P cs0 toggles memory) in
  let w' := snd (cycle MazdaFlags i w) in
  0 <= CEFramesCounter w <= 20
  /\ 0 <= CEFramesCounter w' <= 20
  /\ Z.abs (CEFramesCounter w' - CEFramesCounter w) <= 1.
Proof.
  intros Hown Hi. cbv zeta.
  assert (Hc : 0 <= CEFramesCounter
                      (run MazdaFlags inputs (init_world flags P cs0 toggles memory)) <= 20).
  { apply run_counter; [exact Hown |].
    unfold CEFramesCounter, init_world, get_int, put_int. cbn [params_memory].
    rewrite lookup_insert_ne by discriminate. rewrite lookup_insert_eq. cbn. lia. }
  split; [exact Hc |].
  apply counter_step_bounds; [exact Hc |]. apply cycle_counter. exact Hi.
Qed.

(** ** The acceleration command of a GEN2 car *)

(** C4. On a GEN2 car the acceleration command of the outgoing stock ACC
    message is overwritten with the command computed this cycle exactly when
    experimental longitudinal control is enabled and long control is active:
    otherwise the message leaves the cycle as it entered it; a cycle that
    returns with both set has written it; and the message is never changed
    in any other way. *)
Theorem acc_write_back (i : CycleInput) (w : World F) :
  has_flag (CP_flags (self w)) (GEN1 MazdaFlags) = false ->
  let enabled :=
    get_bool (in_params i) "ExperimentalLongitudinalEnabled" && longActive (in_CC i) in
  let w1 := snd (update_steer MazdaFlags (in_CC i) (enter i w)) in
  let w' := snd (cycle MazdaFlags i w) in
  (enabled = false -> acc (CS w') = acc (in_CS i))
  /\ (returned (fst (cycle MazdaFlags i w)) = true -> enabled = true ->
      written_back (in_CC i) w1 (acc (CS w')))
  /\ (acc (CS w') = acc (in_CS i)
      \/ enabled = true /\ written_back (in_CC i) w1 (acc (CS w'))).
Proof.
  intros Hgen. cbv zeta. unfold cycle. rewrite update_eq.
  destruct (update_steer_spec (in_CC i) (enter i w)) as [[_ [e He]] | (a & t & He & _)];
    rewrite He; cbn [fst snd].
  { split; [reflexivity |]. split; [discriminate |]. left; reflexivity. }
  set (w1 := with_self (set_steer_last a t) (enter i w)).
  rewrite generation_block_eq.
  change (CP_flags (self w1)) with (CP_flags (self w)). rewrite Hgen.
  destruct (gen2_spec (in_CC i) w1)
    as (r & f & x & m & d & ht & hd & rt & Heq & _ & _ & Hd & Hoff & Hs).
  cbv zeta in Heq.
  change (params w1) with (in_params i) in *. change (acc (CS w1)) with (acc (in_CS i)) in *.
  rewrite Heq.
  assert (Hacc : forall v : World F,
            acc (CS (end_of_cycle v)) = acc (CS v)) by reflexivity.
  destruct r as [e | sends].
  { cbn [snd fst CS acc with_self with_CS set_acc returned].
    split; [exact Hoff |]. split; [discriminate | exact Hd]. }
  destruct (PyNum.truediv _ _) as [e | q];
    cbn [snd fst CS acc with_self with_CS set_acc returned end_of_cycle].
  { split; [exact Hoff |]. split; [discriminate | exact Hd]. }
  split; [exact Hoff |]. split; [| exact Hd].
  intros _ Hen. apply (Hs sends eq_refl). exact Hen.
Qed.

(** C5, as the code has it. The raw acceleration output of a GEN2 car is the
    current stock acceleration command when a resume condition holds, blended
    ACC mode is enabled and the transition counter is exactly zero; in every
    other case it is [accel * 240 + 2000]. Computing it writes nothing, and it
    is computed whenever the stock ACC message carries the two signals read. *)
Theorem raw_acc_output_cases (CC : CarControl) (w : World F) :
  snd (gen2_raw_acc_output CC w) = w
  /\ (forall raw, fst (gen2_raw_acc_output CC w) = inr raw ->
      if resume_requested CC (CS w) && get_bool (params w) "BlendedACC"
         && (CEFramesCounter w =? 0)
      then acc (CS w) !! "ACCEL_CMD" = Some raw
      else raw = PyFloat (accel (actuators CC) * 240 + 2000)%float)
  /\ (is_Some (acc (CS w) !! "RESUME") -> is_Some (acc (CS w) !! "ACCEL_CMD") ->
      returned (fst (gen2_raw_acc_output CC w)) = true).
Proof.
  rewrite gen2_raw_acc_output_eq. cbn [fst snd].
  pose proof (is_resuming_requested CC w) as Hreq.
  split; [reflexivity |]. split.
  - intros raw Hraw. destruct (fst (is_resuming CC w)) as [e | b]; [discriminate |].
    rewrite <- (Hreq b eq_refl).
    destruct (b && _ && _); [| congruence].
    unfold getitem in Hraw. destruct (acc (CS w) !! "ACCEL_CMD"); congruence.
  - intros [v Hv] [u Hu]. rewrite is_resuming_eq. cbn [fst].
    unfold getitem. rewrite Hv, Hu.
    destruct (_ || _ || _ || _); cbn [returned]; destruct (_ && _ && _); reflexivity.
Qed.

(** ** Hold and resume *)

Lemma cycle_acc_cmd (i : CycleInput) (w : World F) acts can_sends a h r :
  has_flag (CP_flags (self w)) (GEN1 MazdaFlags) = false ->
  fst (cycle MazdaFlags i w) = inr (acts, can_sends) ->
  In (AccCommand a h r) can_sends ->
  let waiting :=
    standstill (out (in_CS i)) && negb (Timer.active (hold_delay (self w))) in
  Timer_ticks w mod 2 = 0
  /\ h = waiting && negb (resume_requested (in_CC i) (in_CS i))
         && Timer.active (hold_timer (self w))
  /\ r = Timer.active
           (if waiting && resume_requested (in_CC i) (in_CS i)
            then Timer.reset (resume_timer (self w))
            else resume_timer (self w)).
Proof.
  intros Hgen Hret Hin. cbv zeta. unfold cycle in Hret. rewrite update_eq in Hret.
  destruct (update_steer_spec (in_CC i) (enter i w)) as [[_ [e He]] | (a0 & t & He & _)];
    rewrite He in Hret; [discriminate |].
  set (w1 := with_self (set_steer_last a0 t) (enter i w)) in *.
  rewrite generation_block_eq in Hret.
  change (CP_flags (self w1)) with (CP_flags (self w)) in Hret. rewrite Hgen in Hret.
  destruct (gen2_spec (in_CC i) w1)
    as (rr & f & x & m & d & ht & hd & rt & Heq & _ & _ & _ & _ & Hs).
  cbv zeta in Heq. rewrite Heq in Hret.
  destruct rr as [e | sends]; [discriminate |].
  destruct (PyNum.truediv _ _) as [e | q]; [discriminate |].
  cbn [fst] in Hret. injection Hret as <- <-.
  apply in_app_or in Hin as [Hin | [[=] | []]].
  destruct (Hs sends eq_refl) as [_ Hc].
  change (Timer_ticks w1) with (Timer_ticks w) in Hc.
  change (CS w1) with (in_CS i) in Hc.
  change (hold_delay (self w1)) with (hold_delay (self w)) in Hc.
  change (hold_timer (self w1)) with (hold_timer (self w)) in Hc.
  change (resume_timer (self w1)) with (resume_timer (self w)) in Hc.
  destruct (Timer_ticks w mod 2 =? 0) eqn:Htick.
  - destruct Hc as (h' & r' & -> & -> & -> & ->).
    destruct Hin as [[= <- <- <-] | []].
    apply Z.eqb_eq in Htick. auto.
  - subst sends. destruct Hin.
Qed.

(** ** The cancel button *)

Ltac zdiv := Z.to_euclidean_division_equations; lia.

Lemma filter_cancel_none (l : list Command) :
  forallb (fun c => negb (is_cancel_button c)) l = true ->
  List.filter is_cancel_button l = [].
Proof.
  induction l as [| c l IH]; [reflexivity |]. cbn [forallb List.filter].
  intros H. apply andb_true_iff in H as [Hc Hl].
  destruct (is_cancel_button c); [discriminate | auto].
Qed.

Lemma generation_block_cancel CC (w : World F) :
  let w' := snd (generation_block MazdaFlags CC w) in
  (has_flag (CP_flags (self w)) (GEN1 MazdaFlags) = true ->
   brake_counter (self w')
   = if CruiseControl.cancel (cruiseControl CC) then brake_counter (self w) + 1 else 0)
  /\ forall can_sends, fst (generation_block MazdaFlags CC w) = inr can_sends ->
       List.filter is_cancel_button can_sends
       = if has_flag (CP_flags (self w)) (GEN1 MazdaFlags)
            && CruiseControl.cancel (cruiseControl CC)
            && (frame (self w) mod 10 =? 0)
            && negb (brakePressed (out (CS w)) && (brake_counter (self w) + 1 <? 7))
         then [create_button_cmd (crz_btns_counter (CS w)) Buttons.CANCEL]
         else [].
Proof.
  rewrite generation_block_eq.
  destruct (has_flag (CP_flags (self w)) (GEN1 MazdaFlags)).
  - destruct (gen1_spec CC w) as (r & f & x & d & Heq & _ & _). cbv zeta in Heq.
    rewrite Heq. cbv zeta. cbn [fst snd andb]. split.
    + intros _.
      destruct (has_flag (CP_flags (self w)) (RADAR_INTERCEPTOR MazdaFlags)
                && negb (standstill (out (CS w)))); reflexivity.
    + intros can_sends Hr. destruct r as [e | []]; [discriminate |].
      injection Hr as <-.
      rewrite !List.filter_app.
      rewrite (filter_cancel_none (if frame (self w) mod 50 =? 0 then _ else _))
        by (destruct (frame (self w) mod 50 =? 0); reflexivity).
      rewrite (filter_cancel_none (if _ && (frame (self w) mod 2 =? 0) then _ else _))
        by (destruct (_ && (frame (self w) mod 2 =? 0)); reflexivity).
      rewrite !app_nil_r.
      destruct (CruiseControl.cancel (cruiseControl CC)); cbn [andb].
      * destruct ((frame (self w) mod 10 =? 0) && _); reflexivity.
      * destruct (_ && (frame (self w) mod 5 =? 0)); reflexivity.
  - destruct (gen2_spec CC w) as (r & f & x & m & a & ht & hd & rt & Heq & _ & _ & _ & _ & Hs).
    cbv zeta in Heq. rewrite Heq. cbv zeta. cbn [fst snd andb].
    split; [discriminate |].
    intros can_sends Hr. destruct (Hs can_sends Hr) as [_ Hc].
    destruct (Timer_ticks w mod 2 =? 0).
    + destruct Hc as (h & res & -> & _). reflexivity.
    + subst can_sends. reflexivity.
Qed.

Lemma cycle_cancel (i : CycleInput) (w : World F) :
  let r := fst (cycle MazdaFlags i w) in
  let w' := snd (cycle MazdaFlags i w) in
  frame (self w') = frame (self w) + (if returned r then 1 else 0)
  /\ cancel_frames r
     = (if returned r && cancel_due MazdaFlags i w
        then [create_button_cmd (crz_btns_counter (in_CS i)) Buttons.CANCEL]
        else [])
  /\ (returned r = true -> cancel_due MazdaFlags i w = true ->
      brake_counter (self w') = brake_counter (self w) + 1).
Proof.
  cbv zeta. unfold cycle, cancel_frames, cancel_due. rewrite update_eq.
  destruct (update_steer_spec (in_CC i) (enter i w)) as [[_ [e He]] | (a & t & He & _)];
    rewrite He; cbn [fst snd returned emitted andb List.filter].
  { split; [cbn; lia |]. split; [reflexivity | discriminate]. }
  set (w1 := with_self (set_steer_last a t) (enter i w)).
  destruct (generation_block_frame (in_CC i) w1) as (_ & _ & _ & _ & G5 & _).
  destruct (generation_block_cancel (in_CC i) w1) as (B1 & B2).
  change (CP_flags (self w1)) with (CP_flags (self w)) in *.
  change (frame (self w1)) with (frame (self w)) in *.
  change (brake_counter (self w1)) with (brake_counter (self w)) in *.
  change (CS w1) with (in_CS i) in *.
  destruct (generation_block MazdaFlags (in_CC i) w1) as [[e | sends] w2];
    cbn [fst snd returned emitted andb List.filter] in *.
  { split; [lia |]. split; [reflexivity | discriminate]. }
  destruct (PyNum.truediv _ _) as [e | q];
    cbn [fst snd returned emitted andb List.filter].
  { split; [lia |]. split; [reflexivity | discriminate]. }
  split; [cbn [end_of_cycle]; rewrite <- G5; reflexivity |].
  split.
  - rewrite List.filter_app, (B2 sends eq_refl). cbn. apply app_nil_r.
  - intros _ Hdue. apply andb_true_iff in Hdue as [Hdue _].
    apply andb_true_iff in Hdue as [Hdue _]. apply andb_true_iff in Hdue as [Hg Hc].
    change (brake_counter (self (end_of_cycle w2))) with (brake_counter (self w2)).
    rewrite (B1 Hg), Hc. reflexivity.
Qed.

Lemma cancel_frames_none_before_slot (inputs : list CycleInput) (w : World F) :
  Z.of_nat (length inputs) <= (- frame (self w)) mod 10 ->
  all_cancel_frames MazdaFlags inputs w = [].
Proof.
  unfold all_cancel_frames.
  revert w. induction inputs as [| i rest IH]; intros w Hlen; [reflexivity |].
  cbn [outcomes List.map concat]. cbn [length] in Hlen. rewrite Nat2Z.inj_succ in Hlen.
  destruct (cycle_cancel i w) as (Hf & Hc & _).
  rewrite Hc. unfold cancel_due.
  assert (Hslot : (frame (self w) mod 10 =? 0) = false) by (apply Z.eqb_neq; zdiv).
  rewrite Hslot. repeat (first [rewrite andb_false_r | rewrite andb_false_l]). cbn [app].
  apply IH. rewrite Hf. destruct (returned _); zdiv.
Qed.

Lemma cancel_frames_at_most_one (inputs : list CycleInput) (w : World F) :
  (length inputs <= 10)%nat ->
  (length (all_cancel_frames MazdaFlags inputs w) <= 1)%nat.
Proof.
  revert w. induction inputs as [| i rest IH]; intros w Hlen; [cbn; lia |].
  unfold all_cancel_frames. cbn [outcomes List.map concat]. cbn [length] in Hlen.
  fold (all_cancel_frames MazdaFlags rest (snd (cycle MazdaFlags i w))).
  destruct (cycle_cancel i w) as (Hf & Hc & _). rewrite Hc, length_app.
  destruct (returned (fst (cycle MazdaFlags i w))) eqn:Hret; cbn [andb].
  - destruct (cancel_due MazdaFlags i w) eqn:Hdue.
    + rewrite cancel_frames_none_before_slot; [cbn; lia |].
      rewrite Hf. unfold cancel_due in Hdue.
      apply andb_true_iff in Hdue as [Hdue _]. apply andb_true_iff in Hdue as [_ Hslot].
      apply Z.eqb_eq in Hslot. zdiv.
    + cbn [length]. specialize (IH (snd (cycle MazdaFlags i w))). lia.
  - cbn [length]. specialize (IH (snd (cycle MazdaFlags i w))). lia.
Qed.

(** C6. Over any ten consecutive cycles at most one cancel-button frame is
    emitted; and a cycle that emits one has counted this cycle in the cancel
    debounce count and did not find the brake pressed with that count below
    7. *)
Theorem cancel_rate_and_debounce (w : World F) :
  (forall inputs, (length inputs <= 10)%nat ->
     (length (all_cancel_frames MazdaFlags inputs w) <= 1)%nat)
  /\ (forall i, cancel_frames (fst (cycle MazdaFlags i w)) <> [] ->
      let w' := snd (cycle MazdaFlags i w) in
      brake_counter (self w') = brake_counter (self w) + 1
      /\ ~ (brakePressed (out (in_CS i)) = true /\ brake_counter (self w') < 7)).
Proof.
  split; [intros inputs; apply cancel_frames_at_most_one |].
  intros i Hsome. cbv zeta.
  destruct (cycle_cancel i w) as (_ & Hc & Hb). rewrite Hc in Hsome.
  destruct (returned (fst (cycle MazdaFlags i w))); [| contradiction].
  cbn [andb] in Hsome. destruct (cancel_due MazdaFlags i w) eqn:Hdue; [| contradiction].
  rewrite (Hb eq_refl eq_refl). split; [reflexivity |].
  unfold cancel_due in Hdue. apply andb_true_iff in Hdue as [_ Hgate].
  intros [Hbrake Hcount]. rewrite Hbrake in Hgate.
  apply Z.ltb_lt in Hcount. rewrite Hcount in Hgate. discriminate.
Qed.

Lemma cancel_frames_when_held (inputs : list CycleInput) (w : World F) :
  has_flag (CP_flags (self w)) (GEN1 MazdaFlags) = true ->
  Forall (fun i => cancel_held i = true) inputs ->
  Forall (fun r => returned r = true) (outcomes MazdaFlags inputs w) ->
  (forall k r, nth_error (outcomes MazdaFlags inputs w) k = Some r ->
     length (cancel_frames r)
     = if (frame (self w) + Z.of_nat k) mod 10 =? 0 then 1%nat else 0%nat)
  /\ Z.of_nat (length (all_cancel_frames MazdaFlags inputs w))
     = (frame (self w) + Z.of_nat (length inputs) + 9) / 10 - (frame (self w) + 9) / 10.
Proof.
  revert w. induction inputs as [| i rest IH]; intros w Hgen Hheld Hret.
  { split; [intros [| k] r; discriminate |]. cbn. zdiv. }
  inversion Hheld as [| ? ? Hi Hrest]; subst.
  cbn [outcomes] in Hret. inversion Hret as [| ? ? Hr0 Hrets]; subst.
  destruct (cycle_cancel i w) as (Hf & Hc & _).
  destruct (cycle_steer i w) as (_ & Hflags & _).
  rewrite Hr0 in Hf, Hc. cbn [andb] in Hc.
  assert (Hdue : cancel_due MazdaFlags i w = (frame (self w) mod 10 =? 0)).
  { unfold cancel_due. unfold cancel_held in Hi.
    apply andb_true_iff in Hi as [Hcancel Hbrake]. apply negb_true_iff in Hbrake.
    rewrite Hgen, Hcancel, Hbrake. cbn [andb negb]. apply andb_true_r. }
  rewrite Hdue in Hc.
  destruct (IH (snd (cycle MazdaFlags i w))) as (IHk & IHn);
    [rewrite Hflags; exact Hgen | exact Hrest | exact Hrets |].
  rewrite Hf in IHk, IHn.
  split.
  - intros [| k] r Hk; cbn [outcomes nth_error] in Hk.
    + injection Hk as <-. rewrite Hc, Z.add_0_r.
      destruct (frame (self w) mod 10 =? 0); reflexivity.
    + rewrite (IHk k r Hk). rewrite Nat2Z.inj_succ.
      replace (frame (self w) + 1 + Z.of_nat k) with (frame (self w) + Z.succ (Z.of_nat k))
        by lia.
      reflexivity.
  - unfold all_cancel_frames. cbn [outcomes List.map concat].
    fold (all_cancel_frames MazdaFlags rest (snd (cycle MazdaFlags i w))).
    rewrite length_app, Nat2Z.inj_add, IHn, Hc. cbn [length]. rewrite Nat2Z.inj_succ.
    destruct (Z.eqb_spec (frame (self w) mod 10) 0); cbn [length]; zdiv.
Qed.

Lemma truediv_zero (m : Z) :
  m <> 0 -> PyNum.truediv (PyInt 0) (PyInt m) = inr (PyFloat 0).
Proof.
  intros Hm. unfold PyNum.truediv. apply Z.eqb_neq in Hm. rewrite Hm.
  unfold Z_truediv. cbn [Z.abs Z.sgn]. rewrite Z.mul_0_l, Zdiv_0_l, Zmod_0_l.
  cbn. reflexivity.
Qed.

(** A cycle of a GEN1 car returns when lateral control is inactive, the
    steering maximum is not zero and the blended radar path is not driven. *)
Lemma cycle_returns_gen1 (i : CycleInput) (w : World F) :
  has_flag (CP_flags (self w)) (GEN1 MazdaFlags) = true ->
  STEER_MAX (ccp (self w)) <> 0 ->
  latActive (in_CC i) = false ->
  has_flag (CP_flags (self w)) (RADAR_INTERCEPTOR MazdaFlags)
  && longActive (in_CC i) && get_bool (in_params i) "BlendedACC" = false ->
  returned (fst (cycle MazdaFlags i w)) = true.
Proof.
  intros Hgen Hmax Hlat Hplain. unfold cycle. rewrite update_eq.
  rewrite update_steer_inactive by exact Hlat.
  set (w1 := with_self (set_steer_last 0 0) (enter i w)).
  destruct (generation_block_frame (in_CC i) w1) as (_ & G2 & _).
  rewrite generation_block_eq in *.
  change (CP_flags (self w1)) with (CP_flags (self w)) in *. rewrite Hgen in *.
  destruct (gen1_spec (in_CC i) w1) as (r & f & x & d & Heq & _ & Hp).
  cbv zeta in Heq.
  change (CP_flags (self w1)) with (CP_flags (self w)) in *.
  change (params w1) with (in_params i) in *.
  destruct (Hp Hplain) as (-> & _). rewrite Heq in *. cbn [snd] in G2.
  rewrite G2. change (ccp (self w1)) with (ccp (self w)).
  rewrite truediv_zero by exact Hmax. reflexivity.
Qed.

Lemma run_returns_disengaged (inputs : list CycleInput) (w : World F) :
  has_flag (CP_flags (self w)) (GEN1 MazdaFlags) = true ->
  STEER_MAX (ccp (self w)) <> 0 ->
  Forall (fun i => disengaged i = true) inputs ->
  Forall (fun r => returned r = true) (outcomes MazdaFlags inputs w).
Proof.
  revert w. induction inputs as [| i rest IH]; intros w Hgen Hmax Hoff; [constructor |].
  inversion Hoff as [| ? ? Hi Hrest]; subst.
  unfold disengaged in Hi. apply andb_true_iff in Hi as [Hlat Hlong].
  apply negb_true_iff in Hlat, Hlong.
  destruct (cycle_steer i w) as (Hccp & Hflags & _).
  cbn [outcomes]. constructor.
  - apply cycle_returns_gen1; try assumption.
    rewrite Hlong, andb_false_r. reflexivity.
  - apply IH; [rewrite Hflags | rewrite Hccp |]; assumption.
Qed.

(** C7, as the code has it. On a GEN1 car, over 100 consecutive cycles with
    cancel intent held and the brake not pressed, every cycle runs to
    completion when nothing is engaged and the steering maximum is not zero;
    and when every cycle runs to completion exactly 10 cancel-button frames
    are emitted, one on each cycle whose frame count (the starting frame
    count plus the zero-indexed offset in the window) is a multiple of 10:
    these are the offsets 0, 10, ..., 90 when the starting frame count is a
    multiple of 10. *)
Theorem cancel_every_tenth_frame (inputs : list CycleInput) (w : World F) :
  has_flag (CP_flags (self w)) (GEN1 MazdaFlags) = true ->
  length inputs = 100%nat ->
  Forall (fun i => cancel_held i = true) inputs ->
  (STEER_MAX (ccp (self w)) <> 0 ->
   Forall (fun i => disengaged i = true) inputs ->
   Forall (fun r => returned r = true) (outcomes MazdaFlags inputs w))
  /\ (Forall (fun r => returned r = true) (outcomes MazdaFlags inputs w) ->
      length (all_cancel_frames MazdaFlags inputs w) = 10%nat
      /\ (forall k r, nth_error (outcomes MazdaFlags inputs w) k = Some r ->
            length (cancel_frames r)
            = if (frame (self w) + Z.of_nat k) mod 10 =? 0 then 1%nat else 0%nat)
      /\ (frame (self w) mod 10 = 0 ->
          forall k r, nth_error (outcomes MazdaFlags inputs w) k = Some r ->
            length (cancel_frames r) = if (k mod 10 =? 0)%nat then 1%nat else 0%nat)).
Proof.
  intros Hgen Hlen Hheld.
  split; [intros Hmax Hoff; apply run_returns_disengaged; assumption |].
  intros Hret.
  destruct (cancel_frames_when_held inputs w Hgen Hheld Hret) as (Hk & Hn).
  rewrite Hlen in Hn. split; [| split].
  - apply Nat2Z.inj. rewrite Hn. change (Z.of_nat 100) with 100. zdiv.
  - exact Hk.
  - intros Hslot k r Hnth. rewrite (Hk k r Hnth).
    assert (E : ((frame (self w) + Z.of_nat k) mod 10 =? 0) = (k mod 10 =? 0)%nat).
    { destruct (Nat.eqb_spec (k mod 10) 0) as [E | E].
      - apply Z.eqb_eq. apply (f_equal Z.of_nat) in E.
        rewrite Nat2Z.inj_mod in E. change (Z.of_nat 10) with 10 in E.
        change (Z.of_nat 0) with 0 in E. zdiv.
      - apply Z.eqb_neq. intros E'. apply E. apply Nat2Z.inj.
        rewrite Nat2Z.inj_mod. change (Z.of_nat 10) with 10. change (Z.of_nat 0) with 0.
        zdiv. }
    rewrite E. reflexivity.
Qed.

(** ** The radar path of a GEN1 car *)

Lemma cycle_gen1 (i : CycleInput) (w : World F) acts can_sends :
  has_flag (CP_flags (self w)) (GEN1 MazdaFlags) = true ->
  fst (cycle MazdaFlags i w) = inr (acts, can_sends) ->
  exists a t sends w2,
    let w1 := with_self (set_steer_last a t) (enter i w) in
    gen1 MazdaFlags (in_CC i) w1 = (inr sends, w2)
    /\ can_sends = sends ++ create_steering_control (frame (self w2)) a (cam_lkas (CS w2))
    /\ snd (cycle MazdaFlags i w) = end_of_cycle w2.
Proof.
  intros Hgen Hret. unfold cycle in *. rewrite update_eq in *.
  destruct (update_steer_spec (in_CC i) (enter i w)) as [[_ [e He]] | (a & t & He & _)];
    rewrite He in *; [discriminate |].
  rewrite generation_block_eq in *.
  change (CP_flags (self (with_self (set_steer_last a t) (enter i w))))
    with (CP_flags (self w)) in *.
  rewrite Hgen in *.
  destruct (gen1 MazdaFlags (in_CC i) (with_self (set_steer_last a t) (enter i w)))
    as [[e | sends] w2] eqn:Hg; [discriminate |].
  destruct (PyNum.truediv _ _) as [e | q]; [discriminate |].
  cbn [fst snd] in *. injection Hret as <- <-.
  exists a, t, sends, w2. cbv zeta. auto.
Qed.

(** C9. On a GEN1 car with the radar interceptor, the hold flag is computed
    from standstill and the hold timer alone: it is true exactly when the
    car is at standstill and the hold timer is active, and when the car is
    not at standstill the hold timer is reset and the flag is false. That is
    the flag of every radar command the cycle sends, which it does on every
    even frame. *)
Theorem radar_hold_flag (i : CycleInput) (w : World F) :
  has_flag (CP_flags (self w)) (GEN1 MazdaFlags) = true ->
  has_flag (CP_flags (self w)) (RADAR_INTERCEPTOR MazdaFlags) = true ->
  let hold := standstill (out (in_CS i)) && Timer.active (hold_timer (self w)) in
  (forall v : World F,
     gen1_radar_hold v
     = (inr (standstill (out (CS v)) && Timer.active (hold_timer (self v))),
        if standstill (out (CS v)) then v
        else with_self (fun c => set_hold_timer (Timer.reset (hold_timer c)) c) v))
  /\ forall acts can_sends, fst (cycle MazdaFlags i w) = inr (acts, can_sends) ->
       (forall f la cs h, In (AuxiliaryAccelCommand f la cs h) can_sends -> h = hold)
       /\ (frame (self w) mod 2 = 0 ->
           exists cs,
             In (AuxiliaryAccelCommand (frame (self w)) (longActive (in_CC i)) cs hold)
                can_sends)
       /\ (standstill (out (in_CS i)) = false ->
           hold = false
           /\ hold_timer (self (snd (cycle MazdaFlags i w)))
              = Timer.advance (Timer.reset (hold_timer (self w)))).
Proof.
  intros Hgen Hradar. cbv zeta. split; [exact gen1_radar_hold_eq |].
  intros acts can_sends Hret.
  destruct (cycle_gen1 i w acts can_sends Hgen Hret) as (a & t & sends & w2 & Hg & -> & ->).
  set (w1 := with_self (set_steer_last a t) (enter i w)) in *.
  destruct (gen1_spec (in_CC i) w1) as (r & f & x & d & Heq & _ & _).
  cbv zeta in Heq. rewrite Hg in Heq.
  change (CP_flags (self w1)) with (CP_flags (self w)) in Heq.
  change (frame (self w1)) with (frame (self w)) in Heq.
  change (hold_timer (self w1)) with (hold_timer (self w)) in Heq.
  change (CS w1) with (in_CS i) in Heq.
  rewrite Hradar in Heq. cbn [andb] in Heq.
  destruct r as [e | []]; [discriminate |]. injection Heq as -> ->.
  split; [| split].
  - intros fr la cs h Hin.
    repeat (apply in_app_or in Hin as [Hin | Hin]).
    + destruct (CruiseControl.cancel _); [destruct (_ && negb _) | destruct (_ && (_ =? 0))];
        cbn in Hin; intuition discriminate.
    + destruct (frame (self w) mod 50 =? 0); cbn in Hin; intuition discriminate.
    + destruct (frame (self w) mod 2 =? 0); cbn in Hin; [| contradiction].
      destruct Hin as [[= _ _ _ <-] | []]. reflexivity.
    + cbn in Hin. intuition discriminate.
  - intros Heven. apply Z.eqb_eq in Heven. rewrite Heven. eexists.
    apply in_or_app. left. apply in_or_app. right. apply in_or_app. right.
    left. reflexivity.
  - intros Hmove. rewrite Hmove. split; [reflexivity |]. reflexivity.
Qed.

Lemma set_crz_info_same (cs : CarState) : set_crz_info (crz_info cs) cs = cs.
Proof. destruct cs. reflexivity. Qed.

(** C10. On a GEN1 car the stock acceleration command of the cruise message
    is written only on a cycle with the radar interceptor, long control
    active and blended ACC mode enabled, and then with an integer; on every
    other cycle the car state leaves the cycle as it entered it. With
    blended mode disabled the planner's acceleration command reaches neither
    the frames sent nor any object the cycle leaves behind. *)
Theorem stock_accel_written_only_when_blended (i : CycleInput) (w : World F) :
  has_flag (CP_flags (self w)) (GEN1 MazdaFlags) = true ->
  let w' := snd (cycle MazdaFlags i w) in
  let blended_radar :=
    has_flag (CP_flags (self w)) (RADAR_INTERCEPTOR MazdaFlags)
    && longActive (in_CC i) && get_bool (in_params i) "BlendedACC" in
  (exists d,
      CS w' = set_crz_info d (in_CS i)
      /\ (d = crz_info (in_CS i)
          \/ blended_radar = true
             /\ exists n, d = <["ACCEL_CMD" := PyInt n]> (crz_info (in_CS i))))
  /\ (blended_radar = false -> CS w' = in_CS i)
  /\ (get_bool (in_params i) "BlendedACC" = false ->
      forall a1 a2,
        snd (cycle MazdaFlags (with_accel a1 i) w) = snd (cycle MazdaFlags (with_accel a2 i) w)
        /\ emitted (fst (cycle MazdaFlags (with_accel a1 i) w))
           = emitted (fst (cycle MazdaFlags (with_accel a2 i) w))).
Proof.
  intros Hgen. cbv zeta.
  assert (Hcs : exists d,
    CS (snd (cycle MazdaFlags i w)) = set_crz_info d (in_CS i)
    /\ (d = crz_info (in_CS i)
        \/ has_flag (CP_flags (self w)) (RADAR_INTERCEPTOR MazdaFlags)
             && longActive (in_CC i) && get_bool (in_params i) "BlendedACC" = true
           /\ exists n, d = <["ACCEL_CMD" := PyInt n]> (crz_info (in_CS i)))
    /\ (has_flag (CP_flags (self w)) (RADAR_INTERCEPTOR MazdaFlags)
        && longActive (in_CC i) && get_bool (in_params i) "BlendedACC" = false ->
        d = crz_info (in_CS i))).
  { unfold cycle. rewrite update_eq.
    destruct (update_steer_spec (in_CC i) (enter i w)) as [[_ [e He]] | (a & t & He & _)];
      rewrite He.
    { exists (crz_info (in_CS i)). cbn [snd enter CS].
      split; [symmetry; apply set_crz_info_same |]. auto. }
    set (w1 := with_self (set_steer_last a t) (enter i w)).
    rewrite generation_block_eq.
    change (CP_flags (self w1)) with (CP_flags (self w)). rewrite Hgen.
    destruct (gen1_spec (in_CC i) w1) as (r & f & x & d & Heq & Hd & Hp).
    cbv zeta in Heq.
    change (CP_flags (self w1)) with (CP_flags (self w)) in *.
    change (params w1) with (in_params i) in *.
    change (CS w1) with (in_CS i) in *.
    rewrite Heq. exists d. split; [| split].
    - destruct r as [e | []]; [| destruct (PyNum.truediv _ _)]; cbn [snd];
        destruct (has_flag (CP_flags (self w)) (RADAR_INTERCEPTOR MazdaFlags)
                  && negb (standstill (out (in_CS i)))); reflexivity.
    - destruct Hd as [Hd | (H1 & H2 & H3 & _ & H4)]; [left; exact Hd |].
      right. rewrite H1, H2, H3. auto.
    - intros Hoff. apply Hp. exact Hoff. }
  destruct Hcs as (d & Hcs & Hd & Hoff).
  split; [exists d; auto |]. split.
  { intros Hplain. rewrite Hcs, (Hoff Hplain). apply set_crz_info_same. }
  intros Hblend a1 a2.
  assert (Hsame : forall a,
    snd (cycle MazdaFlags (with_accel a i) w) = snd (cycle MazdaFlags i w)
    /\ emitted (fst (cycle MazdaFlags (with_accel a i) w))
       = emitted (fst (cycle MazdaFlags i w))).
  { intros a. unfold cycle. rewrite !update_eq.
    change (enter (with_accel a i) w) with (enter i w).
    change (update_steer MazdaFlags (in_CC (with_accel a i)) (enter i w))
      with (update_steer MazdaFlags (in_CC i) (enter i w)).
    destruct (update_steer_spec (in_CC i) (enter i w)) as [[_ [e He]] | (a0 & t & He & _)];
      rewrite He; [split; reflexivity |].
    set (w1 := with_self (set_steer_last a0 t) (enter i w)).
    rewrite !generation_block_eq.
    change (CP_flags (self w1)) with (CP_flags (self w)). rewrite Hgen.
    assert (Hp : forall CC,
      has_flag (CP_flags (self w1)) (RADAR_INTERCEPTOR MazdaFlags) && longActive CC
      && get_bool (params w1) "BlendedACC" = false).
    { intros CC. change (params w1) with (in_params i). rewrite Hblend.
      apply andb_false_r. }
    destruct (gen1_spec (in_CC (with_accel a i)) w1) as (r1 & f1 & x1 & d1 & Heq1 & _ & Hp1).
    destruct (gen1_spec (in_CC i) w1) as (r2 & f2 & x2 & d2 & Heq2 & _ & Hp2).
    destruct (Hp1 (Hp _)) as (-> & -> & -> & ->).
    destruct (Hp2 (Hp _)) as (-> & -> & -> & ->).
    cbv zeta in Heq1, Heq2. rewrite Heq1, Heq2.
    cbn [with_accel in_CC latActive longActive actuators cruiseControl visualAlert].
    destruct (PyNum.truediv _ _); split; reflexivity. }
  destruct (Hsame a1) as [-> ->]. destruct (Hsame a2) as [-> ->]. auto.
Qed.

(** C1, as the code has it. On a 50 Hz tick of a GEN2 car the ACC command
    carries hold = at standstill, past the hold delay, no resume condition
    and hold timer active; and resume = resume timer active, the timer having
    been reset on this tick when a resume condition holds at standstill past
    the hold delay. Hence hold is false whenever a resume condition holds,
    the car moves or the hold delay is active, and both flags are false when
    the car moves and the resume timer has lapsed; the two flags are
    otherwise independent. *)
Theorem hold_resume_flags (i : CycleInput) (w : World F) acts can_sends :
  has_flag (CP_flags (self w)) (GEN1 MazdaFlags) = false ->
  fst (cycle MazdaFlags i w) = inr (acts, can_sends) ->
  let waiting := standstill (out (in_CS i)) && negb (Timer.active (hold_delay (self w))) in
  let requested := resume_requested (in_CC i) (in_CS i) in
  let hold := waiting && negb requested && Timer.active (hold_timer (self w)) in
  let resume :=
    Timer.active (if waiting && requested
                  then Timer.reset (resume_timer (self w))
                  else resume_timer (self w)) in
  (forall a h r, In (AccCommand a h r) can_sends ->
     Timer_ticks w mod 2 = 0 /\ h = hold /\ r = resume)
  /\ (Timer_ticks w mod 2 = 0 -> exists a, In (AccCommand a hold resume) can_sends)
  /\ (requested = true -> hold = false)
  /\ (standstill (out (in_CS i)) = false -> hold = false)
  /\ (Timer.active (hold_delay (self w)) = true -> hold = false)
  /\ (standstill (out (in_CS i)) = false ->
      Timer.active (resume_timer (self w)) = false -> hold = false /\ resume = false).
Proof.
  intros Hgen Hret. cbv zeta.
  split; [intros a h r Hin; exact (cycle_acc_cmd i w acts can_sends a h r Hgen Hret Hin) |].
  split.
  { intros Htick. unfold cycle in Hret. rewrite update_eq in Hret.
    destruct (update_steer_spec (in_CC i) (enter i w)) as [[_ [e He]] | (a0 & t & He & _)];
      rewrite He in Hret; [discriminate |].
    set (w1 := with_self (set_steer_last a0 t) (enter i w)) in *.
    rewrite generation_block_eq in Hret.
    change (CP_flags (self w1)) with (CP_flags (self w)) in Hret. rewrite Hgen in Hret.
    destruct (gen2_spec (in_CC i) w1)
      as (rr & f & x & m & d & ht & hd & rt & Heq & _ & _ & _ & _ & Hs).
    cbv zeta in Heq. rewrite Heq in Hret.
    destruct rr as [e | sends]; [discriminate |].
    destruct (PyNum.truediv _ _) as [e | q]; [discriminate |].
    cbn [fst] in Hret. injection Hret as <- <-.
    destruct (Hs sends eq_refl) as [_ Hc].
    change (Timer_ticks w1) with (Timer_ticks w) in Hc.
    change (CS w1) with (in_CS i) in Hc.
    change (hold_delay (self w1)) with (hold_delay (self w)) in Hc.
    change (hold_timer (self w1)) with (hold_timer (self w)) in Hc.
    change (resume_timer (self w1)) with (resume_timer (self w)) in Hc.
    apply Z.eqb_eq in Htick. rewrite Htick in Hc.
    destruct Hc as (h' & r' & -> & -> & -> & ->).
    exists d. apply in_or_app. left. left. reflexivity. }
  split; [intros ->; cbn [negb]; rewrite andb_false_r; reflexivity |].
  split; [intros ->; reflexivity |].
  split; [intros ->; cbn [negb]; rewrite andb_false_r; reflexivity |].
  intros -> Hlapsed. cbn [andb]. rewrite Hlapsed. split; reflexivity.
Qed.

(** ** The frame counter *)

Lemma generation_block_ticks CC (w : World F) :
  Timer_ticks (snd (generation_block MazdaFlags CC w)) = Timer_ticks w.
Proof.
  rewrite generation_block_eq.
  destruct (has_flag (CP_flags (self w)) (GEN1 MazdaFlags)).
  - destruct (gen1_spec CC w) as (r & f & x & d & Heq & _ & _). cbv zeta in Heq.
    rewrite Heq. cbn [snd].
    destruct (has_flag (CP_flags (self w)) (RADAR_INTERCEPTOR MazdaFlags)
              && negb (standstill (out (CS w)))); reflexivity.
  - destruct (gen2_spec CC w) as (r & f & x & m & a & ht & hd & rt & Heq & _).
    cbv zeta in Heq. rewrite Heq. reflexivity.
Qed.

Lemma cycle_ticks (i : CycleInput) (w : World F) :
  Timer_ticks (snd (cycle MazdaFlags i w))
  = Timer_ticks w + (if returned (fst (cycle MazdaFlags i w)) then 1 else 0).
Proof.
  unfold cycle. rewrite update_eq.
  destruct (update_steer_spec (in_CC i) (enter i w)) as [[_ [e He]] | (a & t & He & _)];
    rewrite He; cbn [fst snd returned]; [cbn; lia |].
  set (w1 := with_self (set_steer_last a t) (enter i w)).
  pose proof (generation_block_ticks (in_CC i) w1) as Ht.
  change (Timer_ticks w1) with (Timer_ticks w) in Ht.
  destruct (generation_block MazdaFlags (in_CC i) w1) as [[e | sends] w2];
    cbn [fst snd returned] in *; [lia |].
  destruct (PyNum.truediv _ _) as [e | q]; cbn [fst snd returned]; [lia |].
  change (Timer_ticks (end_of_cycle w2)) with (Timer_ticks w2 + 1). lia.
Qed.

(** X1. The frame counter counts the calls of [update] that returned: after
    any sequence of cycles it has advanced by the number of cycles that
    returned, and so has the tick count of the timer class; a cycle that
    raises advances neither. *)
Theorem frame_counts_returned_cycles (inputs : list CycleInput) (w : World F) :
  frame (self (run MazdaFlags inputs w))
  = frame (self w) + returned_count (outcomes MazdaFlags inputs w)
  /\ Timer_ticks (run MazdaFlags inputs w)
     = Timer_ticks w + returned_count (outcomes MazdaFlags inputs w)
  /\ forall i,
       returned (fst (cycle MazdaFlags i w)) = false ->
       frame (self (snd (cycle MazdaFlags i w))) = frame (self w)
       /\ Timer_ticks (snd (cycle MazdaFlags i w)) = Timer_ticks w.
Proof.
  split; [| split].
  - revert w. induction inputs as [| i rest IH]; intros w.
    { unfold returned_count. cbn. lia. }
    cbn [run fold_left outcomes]. fold (run MazdaFlags rest (snd (cycle MazdaFlags i w))).
    rewrite IH. destruct (cycle_cancel i w) as (Hf & _). rewrite Hf.
    unfold returned_count. cbn [List.filter].
    destruct (returned (fst (cycle MazdaFlags i w))); cbn [length]; lia.
  - revert w. induction inputs as [| i rest IH]; intros w.
    { unfold returned_count. cbn. lia. }
    cbn [run fold_left outcomes]. fold (run MazdaFlags rest (snd (cycle MazdaFlags i w))).
    rewrite IH, cycle_ticks.
    unfold returned_count. cbn [List.filter].
    destruct (returned (fst (cycle MazdaFlags i w))); cbn [length]; lia.
  - intros i Hr. destruct (cycle_cancel i w) as (Hf & _).
    rewrite Hf, cycle_ticks, Hr. lia.
Qed.

(** ** A steering command that is not a number *)


(** ** The frames of a cycle, in order *)

Lemma cycle_gen1_frames (i : CycleInput) (w : World F) acts can_sends :
  has_flag (CP_flags (self w)) (GEN1 MazdaFlags) = true ->
  fst (cycle MazdaFlags i w) = inr (acts, can_sends) ->
  let w' := snd (cycle MazdaFlags i w) in
  let CC := in_CC i in
  let cs := in_CS i in
  can_sends =
    (if CruiseControl.cancel (cruiseControl CC) then
       if (frame (self w) mod 10 =? 0)
          && negb (brakePressed (out cs) && (brake_counter (self w) + 1 <? 7))
       then [ButtonCommand (crz_btns_counter cs) Buttons.CANCEL] else []
     else
       if CruiseControl.resume (cruiseControl CC) && (frame (self w) mod 5 =? 0)
       then [ButtonCommand (crz_btns_counter cs) Buttons.RESUME] else [])
    ++ (if frame (self w) mod 50 =? 0 then
          [AlertCommand (cam_laneinfo cs)
             (bool_decide (visualAlert CC = VisualAlert.ldw))
             (bool_decide (visualAlert CC = VisualAlert.steerRequired)
              && lkas_allowed_speed cs)]
        else [])
    ++ (if has_flag (CP_flags (self w)) (RADAR_INTERCEPTOR MazdaFlags)
           && (frame (self w) mod 2 =? 0)
        then [AuxiliaryAccelCommand (frame (self w)) (longActive CC) (CS w')
                (standstill (out cs) && Timer.active (hold_timer (self w)))]
        else [])
    ++ [SteeringControl (frame (self w)) (steerOutputCan acts) (cam_lkas cs)].
Proof.
  intros Hgen Hret. cbv zeta. revert Hret.
  unfold cycle. rewrite update_eq.
  destruct (update_steer_spec (in_CC i) (enter i w)) as [[_ [e He]] | (a & t & He & _)];
    rewrite He; [discriminate |].
  set (w1 := with_self (set_steer_last a t) (enter i w)).
  rewrite generation_block_eq.
  change (CP_flags (self w1)) with (CP_flags (self w)). rewrite Hgen.
  destruct (gen1_spec (in_CC i) w1) as (r & f & x & d & Heq & _ & _). cbv zeta in Heq.
  rewrite Heq. clear Heq.
  destruct r as [e | []]; [discriminate |].
  destruct (PyNum.truediv _ _) as [e | q]; [discriminate |].
  cbn [fst snd]. intros [= <- <-]. cbn [steerOutputCan].
  rewrite <- !app_assoc. unfold create_steering_control, create_button_cmd,
    create_alert_command, create_radar_command.
  change (CP_flags (self w1)) with (CP_flags (self w)).
  change (CS w1) with (in_CS i).
  destruct (has_flag (CP_flags (self w)) (RADAR_INTERCEPTOR MazdaFlags)) eqn:Hradar;
    destruct (standstill (out (in_CS i))) eqn:Hstand;
    destruct (CruiseControl.cancel (cruiseControl (in_CC i))); reflexivity.
Qed.

Lemma cycle_gen2_frames (i : CycleInput) (w : World F) acts can_sends :
  has_flag (CP_flags (self w)) (GEN1 MazdaFlags) = false ->
  fst (cycle MazdaFlags i w) = inr (acts, can_sends) ->
  let w' := snd (cycle MazdaFlags i w) in
  let waiting :=
    standstill (out (in_CS i)) && negb (Timer.active (hold_delay (self w))) in
  let requested := resume_requested (in_CC i) (in_CS i) in
  can_sends =
    (if Timer_ticks w mod 2 =? 0 then
       [AccCommand (acc (CS w'))
          (waiting && negb requested && Timer.active (hold_timer (self w)))
          (Timer.active (if waiting && requested
                         then Timer.reset (resume_timer (self w))
                         else resume_timer (self w)))]
     else [])
    ++ [SteeringControl (frame (self w)) (steerOutputCan acts) (cam_lkas (in_CS i))].
Proof.
  intros Hgen Hret. cbv zeta. revert Hret.
  unfold cycle. rewrite update_eq.
  destruct (update_steer_spec (in_CC i) (enter i w)) as [[_ [e He]] | (a & t & He & _)];
    rewrite He; [discriminate |].
  set (w1 := with_self (set_steer_last a t) (enter i w)).
  rewrite generation_block_eq.
  change (CP_flags (self w1)) with (CP_flags (self w)). rewrite Hgen.
  destruct (gen2_spec (in_CC i) w1)
    as (r & f & x & m & d & ht & hd & rt & Heq & _ & _ & _ & _ & Hs).
  cbv zeta in Heq. rewrite Heq. clear Heq.
  destruct r as [e | sends]; [discriminate |].
  destruct (Hs sends eq_refl) as [_ Hsends]. clear Hs.
  change (Timer_ticks w1) with (Timer_ticks w) in Hsends.
  change (CS w1) with (in_CS i) in Hsends.
  change (hold_delay (self w1)) with (hold_delay (self w)) in Hsends.
  change (hold_timer (self w1)) with (hold_timer (self w)) in Hsends.
  change (resume_timer (self w1)) with (resume_timer (self w)) in Hsends.
  destruct (PyNum.truediv _ _) as [e | q]; [discriminate |].
  cbn [fst snd]. intros [= <- <-]. cbn [steerOutputCan].
  unfold create_steering_control.
  destruct (Timer_ticks w mod 2 =? 0).
  - destruct Hsends as (hold & resume & -> & -> & -> & ->). reflexivity.
  - subst sends. reflexivity.
Qed.

(** ** Frame rates *)

(** Frames sent on every [period]-th count of a clock that advances with
    each returning cycle. *)
Lemma periodic_frames (kind : Command -> bool) (period : Z) (clock : World F -> Z)
    (Inv : World F -> Prop) (P : CycleInput -> Prop) :
  (forall f n, 0 <= n ->
     slots period (f + 1) n + (if f mod period =? 0 then 1 else 0)
     = slots period f (n + 1)) ->
  slots period 0 0 = 0 ->
  (forall i w, Inv w -> Inv (snd (cycle MazdaFlags i w))) ->
  (forall i w, returned (fst (cycle MazdaFlags i w)) = true ->
     clock (snd (cycle MazdaFlags i w)) = clock w + 1) ->
  (forall i w acts can_sends, Inv w -> P i ->
     fst (cycle MazdaFlags i w) = inr (acts, can_sends) ->
     length (List.filter kind can_sends)
     = if clock w mod period =? 0 then 1%nat else 0%nat) ->
  forall inputs w,
    Inv w -> Forall P inputs ->
    Forall (fun r => returned r = true) (outcomes MazdaFlags inputs w) ->
    Z.of_nat (length (frames_of kind (outcomes MazdaFlags inputs w)))
    = slots period (clock w) (Z.of_nat (length inputs)).
Proof.
  intros Hstep Hzero Hinv Hclock Hone inputs.
  induction inputs as [| i rest IH]; intros w Hw HP Hret.
  { cbn. unfold slots in *. rewrite Z.add_0_r. lia. }
  inversion HP as [| ? ? Hi Hrest]; subst.
  cbn [outcomes] in Hret. inversion Hret as [| ? ? Hr0 Hrets]; subst.
  unfold frames_of. cbn [outcomes List.map concat].
  fold (frames_of kind (outcomes MazdaFlags rest (snd (cycle MazdaFlags i w)))).
  rewrite length_app, Nat2Z.inj_add, IH; [| apply Hinv; exact Hw | exact Hrest | exact Hrets].
  rewrite (Hclock i w Hr0).
  destruct (fst (cycle MazdaFlags i w)) as [e | [acts can_sends]] eqn:Hc; [discriminate |].
  cbn [emitted]. rewrite (Hone i w acts can_sends Hw Hi Hc).
  cbn [length]. rewrite Nat2Z.inj_succ, <- Z.add_1_r.
  rewrite <- (Hstep (clock w) (Z.of_nat (length rest))) by lia.
  destruct (clock w mod period =? 0); cbn; lia.
Qed.

Lemma absent_frames (kind : Command -> bool) (Inv : World F -> Prop) :
  (forall i w, Inv w -> Inv (snd (cycle MazdaFlags i w))) ->
  (forall i w acts can_sends, Inv w ->
     fst (cycle MazdaFlags i w) = inr (acts, can_sends) ->
     List.filter kind can_sends = []) ->
  forall inputs w, Inv w -> frames_of kind (outcomes MazdaFlags inputs w) = [].
Proof.
  intros Hinv Hnone inputs.
  induction inputs as [| i rest IH]; intros w Hw; [reflexivity |].
  unfold frames_of. cbn [outcomes List.map concat].
  fold (frames_of kind (outcomes MazdaFlags rest (snd (cycle MazdaFlags i w)))).
  rewrite IH by (apply Hinv; exact Hw). rewrite app_nil_r.
  destruct (fst (cycle MazdaFlags i w)) as [e | [acts can_sends]] eqn:Hc; [reflexivity |].
  cbn [emitted]. apply (Hnone i w acts can_sends Hw Hc).
Qed.

Lemma cycle_flags (i : CycleInput) (w : World F) :
  CP_flags (self (snd (cycle MazdaFlags i w))) = CP_flags (self w).
Proof. destruct (cycle_steer i w) as (_ & H & _). exact H. Qed.

Lemma cycle_frame_returned (i : CycleInput) (w : World F) :
  returned (fst (cycle MazdaFlags i w)) = true ->
  frame (self (snd (cycle MazdaFlags i w))) = frame (self w) + 1.
Proof. intros H. destruct (cycle_cancel i w) as (Hf & _). rewrite Hf, H. reflexivity. Qed.

Lemma cycle_ticks_returned (i : CycleInput) (w : World F) :
  returned (fst (cycle MazdaFlags i w)) = true ->
  Timer_ticks (snd (cycle MazdaFlags i w)) = Timer_ticks w + 1.
Proof. intros H. rewrite cycle_ticks, H. reflexivity. Qed.

Ltac slots_arith :=
  unfold slots; intros;
  repeat match goal with
         | |- context [?a mod ?b =? 0] => destruct (Z.eqb_spec (a mod b) 0)
         end; zdiv.

Ltac frames_case :=
  repeat match goal with
         | |- context [if ?b then _ else _] => destruct b
         end; reflexivity.

Ltac frames_case_le :=
  repeat match goal with
         | |- context [if ?b then _ else _] => destruct b
         end; cbn; lia.

(** X3. The bus schedule of a GEN1 car does not depend on the inputs: over
    any run of cycles that return, every cycle sends exactly one steering
    frame, an alert frame goes out on every 50th frame count and, with the
    radar interceptor, a radar command on every second one; without it no
    radar command is sent, and an ACC command never. Over 100 cycles that is
    100 steering frames, 2 alert frames and 50 radar commands. *)
Theorem gen1_bus_schedule (inputs : list CycleInput) (w : World F) :
  has_flag (CP_flags (self w)) (GEN1 MazdaFlags) = true ->
  Forall (fun r => returned r = true) (outcomes MazdaFlags inputs w) ->
  let rs := outcomes MazdaFlags inputs w in
  let n := Z.of_nat (length inputs) in
  let count kind := Z.of_nat (length (frames_of kind rs)) in
  count is_steering = n
  /\ count is_alert = slots 50 (frame (self w)) n
  /\ count is_radar
     = (if has_flag (CP_flags (self w)) (RADAR_INTERCEPTOR MazdaFlags)
        then slots 2 (frame (self w)) n else 0)
  /\ count is_acc = 0
  /\ (n = 100 ->
      count is_steering = 100 /\ count is_alert = 2
      /\ (has_flag (CP_flags (self w)) (RADAR_INTERCEPTOR MazdaFlags) = true ->
          count is_radar = 50)).
Proof.
  intros Hgen Hret. cbv beta zeta.
  set (Inv := fun v : World F => CP_flags (self v) = CP_flags (self w)).
  assert (Hinv : forall i v, Inv v -> Inv (snd (cycle MazdaFlags i v))).
  { intros i v Hv. unfold Inv. rewrite cycle_flags. exact Hv. }
  assert (Hframes : forall i v acts can_sends, Inv v ->
            fst (cycle MazdaFlags i v) = inr (acts, can_sends) ->
            length (List.filter is_steering can_sends) = 1%nat
            /\ length (List.filter is_alert can_sends)
               = (if frame (self v) mod 50 =? 0 then 1%nat else 0%nat)
            /\ length (List.filter is_radar can_sends)
               = (if has_flag (CP_flags (self w)) (RADAR_INTERCEPTOR MazdaFlags)
                  then if frame (self v) mod 2 =? 0 then 1%nat else 0%nat
                  else 0%nat)
            /\ length (List.filter is_acc can_sends) = 0%nat).
  { intros i v acts can_sends Hv Hc. unfold Inv in Hv.
    rewrite (cycle_gen1_frames i v acts can_sends) by (rewrite ?Hv; assumption).
    rewrite Hv. rewrite !List.filter_app.
    destruct (has_flag (CP_flags (self w)) (RADAR_INTERCEPTOR MazdaFlags));
      destruct (frame (self v) mod 2 =? 0); destruct (frame (self v) mod 50 =? 0);
      cbn [andb]; repeat split; frames_case. }
  assert (S1 : Z.of_nat (length (frames_of is_steering (outcomes MazdaFlags inputs w)))
               = Z.of_nat (length inputs)).
  { rewrite (periodic_frames is_steering 1 (fun v => frame (self v)) Inv (fun _ => True));
      try assumption.
    - unfold slots. rewrite !Z.div_1_r. lia.
    - intros f n _. unfold slots. rewrite Z.mod_1_r, !Z.div_1_r. cbn. lia.
    - reflexivity.
    - apply cycle_frame_returned.
    - intros i v acts can_sends Hv _ Hc. rewrite Z.mod_1_r. cbn.
      apply (Hframes i v acts can_sends Hv Hc).
    - reflexivity.
    - apply List.Forall_forall. auto. }
  assert (S2 : Z.of_nat (length (frames_of is_alert (outcomes MazdaFlags inputs w)))
               = slots 50 (frame (self w)) (Z.of_nat (length inputs))).
  { apply (periodic_frames is_alert 50 (fun v => frame (self v)) Inv (fun _ => True));
      try assumption.
    - slots_arith.
    - reflexivity.
    - apply cycle_frame_returned.
    - intros i v acts can_sends Hv _ Hc. apply (Hframes i v acts can_sends Hv Hc).
    - reflexivity.
    - apply List.Forall_forall. auto. }
  assert (S3 : Z.of_nat (length (frames_of is_radar (outcomes MazdaFlags inputs w)))
               = (if has_flag (CP_flags (self w)) (RADAR_INTERCEPTOR MazdaFlags)
                  then slots 2 (frame (self w)) (Z.of_nat (length inputs)) else 0)).
  { destruct (has_flag (CP_flags (self w)) (RADAR_INTERCEPTOR MazdaFlags)) eqn:Hradar.
    - apply (periodic_frames is_radar 2 (fun v => frame (self v)) Inv (fun _ => True));
        try assumption.
      + slots_arith.
      + reflexivity.
      + apply cycle_frame_returned.
      + intros i v acts can_sends Hv _ Hc. apply (Hframes i v acts can_sends Hv Hc).
      + reflexivity.
      + apply List.Forall_forall. auto.
    - rewrite (absent_frames is_radar Inv Hinv); [reflexivity | | reflexivity].
      intros i v acts can_sends Hv Hc.
      destruct (Hframes i v acts can_sends Hv Hc) as (_ & _ & Hn & _).
      apply length_zero_iff_nil. exact Hn. }
  assert (S4 : Z.of_nat (length (frames_of is_acc (outcomes MazdaFlags inputs w))) = 0).
  { rewrite (absent_frames is_acc Inv Hinv); [reflexivity | | reflexivity].
    intros i v acts can_sends Hv Hc.
    destruct (Hframes i v acts can_sends Hv Hc) as (_ & _ & _ & Hn).
    apply length_zero_iff_nil. exact Hn. }
  rewrite S1, S2, S3, S4.
  split; [reflexivity |]. split; [reflexivity |]. split; [reflexivity |].
  split; [reflexivity |]. intros Hn. rewrite Hn.
  split; [reflexivity |]. split; [unfold slots; zdiv |].
  intros ->. unfold slots. zdiv.
Qed.

(** X4. The bus schedule of a GEN2 car: over any run of cycles that return,
    every cycle sends exactly one steering frame and the ACC command goes
    out on every second tick of the timer class, whatever the inputs; no
    button, alert or radar frame is ever sent. Over 100 cycles that is 100
    steering frames and 50 ACC commands. *)
Theorem gen2_bus_schedule (inputs : list CycleInput) (w : World F) :
  has_flag (CP_flags (self w)) (GEN1 MazdaFlags) = false ->
  Forall (fun r => returned r = true) (outcomes MazdaFlags inputs w) ->
  let rs := outcomes MazdaFlags inputs w in
  let n := Z.of_nat (length inputs) in
  let count kind := Z.of_nat (length (frames_of kind rs)) in
  count is_steering = n
  /\ count is_acc = slots 2 (Timer_ticks w) n
  /\ frames_of is_button rs = []
  /\ frames_of is_alert rs = []
  /\ frames_of is_radar rs = []
  /\ (n = 100 -> count is_steering = 100 /\ count is_acc = 50).
Proof.
  intros Hgen Hret. cbv beta zeta.
  set (Inv := fun v : World F => CP_flags (self v) = CP_flags (self w)).
  assert (Hinv : forall i v, Inv v -> Inv (snd (cycle MazdaFlags i v))).
  { intros i v Hv. unfold Inv. rewrite cycle_flags. exact Hv. }
  assert (Hframes : forall i v acts can_sends, Inv v ->
            fst (cycle MazdaFlags i v) = inr (acts, can_sends) ->
            length (List.filter is_steering can_sends) = 1%nat
            /\ length (List.filter is_acc can_sends)
               = (if Timer_ticks v mod 2 =? 0 then 1%nat else 0%nat)
            /\ List.filter is_button can_sends = []
            /\ List.filter is_alert can_sends = []
            /\ List.filter is_radar can_sends = []).
  { intros i v acts can_sends Hv Hc. unfold Inv in Hv.
    rewrite (cycle_gen2_frames i v acts can_sends) by (rewrite ?Hv; assumption).
    rewrite !List.filter_app.
    destruct (Timer_ticks v mod 2 =? 0); repeat split; reflexivity. }
  assert (S1 : Z.of_nat (length (frames_of is_steering (outcomes MazdaFlags inputs w)))
               = Z.of_nat (length inputs)).
  { rewrite (periodic_frames is_steering 1 (fun v => frame (self v)) Inv (fun _ => True));
      try assumption.
    - unfold slots. rewrite !Z.div_1_r. lia.
    - intros f n _. unfold slots. rewrite Z.mod_1_r, !Z.div_1_r. cbn. lia.
    - reflexivity.
    - apply cycle_frame_returned.
    - intros i v acts can_sends Hv _ Hc. rewrite Z.mod_1_r. cbn.
      apply (Hframes i v acts can_sends Hv Hc).
    - reflexivity.
    - apply List.Forall_forall. auto. }
  assert (S2 : Z.of_nat (length (frames_of is_acc (outcomes MazdaFlags inputs w)))
               = slots 2 (Timer_ticks w) (Z.of_nat (length inputs))).
  { apply (periodic_frames is_acc 2 Timer_ticks Inv (fun _ => True)); try assumption.
    - slots_arith.
    - reflexivity.
    - apply cycle_ticks_returned.
    - intros i v acts can_sends Hv _ Hc. apply (Hframes i v acts can_sends Hv Hc).
    - reflexivity.
    - apply List.Forall_forall. auto. }
  rewrite S1, S2.
  split; [reflexivity |]. split; [reflexivity |].
  split; [| split; [| split]].
  - apply (absent_frames is_button Inv Hinv); [| reflexivity].
    intros i v acts can_sends Hv Hc. apply (Hframes i v acts can_sends Hv Hc).
  - apply (absent_frames is_alert Inv Hinv); [| reflexivity].
    intros i v acts can_sends Hv Hc. apply (Hframes i v acts can_sends Hv Hc).
  - apply (absent_frames is_radar Inv Hinv); [| reflexivity].
    intros i v acts can_sends Hv Hc. apply (Hframes i v acts can_sends Hv Hc).
  - intros Hn. rewrite Hn. split; [reflexivity |]. unfold slots. zdiv.
Qed.

(** ** The cruise buttons *)

(** X5. A cycle sends at most one button frame, and only on a GEN1 car: the
    cancel button when cancel intent is set, on a frame count that is a
    multiple of 10, or else the resume button when resume intent is set, on
    a frame count that is a multiple of 5, which it then always sends. Cancel
    intent has priority: while it is set no resume button is sent. The frame
    carries the button counter of the car state. *)
Theorem button_frames (i : CycleInput) (w : World F) acts can_sends :
  fst (cycle MazdaFlags i w) = inr (acts, can_sends) ->
  let cancel := CruiseControl.cancel (cruiseControl (in_CC i)) in
  let resume := CruiseControl.resume (cruiseControl (in_CC i)) in
  (length (List.filter is_button can_sends) <= 1)%nat
  /\ (forall c b, In (ButtonCommand c b) can_sends ->
        has_flag (CP_flags (self w)) (GEN1 MazdaFlags) = true
        /\ c = crz_btns_counter (in_CS i)
        /\ (b = Buttons.CANCEL /\ cancel = true /\ frame (self w) mod 10 = 0
            \/ b = Buttons.RESUME /\ cancel = false /\ resume = true
               /\ frame (self w) mod 5 = 0))
  /\ (has_flag (CP_flags (self w)) (GEN1 MazdaFlags) = true ->
      cancel = false -> resume = true -> frame (self w) mod 5 = 0 ->
      In (ButtonCommand (crz_btns_counter (in_CS i)) Buttons.RESUME) can_sends).
Proof.
  intros Hc. cbv zeta.
  destruct (has_flag (CP_flags (self w)) (GEN1 MazdaFlags)) eqn:Hgen.
  - rewrite (cycle_gen1_frames i w acts can_sends Hgen Hc).
    split; [| split].
    + rewrite !List.filter_app. frames_case_le.
    + intros c b Hin. split; [reflexivity |].
      rewrite !in_app_iff in Hin.
      destruct Hin as [Hin | [Hin | [Hin | Hin]]].
      * destruct (CruiseControl.cancel (cruiseControl (in_CC i))).
        -- destruct (frame (self w) mod 10 =? 0) eqn:Hslot; cbn [andb] in Hin;
             [| destruct Hin].
           destruct (negb _); [| destruct Hin].
           destruct Hin as [[= <- <-] | []].
           apply Z.eqb_eq in Hslot. auto.
        -- destruct (CruiseControl.resume (cruiseControl (in_CC i))); cbn [andb] in Hin;
             [| destruct Hin].
           destruct (frame (self w) mod 5 =? 0) eqn:Hslot; [| destruct Hin].
           destruct Hin as [[= <- <-] | []].
           apply Z.eqb_eq in Hslot. auto 10.
      * destruct (frame (self w) mod 50 =? 0); [| destruct Hin].
        destruct Hin as [[=] | []].
      * destruct (_ && _); [| destruct Hin]. destruct Hin as [[=] | []].
      * destruct Hin as [[=] | []].
    + intros _ -> -> Hslot. apply Z.eqb_eq in Hslot. rewrite Hslot.
      cbn [andb]. apply in_app_iff. left. left. reflexivity.
  - rewrite (cycle_gen2_frames i w acts can_sends Hgen Hc).
    split; [| split].
    + rewrite !List.filter_app. destruct (Timer_ticks w mod 2 =? 0); cbn; lia.
    + intros c b Hin. rewrite in_app_iff in Hin. destruct Hin as [Hin | Hin].
      * destruct (Timer_ticks w mod 2 =? 0); [| destruct Hin].
        destruct Hin as [[=] | []].
      * destruct Hin as [[=] | []].
    + discriminate.
Qed.

(** X6. On a GEN1 car, while resume intent is held without cancel intent,
    the resume button is sent on every fifth frame count and no cancel
    button is sent: over 100 cycles that return, 20 resume frames. *)
Theorem resume_every_fifth_frame (inputs : list CycleInput) (w : World F) :
  has_flag (CP_flags (self w)) (GEN1 MazdaFlags) = true ->
  Forall (fun i => resume_held i = true) inputs ->
  Forall (fun r => returned r = true) (outcomes MazdaFlags inputs w) ->
  let rs := outcomes MazdaFlags inputs w in
  let n := Z.of_nat (length inputs) in
  Z.of_nat (length (frames_of is_resume_button rs)) = slots 5 (frame (self w)) n
  /\ (n = 100 -> length (frames_of is_resume_button rs) = 20%nat)
  /\ (forall k r, nth_error rs k = Some r ->
        List.filter is_cancel_button (emitted r) = []
        /\ length (List.filter is_resume_button (emitted r))
           = if (frame (self w) + Z.of_nat k) mod 5 =? 0 then 1%nat else 0%nat).
Proof.
  intros Hgen Hheld Hret. cbv zeta.
  set (Inv := fun v : World F => has_flag (CP_flags (self v)) (GEN1 MazdaFlags) = true).
  assert (Hinv : forall i v, Inv v -> Inv (snd (cycle MazdaFlags i v))).
  { intros i v Hv. unfold Inv. rewrite cycle_flags. exact Hv. }
  assert (Hframes : forall i v acts can_sends, Inv v -> resume_held i = true ->
            fst (cycle MazdaFlags i v) = inr (acts, can_sends) ->
            List.filter is_cancel_button can_sends = []
            /\ length (List.filter is_resume_button can_sends)
               = (if frame (self v) mod 5 =? 0 then 1%nat else 0%nat)).
  { intros i v acts can_sends Hv Hi Hc.
    rewrite (cycle_gen1_frames i v acts can_sends Hv Hc).
    unfold resume_held in Hi. apply andb_true_iff in Hi as [Hres Hcan].
    apply negb_true_iff in Hcan. rewrite Hres, Hcan. cbn [andb].
    rewrite !List.filter_app. split; frames_case. }
  assert (Hcount : Z.of_nat (length (frames_of is_resume_button (outcomes MazdaFlags inputs w)))
                   = slots 5 (frame (self w)) (Z.of_nat (length inputs))).
  { apply (periodic_frames is_resume_button 5 (fun v => frame (self v)) Inv
             (fun i => resume_held i = true)); try assumption.
    - slots_arith.
    - reflexivity.
    - apply cycle_frame_returned.
    - intros i v acts can_sends Hv Hi Hc. apply (Hframes i v acts can_sends Hv Hi Hc). }
  split; [exact Hcount |]. split.
  - intros Hn. apply Nat2Z.inj. rewrite Hcount, Hn. unfold slots. zdiv.
  - clear Hcount. revert Hgen Hheld Hret. generalize w. clear w Inv Hinv Hframes.
    set (Inv := fun v : World F => has_flag (CP_flags (self v)) (GEN1 MazdaFlags) = true).
    induction inputs as [| i rest IH]; intros w Hgen Hheld Hret k r Hk.
    { destruct k; discriminate. }
    inversion Hheld as [| ? ? Hi Hrest]; subst.
    cbn [outcomes] in Hret. inversion Hret as [| ? ? Hr0 Hrets]; subst.
    destruct k as [| k]; cbn [outcomes nth_error] in Hk.
    + injection Hk as <-. rewrite Z.add_0_r.
      destruct (fst (cycle MazdaFlags i w)) as [e | [acts can_sends]] eqn:Hc; [discriminate |].
      cbn [emitted].
      rewrite (cycle_gen1_frames i w acts can_sends Hgen Hc).
      unfold resume_held in Hi. apply andb_true_iff in Hi as [Hres Hcan].
      apply negb_true_iff in Hcan. rewrite Hres, Hcan. cbn [andb].
      rewrite !List.filter_app. split; frames_case.
    + rewrite Nat2Z.inj_succ.
      replace (frame (self w) + Z.succ (Z.of_nat k))
        with (frame (self (snd (cycle MazdaFlags i w))) + Z.of_nat k)
        by (rewrite (cycle_frame_returned i w Hr0); lia).
      apply (IH (snd (cycle MazdaFlags i w))); try assumption.
      rewrite cycle_flags. exact Hgen.
Qed.

(** ** The brake debounce *)

Lemma generation_block_brake_counter CC (w : World F) :
  brake_counter (self (snd (generation_block MazdaFlags CC w)))
  = if has_flag (CP_flags (self w)) (GEN1 MazdaFlags)
    then if CruiseControl.cancel (cruiseControl CC) then brake_counter (self w) + 1 else 0
    else brake_counter (self w).
Proof.
  destruct (has_flag (CP_flags (self w)) (GEN1 MazdaFlags)) eqn:Hgen.
  - destruct (generation_block_cancel CC w) as [H _]. exact (H Hgen).
  - rewrite generation_block_eq, Hgen.
    destruct (gen2_spec CC w) as (r & f & x & m & a & ht & hd & rt & Heq & _).
    cbv zeta in Heq. rewrite Heq. reflexivity.
Qed.

Lemma cycle_brake_counter (i : CycleInput) (w : World F) :
  let c' := brake_counter (self (snd (cycle MazdaFlags i w))) in
  c' = brake_counter (self w)
  \/ has_flag (CP_flags (self w)) (GEN1 MazdaFlags) = true
     /\ c' = if CruiseControl.cancel (cruiseControl (in_CC i))
             then brake_counter (self w) + 1 else 0.
Proof.
  cbv zeta. unfold cycle. rewrite update_eq.
  destruct (update_steer_spec (in_CC i) (enter i w)) as [[_ [e He]] | (a & t & He & _)];
    rewrite He; [left; reflexivity |].
  set (w1 := with_self (set_steer_last a t) (enter i w)).
  pose proof (generation_block_brake_counter (in_CC i) w1) as Hb.
  change (CP_flags (self w1)) with (CP_flags (self w)) in Hb.
  change (brake_counter (self w1)) with (brake_counter (self w)) in Hb.
  assert (Hgoal : forall w2 : World F,
            brake_counter (self w2)
            = (if has_flag (CP_flags (self w)) (GEN1 MazdaFlags)
               then if CruiseControl.cancel (cruiseControl (in_CC i))
                    then brake_counter (self w) + 1 else 0
               else brake_counter (self w)) ->
            brake_counter (self w2) = brake_counter (self w)
            \/ has_flag (CP_flags (self w)) (GEN1 MazdaFlags) = true
               /\ brake_counter (self w2)
                  = (if CruiseControl.cancel (cruiseControl (in_CC i))
                     then brake_counter (self w) + 1 else 0)).
  { intros w2 ->. destruct (has_flag _ _); auto. }
  destruct (generation_block MazdaFlags (in_CC i) w1) as [[e | sends] w2];
    cbn [fst snd] in *; [apply Hgoal; exact Hb |].
  destruct (PyNum.truediv _ _) as [e | q]; cbn [fst snd]; apply Hgoal; exact Hb.
Qed.

(** X7. While the brake is pressed no cancel button is sent until cancel
    intent has been counted 7 times: from a debounce count of [c], no cancel
    frame goes out during the next [6 - c] cycles, whatever else the inputs
    are. In particular none goes out during the first six cycles after the
    count was reset. *)
Theorem cancel_debounced_while_braking (inputs : list CycleInput) (w : World F) :
  0 <= brake_counter (self w) ->
  Forall (fun i => brakePressed (out (in_CS i)) = true) inputs ->
  brake_counter (self w) + Z.of_nat (length inputs) < 7 ->
  all_cancel_frames MazdaFlags inputs w = [].
Proof.
  revert w. induction inputs as [| i rest IH]; intros w Hpos Hbrake Hlen; [reflexivity |].
  inversion Hbrake as [| ? ? Hi Hrest]; subst.
  cbn [length] in Hlen. rewrite Nat2Z.inj_succ in Hlen.
  unfold all_cancel_frames. cbn [outcomes List.map concat].
  fold (all_cancel_frames MazdaFlags rest (snd (cycle MazdaFlags i w))).
  destruct (cycle_cancel i w) as (_ & Hc & _). rewrite Hc.
  assert (Hdue : cancel_due MazdaFlags i w = false).
  { unfold cancel_due. rewrite Hi.
    assert (Hlt : (brake_counter (self w) + 1 <? 7) = true) by (apply Z.ltb_lt; lia).
    rewrite Hlt. cbn [andb negb]. apply andb_false_r. }
  rewrite Hdue, andb_false_r. cbn [app].
  apply IH; [| exact Hrest |].
  - destruct (cycle_brake_counter i w) as [-> | [_ ->]]; [exact Hpos |].
    destruct (CruiseControl.cancel _); lia.
  - destruct (cycle_brake_counter i w) as [-> | [_ ->]]; [lia |].
    destruct (CruiseControl.cancel _); lia.
Qed.

(** ** The alert frame *)

(** X8. An alert frame is sent only on a GEN1 car, on a frame count that is
    a multiple of 50. Its lane-departure flag is set exactly when the visual
    alert is [ldw], its steer-required flag exactly when the visual alert is
    [steerRequired] and the speed allows lane keeping; the two flags are
    never both set. *)
Theorem alert_frame_flags (i : CycleInput) (w : World F) acts can_sends :
  fst (cycle MazdaFlags i w) = inr (acts, can_sends) ->
  forall laneinfo ldw steer_required,
    In (AlertCommand laneinfo ldw steer_required) can_sends ->
    has_flag (CP_flags (self w)) (GEN1 MazdaFlags) = true
    /\ frame (self w) mod 50 = 0
    /\ laneinfo = cam_laneinfo (in_CS i)
    /\ (ldw = true <-> visualAlert (in_CC i) = VisualAlert.ldw)
    /\ (steer_required = true <->
        visualAlert (in_CC i) = VisualAlert.steerRequired
        /\ lkas_allowed_speed (in_CS i) = true)
    /\ ~ (ldw = true /\ steer_required = true).
Proof.
  intros Hc l a b Hin.
  destruct (has_flag (CP_flags (self w)) (GEN1 MazdaFlags)) eqn:Hgen.
  - rewrite (cycle_gen1_frames i w acts can_sends Hgen Hc) in Hin.
    rewrite !in_app_iff in Hin.
    destruct Hin as [Hin | [Hin | [Hin | Hin]]].
    + exfalso. revert Hin.
      repeat match goal with
             | |- context [if ?c then _ else _] => destruct c
             end; cbn [In]; intros Hin; decompose [or] Hin; try discriminate; assumption.
    + destruct (frame (self w) mod 50 =? 0) eqn:Hslot; [| destruct Hin].
      destruct Hin as [[= <- <- <-] | []]. apply Z.eqb_eq in Hslot.
      split; [reflexivity |]. split; [exact Hslot |]. split; [reflexivity |].
      rewrite andb_true_iff, !bool_decide_eq_true.
      split; [reflexivity |]. split; [reflexivity |].
      intros [H1 [H2 _]]. congruence.
    + exfalso. destruct (_ && _); [| destruct Hin]. destruct Hin as [[=] | []].
    + exfalso. destruct Hin as [[=] | []].
  - exfalso. rewrite (cycle_gen2_frames i w acts can_sends Hgen Hc) in Hin.
    rewrite in_app_iff in Hin. destruct Hin as [Hin | Hin].
    + destruct (Timer_ticks w mod 2 =? 0); [| destruct Hin]. destruct Hin as [[=] | []].
    + destruct Hin as [[=] | []].
Qed.

(** ** The blended command of the radar path *)

Lemma gen1_radar_accel_blended CC (w : World F) :
  longActive CC = true -> get_bool (params w) "BlendedACC" = true ->
  let w' := snd (gen1_radar_accel CC w) in
  match fst (gen1_radar_accel CC w) with
  | inr _ =>
      exists n,
        crz_info (CS w') = <["ACCEL_CMD" := PyInt n]> (crz_info (CS w))
        /\ filtered_acc_last (self w') = PyInt n
  | inl _ =>
      crz_info (CS w') = crz_info (CS w)
      /\ filtered_acc_last (self w') = filtered_acc_last (self w)
  end.
Proof.
  intros Hlong Hblend. cbv zeta. wdestruct w. wsimpl_all.
  unfold gen1_radar_accel, acc_filter_update_alpha, acc_filter_update.
  rewrite Hlong, mul_float_1150. munfold. rewrite Hblend.
  mexec; cbn [fst snd]; wsimpl_all; first [split; reflexivity | eexists; split; reflexivity].
Qed.

(** The GEN1 block with the radar interceptor, around its acceleration
    block. *)
Lemma gen1_radar_eq CC (w : World F) :
  has_flag (CP_flags (self w)) (RADAR_INTERCEPTOR MazdaFlags) = true ->
  let count :=
    if CruiseControl.cancel (cruiseControl CC) then brake_counter (self w) + 1 else 0 in
  let w1 := with_self (set_brake_counter count) w in
  let w2 :=
    if standstill (out (CS w)) then w1
    else with_self (fun c => set_hold_timer (Timer.reset (hold_timer c)) c) w1 in
  exists buttons alert,
    gen1 MazdaFlags CC w =
    match gen1_radar_accel CC w2 with
    | (inl e, w3) => (inl e, w3)
    | (inr _, w3) =>
        (inr (buttons ++ alert
              ++ (if frame (self w) mod 2 =? 0
                  then [AuxiliaryAccelCommand (frame (self w)) (longActive CC) (CS w3)
                          (standstill (out (CS w)) && Timer.active (hold_timer (self w)))]
                  else [])), w3)
    end.
Proof.
  intros Hradar. cbv zeta.
  unfold gen1. unfold mbind at 1. unfold M_bind at 1. rewrite gen1_buttons_eq.
  unfold mbind at 1. unfold M_bind at 1. rewrite gen1_hud_eq.
  unfold mbind at 1. unfold M_bind at 1. unfold gets at 1. cbv beta iota.
  unfold mbind at 1. unfold M_bind at 1.
  set (count := if CruiseControl.cancel (cruiseControl CC) then _ else _).
  set (w1 := with_self (set_brake_counter count) w).
  change (CP_flags (self w1)) with (CP_flags (self w)). rewrite Hradar.
  unfold gen1_radar. unfold mbind at 1. unfold M_bind at 1.
  rewrite gen1_radar_hold_eq.
  change (CS w1) with (CS w). change (hold_timer (self w1)) with (hold_timer (self w)).
  set (w2 := if standstill (out (CS w)) then w1 else _).
  unfold mbind at 1. unfold M_bind at 1.
  pose proof (gen1_radar_accel_spec CC w2) as (r & f & x & d & Heq & _).
  do 2 eexists. rewrite Heq.
  destruct r as [e | []]; [reflexivity |].
  munfold.
  assert (Hframe : frame (self (accel_writes f x d (params_memory w2) w2)) = frame (self w)).
  { subst w2 w1. destruct (standstill (out (CS w))); reflexivity. }
  unfold accel_writes in *. wsimpl_all. rewrite Hframe.
  unfold create_radar_command.
  destruct (frame (self w) mod 2 =? 0); reflexivity.
Qed.


(** ** The blocks of a GEN2 car, in detail *)

Lemma gen2_acc_cmd_keeps CC (w : World F) :
  let w' := snd (gen2_acc_cmd CC w) in
  CS w' = CS w /\ params w' = params w /\ params_memory w' = params_memory w
  /\ acc_filter (self w') = acc_filter (self w)
  /\ filtered_acc_last (self w') = filtered_acc_last (self w).
Proof.
  cbv zeta. rewrite gen2_acc_cmd_eq, gen2_hold_resume_eq.
  destruct (Timer_ticks w mod 2 =? 0); [| repeat split].
  destruct (standstill (out (CS w))); [| repeat split].
  destruct (Timer.active (hold_delay (self w))); [repeat split |].
  destruct (fst (is_resuming CC w)) as [e | []]; repeat split.
Qed.

Lemma gen2_eq CC (w : World F) :
  gen2 CC w =
  match fst (gen2_raw_acc_output CC w) with
  | inl e => (inl e, w)
  | inr raw =>
      match gen2_acc_output raw w with
      | (inl e, w1) => (inl e, w1)
      | (inr acc_output, w1) =>
          gen2_acc_cmd CC
            (if get_bool (params w1) "ExperimentalLongitudinalEnabled" && longActive CC
             then with_CS (fun cs => set_acc (<["ACCEL_CMD" := acc_output]> (acc cs)) cs) w1
             else w1)
      end
  end.
Proof.
  unfold gen2. unfold mbind at 1. unfold M_bind at 1.
  destruct (gen2_raw_acc_output CC w) as [rr wr] eqn:Hraw.
  assert (Hwr : wr = w) by (rewrite gen2_raw_acc_output_eq in Hraw; congruence).
  subst wr. cbn [fst]. destruct rr as [e | raw]; [reflexivity |].
  unfold mbind at 1. unfold M_bind at 1.
  destruct (gen2_acc_output raw w) as [[e | acc_output] w1]; [reflexivity |].
  unfold mbind at 1. unfold M_bind at 1. rewrite gen2_write_back_eq. reflexivity.
Qed.

Lemma gen2_acc_output_plain raw (w : World F) :
  get_bool (params w) "BlendedACC" = false -> gen2_acc_output raw w = (inr raw, w).
Proof. intros H. unfold gen2_acc_output. munfold. rewrite H. reflexivity. Qed.

Lemma gen2_acc_output_stock raw (w : World F) :
  get_bool (params w) "BlendedACC" = true -> CEStatus w = 0 -> CEFramesCounter w <= 0 ->
  gen2_acc_output raw w =
  match getitem (acc (CS w)) "ACCEL_CMD" with
  | inl e => (inl e, w)
  | inr v => (inr v, with_self (set_filtered_acc_last v) w)
  end.
Proof.
  unfold CEStatus, CEFramesCounter. intros Hb Hs Hc.
  unfold gen2_acc_output. munfold. rewrite Hb, Hs. cbn [Z.eqb negb].
  assert (Hlt : (0 <? get_int (params_memory w) "CEFramesCounter") = false)
    by (apply Z.ltb_ge; exact Hc).
  rewrite Hlt. destruct (getitem (acc (CS w)) "ACCEL_CMD"); reflexivity.
Qed.

Lemma gen2_acc_output_counter raw (w : World F) :
  get_bool (params w) "BlendedACC" = true ->
  returned (fst (gen2_acc_output raw w)) = true ->
  CEFramesCounter (snd (gen2_acc_output raw w))
  = if negb (CEStatus w =? 0)
    then if CEFramesCounter w <? 20 then CEFramesCounter w + 1 else 20
    else if 0 <? CEFramesCounter w then CEFramesCounter w - 1 else CEFramesCounter w.
Proof.
  unfold CEStatus, CEFramesCounter. intros Hb.
  wdestruct w. wsimpl_all.
  unfold gen2_acc_output, acc_filter_update_alpha, acc_filter_update.
  munfold. rewrite Hb.
  mexec; cbn [fst snd returned]; try discriminate; intros _; wsimpl_all;
    unfold get_int, put_int in *; rewrite ?lookup_insert_eq; cbn [default from_option id];
    try reflexivity; exfalso; cbn [negb] in *; congruence.
Qed.

Lemma gen2_acc_output_keys raw (w : World F) :
  let w' := snd (gen2_acc_output raw w) in
  CS w' = CS w /\ params w' = params w
  /\ forall k, k <> "CEFramesCounter" -> params_memory w' !! k = params_memory w !! k.
Proof.
  cbv zeta. destruct (gen2_acc_output_spec raw w) as (r & f & x & m & Heq & Hk & _).
  rewrite Heq. cbn [snd]. split; [| split; [reflexivity | exact Hk]].
  wdestruct w. reflexivity.
Qed.

Lemma cycle_gen2_parts (i : CycleInput) (w : World F) acts can_sends :
  has_flag (CP_flags (self w)) (GEN1 MazdaFlags) = false ->
  fst (cycle MazdaFlags i w) = inr (acts, can_sends) ->
  exists a t raw acc_output,
    let w1 := with_self (set_steer_last a t) (enter i w) in
    let w2 := snd (gen2_acc_output raw w1) in
    let w3 :=
      if get_bool (in_params i) "ExperimentalLongitudinalEnabled" && longActive (in_CC i)
      then with_CS (fun cs => set_acc (<["ACCEL_CMD" := acc_output]> (acc cs)) cs) w2
      else w2 in
    fst (gen2_raw_acc_output (in_CC i) w1) = inr raw
    /\ fst (gen2_acc_output raw w1) = inr acc_output
    /\ snd (cycle MazdaFlags i w) = end_of_cycle (snd (gen2_acc_cmd (in_CC i) w3)).
Proof.
  intros Hgen. unfold cycle. rewrite update_eq.
  destruct (update_steer_spec (in_CC i) (enter i w)) as [[_ [e He]] | (a & t & He & _)];
    rewrite He; [discriminate |].
  set (w1 := with_self (set_steer_last a t) (enter i w)).
  rewrite generation_block_eq.
  change (CP_flags (self w1)) with (CP_flags (self w)). rewrite Hgen.
  rewrite gen2_eq.
  destruct (fst (gen2_raw_acc_output (in_CC i) w1)) as [e | raw] eqn:Hraw; [discriminate |].
  pose proof (gen2_acc_output_keys raw w1) as (_ & Hp & _). cbv zeta in Hp.
  destruct (gen2_acc_output raw w1) as [[e | acc_output] w2] eqn:Hout; [discriminate |].
  cbn [snd] in Hp. rewrite Hp. change (params w1) with (in_params i).
  set (w3 := if _ && _ then _ else w2).
  destruct (gen2_acc_cmd (in_CC i) w3) as [[e | sends] w4] eqn:Hcmd; [discriminate |].
  destruct (PyNum.truediv _ _) as [e | q]; [discriminate |].
  intros _. exists a, t, raw, acc_output. cbv zeta. fold w1. rewrite Hout. cbn [fst snd].
  fold w3. rewrite Hcmd. auto.
Qed.

(** ** The acceleration command of a GEN2 car, end to end *)

(** X10. On a GEN2 car with blended mode off, a cycle that returns has
    computed [accel * 240 + 2000] as the command: with experimental
    longitudinal control enabled and long control active that float is the
    acceleration command of the stock ACC message the cycle leaves, and of
    the ACC command frame it sends; otherwise the message is as received. The
    filter, the last filtered value and the shared-memory store are not
    touched. *)
Theorem plain_accel_reaches_the_bus (i : CycleInput) (w : World F) acts can_sends :
  has_flag (CP_flags (self w)) (GEN1 MazdaFlags) = false ->
  get_bool (in_params i) "BlendedACC" = false ->
  fst (cycle MazdaFlags i w) = inr (acts, can_sends) ->
  let w' := snd (cycle MazdaFlags i w) in
  let command := PyFloat (accel (actuators (in_CC i)) * 240 + 2000)%float in
  acc (CS w')
  = (if get_bool (in_params i) "ExperimentalLongitudinalEnabled" && longActive (in_CC i)
     then <["ACCEL_CMD" := command]> (acc (in_CS i))
     else acc (in_CS i))
  /\ (forall a h r, In (AccCommand a h r) can_sends -> a = acc (CS w'))
  /\ acc_filter (self w') = acc_filter (self w)
  /\ filtered_acc_last (self w') = filtered_acc_last (self w)
  /\ params_memory w' = params_memory (enter i w).
Proof.
  intros Hgen Hblend Hc. cbv zeta.
  assert (Hframes :
    forall a h r, In (AccCommand a h r) can_sends -> a = acc (CS (snd (cycle MazdaFlags i w)))).
  { intros a h r Hin.
    rewrite (cycle_gen2_frames i w acts can_sends Hgen Hc) in Hin.
    rewrite in_app_iff in Hin. destruct Hin as [Hin | Hin].
    - destruct (Timer_ticks w mod 2 =? 0); [| destruct Hin].
      destruct Hin as [[= <- _ _] | []]. reflexivity.
    - destruct Hin as [[=] | []]. }
  destruct (cycle_gen2_parts i w acts can_sends Hgen Hc)
    as (a & t & raw & acc_output & Hraw & Hout & Hw').
  cbv zeta in *.
  set (w1 := with_self (set_steer_last a t) (enter i w)) in *.
  rewrite gen2_acc_output_plain in Hout, Hw' by exact Hblend.
  cbn [fst snd] in Hout, Hw'. injection Hout as <-.
  rewrite gen2_raw_acc_output_eq in Hraw. cbn [fst] in Hraw.
  destruct (fst (is_resuming (in_CC i) w1)) as [e | resuming]; [discriminate |].
  change (params w1) with (in_params i) in Hraw.
  rewrite Hblend, andb_false_r in Hraw. cbn [andb] in Hraw. injection Hraw as <-.
  split; [| split; [exact Hframes |]]; rewrite Hw'.
  - set (w3 := if _ && _ then _ else w1).
    destruct (gen2_acc_cmd_keeps (in_CC i) w3) as (E1 & _).
    change (CS (end_of_cycle (snd (gen2_acc_cmd (in_CC i) w3))))
      with (CS (snd (gen2_acc_cmd (in_CC i) w3))).
    rewrite E1. subst w3. destruct (_ && _); reflexivity.
  - set (w3 := if _ && _ then _ else w1).
    destruct (gen2_acc_cmd_keeps (in_CC i) w3) as (_ & _ & E3 & E4 & E5).
    change (acc_filter (self (end_of_cycle (snd (gen2_acc_cmd (in_CC i) w3)))))
      with (acc_filter (self (snd (gen2_acc_cmd (in_CC i) w3)))).
    change (filtered_acc_last (self (end_of_cycle (snd (gen2_acc_cmd (in_CC i) w3)))))
      with (filtered_acc_last (self (snd (gen2_acc_cmd (in_CC i) w3)))).
    change (params_memory (end_of_cycle (snd (gen2_acc_cmd (in_CC i) w3))))
      with (params_memory (snd (gen2_acc_cmd (in_CC i) w3))).
    rewrite E3, E4, E5. subst w3. destruct (_ && _); repeat split.
Qed.

(** X11. In steady stock mode the controller is transparent. On a GEN2 car
    in blended mode, with the stock system not reported active and the
    transition counter at zero, a cycle that returns hands the stock
    acceleration command through unfiltered: the stock ACC message leaves the
    cycle exactly as it was received, written back or not, the ACC command
    frame carries it, the filter is not consulted, the counter stays where it
    is, and the command is remembered as the last filtered value. *)
Theorem stock_command_passes_through (i : CycleInput) (w : World F) acts can_sends :
  has_flag (CP_flags (self w)) (GEN1 MazdaFlags) = false ->
  get_bool (in_params i) "BlendedACC" = true ->
  CEStatus (enter i w) = 0 ->
  CEFramesCounter (enter i w) = 0 ->
  fst (cycle MazdaFlags i w) = inr (acts, can_sends) ->
  let w' := snd (cycle MazdaFlags i w) in
  acc (CS w') = acc (in_CS i)
  /\ (forall a h r, In (AccCommand a h r) can_sends -> a = acc (in_CS i))
  /\ acc (in_CS i) !! "ACCEL_CMD" = Some (filtered_acc_last (self w'))
  /\ acc_filter (self w') = acc_filter (self w)
  /\ params_memory w' = params_memory (enter i w).
Proof.
  intros Hgen Hblend Hstatus Hcount Hc. cbv zeta.
  assert (Hframes :
    forall a h r, In (AccCommand a h r) can_sends -> a = acc (CS (snd (cycle MazdaFlags i w)))).
  { intros a h r Hin.
    rewrite (cycle_gen2_frames i w acts can_sends Hgen Hc) in Hin.
    rewrite in_app_iff in Hin. destruct Hin as [Hin | Hin].
    - destruct (Timer_ticks w mod 2 =? 0); [| destruct Hin].
      destruct Hin as [[= <- _ _] | []]. reflexivity.
    - destruct Hin as [[=] | []]. }
  destruct (cycle_gen2_parts i w acts can_sends Hgen Hc)
    as (a & t & raw & acc_output & _ & Hout & Hw').
  cbv zeta in *.
  set (w1 := with_self (set_steer_last a t) (enter i w)) in *.
  rewrite (gen2_acc_output_stock raw w1) in Hout, Hw';
    [| exact Hblend | exact Hstatus | rewrite <- Hcount; apply Z.le_refl
     | exact Hblend | exact Hstatus | rewrite <- Hcount; apply Z.le_refl].
  change (CS w1) with (in_CS i) in Hout, Hw'.
  unfold getitem in Hout, Hw'.
  destruct (acc (in_CS i) !! "ACCEL_CMD") as [v |] eqn:Hv; [| discriminate].
  cbn [fst snd] in Hout, Hw'. injection Hout as <-.
  set (w3 := if _ && _ then _ else _) in Hw'.
  destruct (gen2_acc_cmd_keeps (in_CC i) w3) as (E1 & _ & E3 & E4 & E5).
  assert (Hacc : acc (CS (snd (cycle MazdaFlags i w))) = acc (in_CS i)).
  { rewrite Hw'.
    change (CS (end_of_cycle (snd (gen2_acc_cmd (in_CC i) w3))))
      with (CS (snd (gen2_acc_cmd (in_CC i) w3))).
    rewrite E1. subst w3. destruct (_ && _); [| reflexivity].
    cbn. apply insert_id. exact Hv. }
  split; [exact Hacc |].
  split; [intros a' h r Hin; rewrite <- Hacc; exact (Hframes a' h r Hin) |].
  rewrite Hw'.
  change (acc_filter (self (end_of_cycle (snd (gen2_acc_cmd (in_CC i) w3)))))
    with (acc_filter (self (snd (gen2_acc_cmd (in_CC i) w3)))).
  change (filtered_acc_last (self (end_of_cycle (snd (gen2_acc_cmd (in_CC i) w3)))))
    with (filtered_acc_last (self (snd (gen2_acc_cmd (in_CC i) w3)))).
  change (params_memory (end_of_cycle (snd (gen2_acc_cmd (in_CC i) w3))))
    with (params_memory (snd (gen2_acc_cmd (in_CC i) w3))).
  rewrite E3, E4, E5. subst w3. destruct (_ && _); repeat split.
Qed.

(** ** The shared-memory store *)

Lemma apply_writes_key (k : string) (writes : list (string * Z)) (m : gmap string Z) :
  existsb (fun kv => bool_decide (fst kv = k)) writes = false ->
  apply_writes writes m !! k = m !! k.
Proof.
  revert m. induction writes as [| [k' v] rest IH]; intros m H; [reflexivity |].
  cbn [existsb fst] in H. apply orb_false_iff in H as [Hk Hrest].
  apply bool_decide_eq_false in Hk.
  cbn [apply_writes fold_left fst snd]. fold (apply_writes rest (put_int k' v m)).
  rewrite IH by exact Hrest.
  unfold put_int. rewrite lookup_insert_ne by exact Hk. reflexivity.
Qed.

Lemma gen2_store CC (w : World F) :
  let w' := snd (gen2 CC w) in
  params w' = params w
  /\ (forall k, k <> "CEFramesCounter" -> params_memory w' !! k = params_memory w !! k)
  /\ (get_bool (params w) "BlendedACC" = false -> params_memory w' = params_memory w).
Proof.
  cbv zeta. rewrite gen2_eq.
  destruct (fst (gen2_raw_acc_output CC w)) as [e | raw]; [repeat split |].
  pose proof (gen2_acc_output_keys raw w) as (_ & Hp & Hk).
  pose proof (gen2_acc_output_plain raw w) as Hplain.
  cbv zeta in *.
  destruct (gen2_acc_output raw w) as [[e | acc_output] w1]; cbn [snd] in *.
  { split; [exact Hp |]. split; [exact Hk |].
    intros Hb. specialize (Hplain Hb). discriminate. }
  set (w3 := if _ && _ then _ else w1).
  destruct (gen2_acc_cmd_keeps CC w3) as (_ & E2 & E3 & _). rewrite E2, E3.
  assert (Hw3 : params w3 = params w1 /\ params_memory w3 = params_memory w1)
    by (subst w3; destruct (_ && _); split; reflexivity).
  destruct Hw3 as [-> ->].
  split; [exact Hp |]. split; [exact Hk |].
  intros Hb. specialize (Hplain Hb). injection Hplain as _ ->. reflexivity.
Qed.

Lemma generation_block_store CC (w : World F) :
  let w' := snd (generation_block MazdaFlags CC w) in
  params w' = params w
  /\ (forall k, k <> "CEFramesCounter" -> params_memory w' !! k = params_memory w !! k)
  /\ (has_flag (CP_flags (self w)) (GEN1 MazdaFlags) = true
      \/ get_bool (params w) "BlendedACC" = false ->
      params_memory w' = params_memory w).
Proof.
  cbv zeta. rewrite generation_block_eq.
  destruct (has_flag (CP_flags (self w)) (GEN1 MazdaFlags)).
  - destruct (gen1_spec CC w) as (r & f & x & d & Heq & _). cbv zeta in Heq.
    rewrite Heq. cbn [snd].
    destruct (has_flag (CP_flags (self w)) (RADAR_INTERCEPTOR MazdaFlags)
              && negb (standstill (out (CS w)))); repeat split.
  - destruct (gen2_store CC w) as (H1 & H2 & H3).
    split; [exact H1 |]. split; [exact H2 |].
    intros [Hg | Hb]; [discriminate | exact (H3 Hb)].
Qed.

Lemma cycle_store (i : CycleInput) (w : World F) :
  let w' := snd (cycle MazdaFlags i w) in
  params w' = in_params i
  /\ (forall k, k <> "CEFramesCounter" ->
        params_memory w' !! k = params_memory (enter i w) !! k)
  /\ (has_flag (CP_flags (self w)) (GEN1 MazdaFlags) = true
      \/ get_bool (in_params i) "BlendedACC" = false ->
      params_memory w' = params_memory (enter i w)).
Proof.
  cbv zeta. unfold cycle. rewrite update_eq.
  destruct (update_steer_spec (in_CC i) (enter i w)) as [[_ [e He]] | (a & t & He & _)];
    rewrite He; [repeat split |].
  set (w1 := with_self (set_steer_last a t) (enter i w)).
  pose proof (generation_block_store (in_CC i) w1) as Hs. cbv zeta in Hs.
  change (params w1) with (in_params i) in Hs.
  change (params_memory w1) with (params_memory (enter i w)) in Hs.
  change (CP_flags (self w1)) with (CP_flags (self w)) in Hs.
  destruct (generation_block MazdaFlags (in_CC i) w1) as [[e | sends] w2];
    cbn [snd] in *; [exact Hs |].
  destruct (PyNum.truediv _ _) as [e | q]; exact Hs.
Qed.

Lemma run_store_key (k : string) (inputs : list CycleInput) (w : World F) :
  k <> "CEFramesCounter" ->
  Forall (fun i => writes_key k i = false) inputs ->
  params_memory (run MazdaFlags inputs w) !! k = params_memory w !! k.
Proof.
  intros Hk. revert w. induction inputs as [| i rest IH]; intros w Hw; [reflexivity |].
  inversion Hw as [| ? ? Hi Hrest]; subst.
  cbn [run fold_left]. fold (run MazdaFlags rest (snd (cycle MazdaFlags i w))).
  rewrite IH by exact Hrest.
  destruct (cycle_store i w) as (_ & Hkeys & _). rewrite (Hkeys k Hk).
  apply apply_writes_key. exact Hi.
Qed.

Lemma run_coasting (inputs : list CycleInput) flags P cs toggles memory :
  Forall (fun i => writes_key "Coasting" i = false) inputs ->
  get_int (params_memory (run MazdaFlags inputs
             (init_world flags P cs toggles memory : World F))) "Coasting" = 0.
Proof.
  intros Hw. unfold get_int. rewrite run_store_key by (discriminate || exact Hw).
  cbn [init_world params_memory]. unfold put_int.
  rewrite lookup_insert_eq. reflexivity.
Qed.

Lemma run_no_auxiliary_torque (inputs : list CycleInput) (w : World F) :
  has_flag (CP_flags (self w)) (TORQUE_INTERCEPTOR MazdaFlags) = false ->
  ti_apply_steer_last (self w) = 0 ->
  ti_apply_steer_last (self (run MazdaFlags inputs w)) = 0.
Proof.
  revert w. induction inputs as [| i rest IH]; intros w Hflag Hzero; [exact Hzero |].
  cbn [run fold_left]. fold (run MazdaFlags rest (snd (cycle MazdaFlags i w))).
  apply IH; [rewrite cycle_flags; exact Hflag |].
  destruct (cycle_steer i w) as (_ & _ & [(_ & _ & _ & ->) | (a & t & Hs & _ & -> & _)]);
    [exact Hzero |].
  destruct (update_steer_spec (in_CC i) (enter i w)) as [[_ [e He]] | (a' & t' & He & Hat)];
    rewrite He in Hs; [discriminate |].
  injection Hs as <- <-.
  change (CP_flags (self (enter i w))) with (CP_flags (self w)) in Hat.
  rewrite Hflag in Hat. cbn [andb] in Hat.
  destruct (latActive (in_CC i)); [destruct Hat as [_ ->] | destruct Hat as [_ ->]]; reflexivity.
Qed.

(** X12. What [update] writes to the stores. It never writes the persistent
    store of toggles, and of the shared-memory store it writes at most the
    transition counter: every other key leaves a cycle as the cycle found it,
    and on a GEN1 car, or with blended mode off, the whole store does. Hence
    a key that no other process writes, the coasting flag set to 0 by the
    constructor among them, keeps its value over any sequence of cycles. *)
Theorem shared_memory_discipline (inputs : list CycleInput) (w : World F) :
  (forall i,
     let w' := snd (cycle MazdaFlags i w) in
     params w' = in_params i
     /\ (forall k, k <> "CEFramesCounter" ->
           params_memory w' !! k = params_memory (enter i w) !! k)
     /\ (has_flag (CP_flags (self w)) (GEN1 MazdaFlags) = true
         \/ get_bool (in_params i) "BlendedACC" = false ->
         params_memory w' = params_memory (enter i w)))
  /\ (forall k, k <> "CEFramesCounter" ->
        Forall (fun i => writes_key k i = false) inputs ->
        params_memory (run MazdaFlags inputs w) !! k = params_memory w !! k)
  /\ (forall flags P cs toggles memory,
        Forall (fun i => writes_key "Coasting" i = false) inputs ->
        get_int (params_memory (run MazdaFlags inputs (init_world flags P cs toggles memory)))
          "Coasting" = 0).
Proof.
  split; [intros i; apply cycle_store |].
  split; [intros k Hk; apply run_store_key; exact Hk |].
  intros flags P cs toggles memory. apply run_coasting.
Qed.

(** ** The transition counter, exactly *)

Lemma cycle_counter_exact (i : CycleInput) (w : World F) :
  has_flag (CP_flags (self w)) (GEN1 MazdaFlags) = false ->
  blended_undisturbed i = true ->
  returned (fst (cycle MazdaFlags i w)) = true ->
  let w' := snd (cycle MazdaFlags i w) in
  CEStatus w' = CEStatus w
  /\ CEFramesCounter w'
     = if negb (CEStatus w =? 0)
       then if CEFramesCounter w <? 20 then CEFramesCounter w + 1 else 20
       else if 0 <? CEFramesCounter w then CEFramesCounter w - 1 else CEFramesCounter w.
Proof.
  intros Hgen Hi Hret. cbv zeta.
  unfold blended_undisturbed in Hi. apply andb_true_iff in Hi as [Hblend Hquiet].
  apply bool_decide_eq_true in Hquiet.
  destruct (fst (cycle MazdaFlags i w)) as [e | [acts can_sends]] eqn:Hc; [discriminate |].
  destruct (cycle_gen2_parts i w acts can_sends Hgen Hc)
    as (a & t & raw & acc_output & _ & Hout & Hw').
  cbv zeta in *.
  set (w1 := with_self (set_steer_last a t) (enter i w)) in *.
  assert (Hm1 : params_memory w1 = params_memory w).
  { subst w1. cbn. rewrite Hquiet. reflexivity. }
  set (w3 := if _ && _ then _ else _) in Hw'.
  destruct (gen2_acc_cmd_keeps (in_CC i) w3) as (_ & _ & E3 & _).
  assert (Hm : params_memory (snd (cycle MazdaFlags i w))
               = params_memory (snd (gen2_acc_output raw w1))).
  { rewrite Hw'.
    change (params_memory (end_of_cycle (snd (gen2_acc_cmd (in_CC i) w3))))
      with (params_memory (snd (gen2_acc_cmd (in_CC i) w3))).
    rewrite E3. subst w3. destruct (_ && _); reflexivity. }
  pose proof (gen2_acc_output_keys raw w1) as (_ & _ & Hk). cbv zeta in Hk.
  pose proof (gen2_acc_output_counter raw w1 Hblend) as Hcount.
  rewrite Hout in Hcount. specialize (Hcount eq_refl).
  unfold CEStatus, CEFramesCounter, get_int in *. rewrite Hm.
  rewrite (Hk "CEStatus") by discriminate. rewrite Hcount, Hm1. auto.
Qed.

(** X13. The transition counter converges. On a GEN2 car in blended mode,
    with no other process writing the shared-memory store, over cycles that
    return the counter moves one step per cycle toward 20 while the stock
    system is reported active and toward 0 while it is not, and stays there:
    after [n] cycles it is [min 20 (c + n)], respectively [max 0 (c - n)]. So
    20 cycles always complete a transition. *)
Theorem transition_counter_converges (inputs : list CycleInput) (w : World F) :
  has_flag (CP_flags (self w)) (GEN1 MazdaFlags) = false ->
  Forall (fun i => blended_undisturbed i = true) inputs ->
  Forall (fun r => returned r = true) (outcomes MazdaFlags inputs w) ->
  let n := Z.of_nat (length inputs) in
  let c := CEFramesCounter w in
  let c' := CEFramesCounter (run MazdaFlags inputs w) in
  (CEStatus w <> 0 -> c <= 20 -> c' = Z.min 20 (c + n))
  /\ (CEStatus w = 0 -> 0 <= c -> c' = Z.max 0 (c - n))
  /\ (0 <= c <= 20 -> 20 <= n -> c' = if CEStatus w =? 0 then 0 else 20).
Proof.
  intros Hgen Hin Hret. cbv zeta.
  assert (Hboth : (CEStatus w <> 0 -> CEFramesCounter w <= 20 ->
                   CEFramesCounter (run MazdaFlags inputs w)
                   = Z.min 20 (CEFramesCounter w + Z.of_nat (length inputs)))
                  /\ (CEStatus w = 0 -> 0 <= CEFramesCounter w ->
                      CEFramesCounter (run MazdaFlags inputs w)
                      = Z.max 0 (CEFramesCounter w - Z.of_nat (length inputs)))).
  { revert w Hgen Hret. induction inputs as [| i rest IH]; intros w Hgen Hret.
    { cbn [run fold_left length]. split; intros; lia. }
    inversion Hin as [| ? ? Hi Hrest]; subst.
    cbn [outcomes] in Hret. inversion Hret as [| ? ? Hr0 Hrets]; subst.
    destruct (cycle_counter_exact i w Hgen Hi Hr0) as [Hs Hcnt].
    cbn [run fold_left]. fold (run MazdaFlags rest (snd (cycle MazdaFlags i w))).
    destruct (IH Hrest (snd (cycle MazdaFlags i w))) as [IHup IHdown];
      [rewrite cycle_flags; exact Hgen | exact Hrets |].
    rewrite Hs in IHup, IHdown. rewrite Hcnt in IHup, IHdown.
    cbn [length]. rewrite Nat2Z.inj_succ.
    split.
    - intros Hon Hle. apply Z.eqb_neq in Hon as Hon'. rewrite Hon' in IHup. cbn [negb] in IHup.
      destruct (Z.ltb_spec (CEFramesCounter w) 20); rewrite IHup by lia; lia.
    - intros Hoff Hle. apply Z.eqb_eq in Hoff as Hoff'. rewrite Hoff' in IHdown.
      cbn [negb] in IHdown.
      destruct (Z.ltb_spec 0 (CEFramesCounter w)); rewrite IHdown by lia; lia. }
  destruct Hboth as [Hup Hdown].
  split; [exact Hup |]. split; [exact Hdown |].
  intros Hc Hn. destruct (Z.eqb_spec (CEStatus w) 0) as [E | E].
  - rewrite (Hdown E) by lia. lia.
  - rewrite (Hup E) by lia. lia.
Qed.

(** ** Signals that are missing *)

Lemma resume_requested_operands CC cs :
  resume_requested CC cs
  = resume_operands CC cs
    || match acc cs !! "RESUME" with Some v => truthy v | None => false end.
Proof. reflexivity. Qed.

Lemma gen2_acc_cmd_returns CC (w : World F) :
  resume_operands CC (CS w) = true \/ is_Some (acc (CS w) !! "RESUME") ->
  returned (fst (gen2_acc_cmd CC w)) = true.
Proof.
  intros Hok. rewrite gen2_acc_cmd_eq, gen2_hold_resume_eq, is_resuming_eq.
  fold (resume_operands CC (CS w)). unfold getitem.
  destruct (Timer_ticks w mod 2 =? 0); [| reflexivity].
  destruct (standstill (out (CS w))); [| reflexivity].
  destruct (Timer.active (hold_delay (self w))); [reflexivity |].
  destruct (resume_operands CC (CS w)); [reflexivity |].
  destruct Hok as [Hok | [v Hv]]; [discriminate |]. rewrite Hv. cbn [fst].
  destruct (truthy v); reflexivity.
Qed.

Lemma is_resuming_operands CC (w : World F) :
  is_resuming CC w =
  (if resume_operands CC (CS w) then inr true
   else match acc (CS w) !! "RESUME" with
        | Some v => inr (truthy v)
        | None => inl (KeyError "RESUME")
        end, w).
Proof.
  rewrite is_resuming_eq. unfold resume_operands, getitem.
  destruct (_ || _ || _ || _); [reflexivity |].
  destruct (acc (CS w) !! "RESUME"); reflexivity.
Qed.

Lemma gen2_missing_resume CC (w : World F) :
  resume_operands CC (CS w) = false -> acc (CS w) !! "RESUME" = None ->
  gen2 CC w = (inl (KeyError "RESUME"), w).
Proof.
  intros Hidle Hmissing.
  rewrite gen2_eq, gen2_raw_acc_output_eq, is_resuming_operands. cbn [fst].
  rewrite Hidle, Hmissing. reflexivity.
Qed.

Lemma gen2_plain_returns CC (w : World F) :
  resume_operands CC (CS w) = true \/ is_Some (acc (CS w) !! "RESUME") ->
  get_bool (params w) "BlendedACC" = false ->
  returned (fst (gen2 CC w)) = true.
Proof.
  intros Hok Hblend.
  rewrite gen2_eq, gen2_raw_acc_output_eq, is_resuming_operands. cbn [fst].
  assert (Hraw : exists resuming,
            (if resume_operands CC (CS w) then inr true
             else match acc (CS w) !! "RESUME" with
                  | Some v => inr (truthy v)
                  | None => inl (KeyError "RESUME")
                  end) = (inr resuming : result bool)).
  { destruct (resume_operands CC (CS w)); [eauto |].
    destruct Hok as [Hok | [v Hv]]; [discriminate |]. rewrite Hv. eauto. }
  destruct Hraw as [resuming ->]. rewrite Hblend, andb_false_r. cbn [andb].
  rewrite gen2_acc_output_plain by exact Hblend.
  apply gen2_acc_cmd_returns.
  destruct (_ && longActive CC); [| exact Hok].
  cbn [CS with_CS acc set_acc out].
  destruct Hok as [Hok | [v Hv]]; [left; exact Hok | right].
  rewrite lookup_insert_ne by discriminate. eauto.
Qed.

(** X14. A GEN2 car reads the stock RESUME signal on every cycle in which no
    other resume condition holds. With lateral control inactive: if the
    signal is missing from the stock ACC message, [update] raises KeyError
    at line 116, having stored only the zero steering torques, and the frame
    counter does not advance; and if the signal is there, or another resume
    condition holds, then with blended mode off and a steering maximum that
    is not zero the cycle returns. *)
Theorem gen2_reads_resume_signal (i : CycleInput) (w : World F) :
  has_flag (CP_flags (self w)) (GEN1 MazdaFlags) = false ->
  latActive (in_CC i) = false ->
  (resume_operands (in_CC i) (in_CS i) = false ->
   acc (in_CS i) !! "RESUME" = None ->
   cycle MazdaFlags i w
   = (inl (KeyError "RESUME"), with_self (set_steer_last 0 0) (enter i w)))
  /\ (resume_operands (in_CC i) (in_CS i) = true \/ is_Some (acc (in_CS i) !! "RESUME") ->
      get_bool (in_params i) "BlendedACC" = false ->
      STEER_MAX (ccp (self w)) <> 0 ->
      returned (fst (cycle MazdaFlags i w)) = true).
Proof.
  intros Hgen Hlat.
  unfold cycle. rewrite update_eq, update_steer_inactive by exact Hlat.
  set (w1 := with_self (set_steer_last 0 0) (enter i w)).
  pose proof (generation_block_frame (in_CC i) w1) as (_ & G2 & _).
  revert G2. rewrite generation_block_eq.
  change (CP_flags (self w1)) with (CP_flags (self w)). rewrite Hgen.
  change (ccp (self w1)) with (ccp (self w)).
  split.
  - intros Hidle Hmissing. rewrite gen2_missing_resume by assumption. reflexivity.
  - intros Hok Hblend Hmax.
    pose proof (gen2_plain_returns (in_CC i) w1 Hok Hblend) as Hr.
    destruct (gen2 (in_CC i) w1) as [[e | sends] w2]; [discriminate |].
    cbn [snd] in G2. rewrite G2, truediv_zero by exact Hmax. reflexivity.
Qed.

(** X15. What the radar path feeds the filter while the stock system is
    reported active: the planner's acceleration times 1150, clipped to
    [-1000, 1000]; a NaN becomes -1000. When the block returns, the filter
    coefficient was set from the distance of that value to the last filtered
    one, the filter was updated with it, and the integer part of what the
    filter returned was written to the stock cruise message and remembered as
    the last filtered value. *)
Theorem radar_filter_input_clipped CC (w : World F) :
  longActive CC = true ->
  get_bool (params w) "BlendedACC" = true ->
  CEStatus w <> 0 ->
  let v := clipped_accel (accel (actuators CC)) in
  PyNum.lt v (PyInt (-1000)) = false
  /\ PyNum.gt v (PyInt 1000) = false
  /\ (is_nan (accel (actuators CC)) = true -> v = PyInt (-1000))
  /\ (returned (fst (gen1_radar_accel CC w)) = true ->
      exists a f1 f2 y n,
        alpha_of_change v (filtered_acc_last (self w)) = inr a
        /\ filter_update_alpha a (acc_filter (self w)) = inr f1
        /\ filter_update v f1 = inr (f2, y)
        /\ PyNum.int y = inr n
        /\ snd (gen1_radar_accel CC w)
           = accel_writes f2 (PyInt n) (<["ACCEL_CMD" := PyInt n]> (crz_info (CS w)))
               (params_memory w) w).
Proof.
  intros Hlong Hblend Hstatus. cbv zeta.
  destruct (clipped_accel_bounds (accel (actuators CC))) as [Hlo Hhi].
  split; [exact Hlo |]. split; [exact Hhi |].
  split; [apply clipped_accel_nan |].
  unfold CEStatus in Hstatus. apply Z.eqb_neq in Hstatus.
  unfold gen1_radar_accel, acc_filter_update_alpha, acc_filter_update.
  rewrite Hlong, mul_float_1150. munfold. rewrite Hblend, Hstatus. cbn [negb].
  fold (clipped_accel (accel (actuators CC))).
  wdestruct w. wsimpl_all.
  mexec; cbn [fst snd returned]; try discriminate; intros _.
  do 5 eexists. repeat split; try eassumption; wnorm; reflexivity.
Qed.

(** X16. On a GEN1 car with the radar interceptor, a cycle with long control
    active in blended mode while the stock system is not reported active reads
    the stock acceleration command of the cruise message. With lateral
    control inactive, if that signal is missing [update] raises KeyError at
    line 102: no frame is sent and the frame counter does not advance, but
    the debounce count of the cancel button has already been updated and the
    car state is as received. *)
Theorem radar_needs_stock_command (i : CycleInput) (w : World F) :
  has_flag (CP_flags (self w)) (GEN1 MazdaFlags) = true ->
  has_flag (CP_flags (self w)) (RADAR_INTERCEPTOR MazdaFlags) = true ->
  latActive (in_CC i) = false ->
  longActive (in_CC i) = true ->
  get_bool (in_params i) "BlendedACC" = true ->
  CEStatus (enter i w) = 0 ->
  crz_info (in_CS i) !! "ACCEL_CMD" = None ->
  let w' := snd (cycle MazdaFlags i w) in
  fst (cycle MazdaFlags i w) = inl (KeyError "ACCEL_CMD")
  /\ frame (self w') = frame (self w)
  /\ CS w' = in_CS i
  /\ brake_counter (self w')
     = if CruiseControl.cancel (cruiseControl (in_CC i))
       then brake_counter (self w) + 1 else 0.
Proof.
  intros Hgen Hradar Hlat Hlong Hblend Hstatus Hmissing. cbv zeta.
  unfold cycle. rewrite update_eq, update_steer_inactive by exact Hlat.
  set (w1 := with_self (set_steer_last 0 0) (enter i w)).
  rewrite generation_block_eq.
  change (CP_flags (self w1)) with (CP_flags (self w)). rewrite Hgen.
  destruct (gen1_radar_eq (in_CC i) w1 Hradar) as (buttons & alert & Heq).
  cbv zeta in Heq. rewrite Heq. clear Heq.
  set (w2 := if standstill (out (CS w1)) then _ else _).
  assert (Hblock : gen1_radar_accel (in_CC i) w2 = (inl (KeyError "ACCEL_CMD"), w2)).
  { assert (Hw2 : params w2 = in_params i /\ crz_info (CS w2) = crz_info (in_CS i)
                  /\ params_memory w2 = params_memory (enter i w)).
    { subst w2. destruct (standstill (out (CS w1))); repeat split. }
    destruct Hw2 as (Hp & Hcrz & Hm).
    unfold CEStatus in Hstatus.
    unfold gen1_radar_accel. rewrite Hlong, mul_float_1150. munfold.
    rewrite Hp, Hblend, Hm, Hstatus. cbn [Z.eqb negb]. munfold.
    rewrite Hcrz. unfold getitem. rewrite Hmissing. reflexivity. }
  rewrite Hblock. cbn [fst snd].
  subst w2. destruct (standstill (out (CS w1))); repeat split.
Qed.

End Properties.

(** ** The example car *)

Lemma float_2240_not_2000 : PyFloat 2240 <> PyFloat 2000.
Proof. discriminate. Qed.

(** Not C1: after sixty cycles at standstill, a resume request and one more
    cycle, the next 50 Hz tick of the GEN2 example car, still at standstill
    and with no resume condition, sends an ACC command with hold and resume
    both true. *)
Lemma hold_and_resume_both_true :
  let w := run example_flags stop_and_go (example_world 0) in
  has_flag (CP_flags (self w)) (GEN1 example_flags) = false
  /\ Timer_ticks w = 62
  /\ emitted (fst (cycle example_flags (idle_input true false) w))
     = [AccCommand (acc (example_CS true false false)) true true; SteeringControl 62 0 ∅].
Proof. vm_compute. repeat split; reflexivity. Qed.

Lemma hold_resume_flags_witness :
  let i := idle_input false false in
  let w := run example_flags (repeat (idle_input false false) 52) (example_world 0) in
  has_flag (CP_flags (self w)) (GEN1 example_flags) = false
  /\ returned (fst (cycle example_flags i w)) = true
  /\ forall a h r,
       In (AccCommand a h r) (emitted (fst (cycle example_flags i w))) ->
       h = false /\ r = false.
Proof.
  intros i w.
  assert (Hgen : has_flag (CP_flags (self w)) (GEN1 example_flags) = false)
    by (vm_compute; reflexivity).
  destruct (fst (cycle example_flags i w)) as [e | [acts can_sends]] eqn:Hret.
  { exfalso. vm_compute in Hret. discriminate Hret. }
  split; [exact Hgen |]. split; [reflexivity |].
  intros a h r Hin. cbn [emitted] in Hin.
  destruct (hold_resume_flags example_flags i w acts can_sends Hgen Hret) as (Hall & _).
  destruct (Hall a h r Hin) as (_ & -> & ->).
  vm_compute. split; reflexivity.
Defined.

Lemma steer_limits_respected_witness :
  let inputs := repeat (steer_input 0.5) 5 in
  let i := steer_input (-1) in
  let w := run example_flags inputs (init_world 3 example_ccp (example_CS false false false) ∅ ∅) in
  let w' := snd (cycle example_flags i w) in
  limits_well_formed example_ccp
  /\ latActive (in_CC i) = true
  /\ (apply_steer_last (self w), apply_steer_last (self w')) = (50, 40)
  /\ Z.abs (apply_steer_last (self w') - apply_steer_last (self w)) <= 10
  /\ Z.abs (apply_steer_last (self w')) <= 800.
Proof.
  intros inputs i w w'.
  assert (Hwf : limits_well_formed example_ccp) by (vm_compute; intuition discriminate).
  split; [exact Hwf |]. split; [reflexivity |]. split; [vm_compute; reflexivity |].
  destruct (steer_limits_respected (F := SpecFilter.t) example_flags 3 example_ccp
              (example_CS false false false) ∅ ∅ inputs i Hwf eq_refl)
    as ((Hrate & Hmag) & _).
  split; [exact Hrate | exact Hmag].
Defined.

Lemma transition_counter_bounded_witness :
  let inputs := repeat blend_input 25 in
  let w := run example_flags inputs (init_world 0 example_ccp (example_CS false false false) ∅ ∅) in
  let w' := snd (cycle example_flags blend_input w) in
  forallb (fun j => negb (writes_counter j)) (blend_input :: inputs) = true
  /\ (CEFramesCounter w, CEFramesCounter w') = (20, 20)
  /\ 0 <= CEFramesCounter w <= 20
  /\ 0 <= CEFramesCounter w' <= 20
  /\ Z.abs (CEFramesCounter w' - CEFramesCounter w) <= 1.
Proof.
  intros inputs w w'.
  assert (Hown : forallb (fun j => negb (writes_counter j)) (blend_input :: inputs) = true)
    by (vm_compute; reflexivity).
  split; [exact Hown |]. split; [vm_compute; reflexivity |].
  assert (Hown' : Forall (fun j => writes_counter j = false) inputs).
  { apply List.Forall_forall. intros j Hj. apply negb_true_iff.
    exact (proj1 (forallb_forall _ _) Hown j (or_intror Hj)). }
  exact (transition_counter_bounded (F := SpecFilter.t) example_flags 0 example_ccp
           (example_CS false false false) ∅ ∅ inputs blend_input Hown' eq_refl).
Defined.

Lemma acc_write_back_witness :
  let w := example_world 0 in
  let w' := snd (cycle example_flags blend_input w) in
  has_flag (CP_flags (self w)) (GEN1 example_flags) = false
  /\ returned (fst (cycle example_flags blend_input w)) = true
  /\ acc (CS w') !! "ACCEL_CMD" = Some (PyInt 2240)
  /\ written_back (in_CC blend_input)
       (snd (update_steer example_flags (in_CC blend_input) (enter blend_input w)))
       (acc (CS w')).
Proof.
  intros w w'.
  assert (Hgen : has_flag (CP_flags (self w)) (GEN1 example_flags) = false)
    by (vm_compute; reflexivity).
  assert (Hret : returned (fst (cycle example_flags blend_input w)) = true)
    by (vm_compute; reflexivity).
  split; [exact Hgen |]. split; [exact Hret |]. split; [vm_compute; reflexivity |].
  destruct (acc_write_back example_flags blend_input w Hgen) as (_ & Hw & _).
  apply Hw; [exact Hret | vm_compute; reflexivity].
Defined.

(** Not C5: with the gas pressed at standstill and the transition counter at
    zero, but blended ACC mode disabled, the raw output is 1 * 240 + 2000 and
    not the stock command 2000. *)
Lemma raw_output_not_stock_without_blend :
  let i := resume_input ∅ in
  let w := enter i (example_world 0) in
  resume_requested (in_CC i) (CS w) = true
  /\ CEFramesCounter w = 0
  /\ acc (CS w) !! "ACCEL_CMD" = Some (PyFloat 2000)
  /\ gen2_raw_acc_output (in_CC i) w = (inr (PyFloat 2240), w)
  /\ PyFloat 2240 <> PyFloat 2000.
Proof.
  intros i w. repeat split; try (vm_compute; reflexivity). exact float_2240_not_2000.
Qed.

Lemma raw_acc_output_cases_witness :
  let i := resume_input {[ "BlendedACC" := true ]} in
  let w := enter i (example_world 0) in
  fst (gen2_raw_acc_output (in_CC i) w) = inr (PyFloat 2000)
  /\ acc (CS w) !! "ACCEL_CMD" = Some (PyFloat 2000)
  /\ returned (fst (gen2_raw_acc_output (in_CC i) w)) = true.
Proof.
  intros i w.
  assert (Hraw : fst (gen2_raw_acc_output (in_CC i) w) = inr (PyFloat 2000))
    by (vm_compute; reflexivity).
  destruct (raw_acc_output_cases (in_CC i) w) as (_ & Hcases & Hret).
  split; [exact Hraw |]. split.
  - exact (Hcases (PyFloat 2000) Hraw).
  - apply Hret; vm_compute; eexists; reflexivity.
Defined.

Lemma cancel_rate_and_debounce_witness :
  let w := example_world 1 in
  let inputs := repeat cancel_input 10 in
  (length inputs <= 10)%nat
  /\ (length (all_cancel_frames example_flags inputs w) <= 1)%nat
  /\ cancel_frames (fst (cycle example_flags cancel_input w)) <> []
  /\ brake_counter (self (snd (cycle example_flags cancel_input w))) = 1
  /\ ~ (brakePressed (out (in_CS cancel_input)) = true
        /\ brake_counter (self (snd (cycle example_flags cancel_input w))) < 7).
Proof.
  intros w inputs.
  destruct (cancel_rate_and_debounce example_flags w) as (Hrate & Hgate).
  assert (Hlen : (length inputs <= 10)%nat) by (vm_compute; lia).
  assert (Hsome : cancel_frames (fst (cycle example_flags cancel_input w)) <> [])
    by (vm_compute; discriminate).
  split; [exact Hlen |]. split; [exact (Hrate inputs Hlen) |]. split; [exact Hsome |].
  destruct (Hgate cancel_input Hsome) as (Hcount & Hnot).
  split; [rewrite Hcount; reflexivity | exact Hnot].
Defined.

(** Not C7: from a frame count of 3 the hundred cycles of the window emit
    their ten cancel-button frames at the offsets 7, 17, ..., 97. *)
Lemma cancel_offsets_from_frame_3 :
  let w := run example_flags (repeat (idle_input false false) 3) (example_world 1) in
  let inputs := repeat cancel_input 100 in
  has_flag (CP_flags (self w)) (GEN1 example_flags) = true
  /\ frame (self w) = 3
  /\ forallb cancel_held inputs = true
  /\ forallb returned (outcomes example_flags inputs w) = true
  /\ cancel_offsets example_flags inputs w = [7; 17; 27; 37; 47; 57; 67; 77; 87; 97]%nat.
Proof. vm_compute. repeat split; reflexivity. Qed.

Lemma cancel_every_tenth_frame_witness :
  let w := run example_flags (repeat (idle_input false false) 3) (example_world 1) in
  let inputs := repeat cancel_input 100 in
  has_flag (CP_flags (self w)) (GEN1 example_flags) = true
  /\ length inputs = 100%nat
  /\ forallb cancel_held inputs = true
  /\ forallb disengaged inputs = true
  /\ STEER_MAX (ccp (self w)) <> 0
  /\ Forall (fun r => returned r = true) (outcomes example_flags inputs w)
  /\ length (all_cancel_frames example_flags inputs w) = 10%nat.
Proof.
  intros w inputs.
  assert (Hgen : has_flag (CP_flags (self w)) (GEN1 example_flags) = true)
    by (vm_compute; reflexivity).
  assert (Hlen : length inputs = 100%nat) by (vm_compute; reflexivity).
  assert (Hheld : forallb cancel_held inputs = true) by (vm_compute; reflexivity).
  assert (Hoff : forallb disengaged inputs = true) by (vm_compute; reflexivity).
  assert (Hmax : STEER_MAX (ccp (self w)) <> 0) by (vm_compute; discriminate).
  split; [exact Hgen |]. split; [exact Hlen |]. split; [exact Hheld |].
  split; [exact Hoff |]. split; [exact Hmax |].
  assert (Hheld' : Forall (fun j => cancel_held j = true) inputs).
  { apply List.Forall_forall. intros j Hj. exact (proj1 (forallb_forall _ _) Hheld j Hj). }
  assert (Hoff' : Forall (fun j => disengaged j = true) inputs).
  { apply List.Forall_forall. intros j Hj. exact (proj1 (forallb_forall _ _) Hoff j Hj). }
  destruct (cancel_every_tenth_frame example_flags inputs w Hgen Hlen Hheld')
    as (Hreturns & Hframes).
  split; [exact (Hreturns Hmax Hoff') |].
  destruct (Hframes (Hreturns Hmax Hoff')) as (Hcount & _).
  exact Hcount.
Defined.

Lemma inactive_steer_is_zero_witness :
  let w := run example_flags (repeat (steer_input 0.5) 5) (example_world 3) in
  let i := idle_input false false in
  let w1 := snd (cycle example_flags i w) in
  latActive (in_CC i) = false
  /\ (apply_steer_last (self w), ti_apply_steer_last (self w)) = (50, 30)
  /\ apply_steer_last (self w1) = 0
  /\ ti_apply_steer_last (self w1) = 0
  /\ apply_steer_last (self (snd (cycle example_flags (steer_input 0.5) w1))) = 10.
Proof.
  intros w i w1.
  destruct (inactive_steer_is_zero example_flags [] i w eq_refl
              (List.Forall_nil _)) as (_ & Z1 & Z2 & _).
  split; [reflexivity |]. split; [vm_compute; reflexivity |].
  split; [exact Z1 |]. split; [exact Z2 |]. vm_compute. reflexivity.
Defined.

Lemma radar_hold_flag_witness :
  let w := example_world 5 in
  let i := idle_input true false in
  has_flag (CP_flags (self w)) (GEN1 example_flags) = true
  /\ has_flag (CP_flags (self w)) (RADAR_INTERCEPTOR example_flags) = true
  /\ returned (fst (cycle example_flags i w)) = true
  /\ forall f la cs h,
       In (AuxiliaryAccelCommand f la cs h) (emitted (fst (cycle example_flags i w))) ->
       h = true.
Proof.
  intros w i.
  assert (Hgen : has_flag (CP_flags (self w)) (GEN1 example_flags) = true)
    by (vm_compute; reflexivity).
  assert (Hradar : has_flag (CP_flags (self w)) (RADAR_INTERCEPTOR example_flags) = true)
    by (vm_compute; reflexivity).
  destruct (fst (cycle example_flags i w)) as [e | [acts can_sends]] eqn:Hret.
  { exfalso. vm_compute in Hret. discriminate Hret. }
  split; [exact Hgen |]. split; [exact Hradar |]. split; [reflexivity |].
  intros f la cs h Hin. cbn [emitted] in Hin.
  destruct (radar_hold_flag example_flags i w Hgen Hradar) as (_ & Hcycle).
  destruct (Hcycle acts can_sends Hret) as (Hall & _).
  rewrite (Hall f la cs h Hin). vm_compute. reflexivity.
Defined.

Lemma stock_accel_written_only_when_blended_witness :
  let w := example_world 5 in
  let i := example_input (example_CC false true false 0 1) (example_CS false false false) ∅ in
  has_flag (CP_flags (self w)) (GEN1 example_flags) = true
  /\ get_bool (in_params i) "BlendedACC" = false
  /\ CS (snd (cycle example_flags i w)) = in_CS i
  /\ snd (cycle example_flags (with_accel 1 i) w) = snd (cycle example_flags (with_accel (-3) i) w)
  /\ emitted (fst (cycle example_flags (with_accel 1 i) w))
     = emitted (fst (cycle example_flags (with_accel (-3) i) w)).
Proof.
  intros w i.
  assert (Hgen : has_flag (CP_flags (self w)) (GEN1 example_flags) = true)
    by (vm_compute; reflexivity).
  assert (Hoff : get_bool (in_params i) "BlendedACC" = false) by (vm_compute; reflexivity).
  destruct (stock_accel_written_only_when_blended example_flags i w Hgen)
    as (_ & Hsame & Hfree).
  split; [exact Hgen |]. split; [exact Hoff |].
  split; [apply Hsame; vm_compute; reflexivity |].
  exact (Hfree Hoff 1%float (-3)%float).
Defined.

(** ** Python arithmetic on examples *)

Example float_of_Z_2000 : float_of_Z 2000 = 2000%float.
Proof. reflexivity. Qed.

Example round_half_even :
  List.map (fun f => PyNum.round (PyFloat f)) [0.5; 1.5; 2.5; -0.5; -1.5; 799.6]%float
  = List.map inr [0; 2; 2; 0; -2; 800].
Proof. vm_compute. reflexivity. Qed.

Example int_truncates :
  List.map (fun f => PyNum.int (PyFloat f)) [0.9; -0.9; 2240.7; -2240.7]%float
  = List.map inr [0; 0; 2240; -2240].
Proof. vm_compute. reflexivity. Qed.

Example int_nan_raises :
  PyNum.int (PyFloat nan) = inl ValueError /\
  PyNum.round (PyFloat infinity) = inl OverflowError.
Proof. vm_compute. auto. Qed.

Example truediv_agrees :
  List.map (fun z => PyNum.truediv (PyInt z) (PyInt 500)) [0; 1; 7; 20; -3]
  = List.map (fun f => inr (PyFloat f)) [0 / 500; 1 / 500; 7 / 500; 20 / 500; -3 / 500]%float.
Proof. vm_compute. reflexivity. Qed.

Example mixed_comparison_is_exact :
  PyNum.lt (PyFloat 9007199254740992) (PyInt 9007199254740993) = true /\
  PyNum.lt (PyInt 1000) (PyFloat nan) = false /\
  PyNum.max (PyInt (-1000)) (PyNum.min (PyFloat 1150) (PyInt 1000)) = PyInt 1000 /\
  PyNum.max (PyInt (-1000)) (PyNum.min (PyFloat nan) (PyInt 1000)) = PyInt (-1000).
Proof. vm_compute. auto. Qed.

(** ** More of the example car *)


Lemma forallb_returned {A} (rs : list (result A)) :
  forallb returned rs = true -> Forall (fun r => returned r = true) rs.
Proof.
  intros H. apply List.Forall_forall. intros r Hr.
  exact (proj1 (forallb_forall _ _) H r Hr).
Qed.

Lemma gen1_bus_schedule_witness :
  let w := example_world 5 in
  let inputs := repeat (idle_input false false) 100 in
  let rs := outcomes example_flags inputs w in
  has_flag (CP_flags (self w)) (GEN1 example_flags) = true
  /\ forallb returned rs = true
  /\ length (frames_of is_steering rs) = 100%nat
  /\ length (frames_of is_alert rs) = 2%nat
  /\ length (frames_of is_radar rs) = 50%nat.
Proof.
  intros w inputs rs.
  assert (Hgen : has_flag (CP_flags (self w)) (GEN1 example_flags) = true)
    by (vm_compute; reflexivity).
  assert (Hret : forallb returned rs = true) by (vm_compute; reflexivity).
  split; [exact Hgen |]. split; [exact Hret |].
  pose proof (gen1_bus_schedule example_flags inputs w Hgen (forallb_returned rs Hret)) as H.
  cbv beta zeta in H. destruct H as (_ & _ & _ & _ & H).
  destruct (H eq_refl) as (S1 & S2 & S3). fold rs in S1, S2, S3.
  split; [apply Nat2Z.inj; exact S1 |].
  split; [apply Nat2Z.inj; exact S2 |].
  apply Nat2Z.inj. apply S3. vm_compute. reflexivity.
Defined.

Lemma gen2_bus_schedule_witness :
  let w := example_world 0 in
  let inputs := repeat (idle_input false false) 100 in
  let rs := outcomes example_flags inputs w in
  has_flag (CP_flags (self w)) (GEN1 example_flags) = false
  /\ forallb returned rs = true
  /\ length (frames_of is_steering rs) = 100%nat
  /\ length (frames_of is_acc rs) = 50%nat
  /\ frames_of is_button rs = [].
Proof.
  intros w inputs rs.
  assert (Hgen : has_flag (CP_flags (self w)) (GEN1 example_flags) = false)
    by (vm_compute; reflexivity).
  assert (Hret : forallb returned rs = true) by (vm_compute; reflexivity).
  split; [exact Hgen |]. split; [exact Hret |].
  pose proof (gen2_bus_schedule example_flags inputs w Hgen (forallb_returned rs Hret)) as H.
  cbv beta zeta in H. destruct H as (_ & _ & B & _ & _ & H).
  destruct (H eq_refl) as (S1 & S2). fold rs in S1, S2, B.
  split; [apply Nat2Z.inj; exact S1 |].
  split; [apply Nat2Z.inj; exact S2 | exact B].
Defined.

Lemma button_frames_witness :
  let w := example_world 1 in
  exists acts can_sends,
    fst (cycle example_flags held_resume_input w) = inr (acts, can_sends)
    /\ In (ButtonCommand (PyInt 0) Buttons.RESUME) can_sends
    /\ (length (List.filter is_button can_sends) <= 1)%nat.
Proof.
  intros w.
  destruct (fst (cycle example_flags held_resume_input w)) as [e | [acts can_sends]] eqn:Hc.
  { exfalso.
    assert (Hr : returned (fst (cycle example_flags held_resume_input w)) = true)
      by (vm_compute; reflexivity).
    rewrite Hc in Hr. discriminate Hr. }
  exists acts, can_sends. split; [reflexivity |].
  destruct (button_frames example_flags held_resume_input w acts can_sends Hc)
    as (Hone & _ & Hresume).
  split; [| exact Hone].
  apply Hresume; reflexivity.
Defined.

Lemma resume_every_fifth_frame_witness :
  let w := example_world 1 in
  let inputs := repeat held_resume_input 100 in
  let rs := outcomes example_flags inputs w in
  has_flag (CP_flags (self w)) (GEN1 example_flags) = true
  /\ forallb resume_held inputs = true
  /\ forallb returned rs = true
  /\ length (frames_of is_resume_button rs) = 20%nat.
Proof.
  intros w inputs rs.
  assert (Hgen : has_flag (CP_flags (self w)) (GEN1 example_flags) = true)
    by (vm_compute; reflexivity).
  assert (Hheld : forallb resume_held inputs = true) by (vm_compute; reflexivity).
  assert (Hret : forallb returned rs = true) by (vm_compute; reflexivity).
  split; [exact Hgen |]. split; [exact Hheld |]. split; [exact Hret |].
  assert (Hheld' : Forall (fun i => resume_held i = true) inputs).
  { apply List.Forall_forall. intros j Hj. exact (proj1 (forallb_forall _ _) Hheld j Hj). }
  pose proof (resume_every_fifth_frame example_flags inputs w Hgen Hheld'
                (forallb_returned rs Hret)) as H.
  cbv beta zeta in H. destruct H as (_ & H & _). exact (H eq_refl).
Defined.

Lemma cancel_debounced_while_braking_witness :
  let w := example_world 1 in
  let inputs := repeat braking_cancel_input 6 in
  0 <= brake_counter (self w)
  /\ forallb (fun i => brakePressed (out (in_CS i))) inputs = true
  /\ brake_counter (self w) + Z.of_nat (length inputs) < 7
  /\ all_cancel_frames example_flags inputs w = [].
Proof.
  intros w inputs.
  assert (H0 : 0 <= brake_counter (self w)) by (vm_compute; discriminate).
  assert (Hb : forallb (fun i => brakePressed (out (in_CS i))) inputs = true)
    by (vm_compute; reflexivity).
  assert (Hn : brake_counter (self w) + Z.of_nat (length inputs) < 7)
    by (vm_compute; reflexivity).
  split; [exact H0 |]. split; [exact Hb |]. split; [exact Hn |].
  apply (cancel_debounced_while_braking example_flags inputs w H0); [| exact Hn].
  apply List.Forall_forall. intros j Hj. exact (proj1 (forallb_forall _ _) Hb j Hj).
Defined.

Lemma alert_frame_flags_witness :
  let w := example_world 1 in
  exists acts can_sends,
    fst (cycle example_flags ldw_input w) = inr (acts, can_sends)
    /\ In (AlertCommand ∅ true false) can_sends
    /\ frame (self w) mod 50 = 0.
Proof.
  intros w.
  destruct (fst (cycle example_flags ldw_input w)) as [e | [acts can_sends]] eqn:Hc.
  { exfalso.
    assert (Hr : returned (fst (cycle example_flags ldw_input w)) = true)
      by (vm_compute; reflexivity).
    rewrite Hc in Hr. discriminate Hr. }
  exists acts, can_sends. split; [reflexivity |].
  assert (Hin : In (AlertCommand ∅ true false) can_sends).
  { assert (Hfirst : nth_error (emitted (fst (cycle example_flags ldw_input w))) 0
                     = Some (AlertCommand ∅ true false)) by (vm_compute; reflexivity).
    rewrite Hc in Hfirst. cbn [emitted] in Hfirst.
    exact (nth_error_In _ _ Hfirst). }
  split; [exact Hin |].
  destruct (alert_frame_flags example_flags ldw_input w acts can_sends Hc _ _ _ Hin)
    as (_ & Hslot & _).
  exact Hslot.
Defined.


Lemma plain_accel_reaches_the_bus_witness :
  let w := example_world 0 in
  let i := long_input {[ "ExperimentalLongitudinalEnabled" := true ]} in
  exists acts can_sends,
    has_flag (CP_flags (self w)) (GEN1 example_flags) = false
    /\ get_bool (in_params i) "BlendedACC" = false
    /\ fst (cycle example_flags i w) = inr (acts, can_sends)
    /\ acc (CS (snd (cycle example_flags i w))) !! "ACCEL_CMD" = Some (PyFloat 2240).
Proof.
  intros w i.
  assert (Hgen : has_flag (CP_flags (self w)) (GEN1 example_flags) = false)
    by (vm_compute; reflexivity).
  assert (Hblend : get_bool (in_params i) "BlendedACC" = false) by reflexivity.
  destruct (fst (cycle example_flags i w)) as [e | [acts can_sends]] eqn:Hc.
  { exfalso.
    assert (Hr : returned (fst (cycle example_flags i w)) = true)
      by (vm_compute; reflexivity).
    rewrite Hc in Hr. discriminate Hr. }
  exists acts, can_sends. split; [exact Hgen |]. split; [exact Hblend |].
  split; [reflexivity |].
  destruct (plain_accel_reaches_the_bus example_flags i w acts can_sends Hgen Hblend Hc)
    as (Hacc & _).
  rewrite Hacc. reflexivity.
Defined.

Lemma stock_command_passes_through_witness :
  let w := example_world 0 in
  let i := long_input {[ "BlendedACC" := true; "ExperimentalLongitudinalEnabled" := true ]} in
  exists acts can_sends,
    has_flag (CP_flags (self w)) (GEN1 example_flags) = false
    /\ get_bool (in_params i) "BlendedACC" = true
    /\ CEStatus (enter i w) = 0
    /\ CEFramesCounter (enter i w) = 0
    /\ fst (cycle example_flags i w) = inr (acts, can_sends)
    /\ acc (CS (snd (cycle example_flags i w))) = acc (in_CS i)
    /\ filtered_acc_last (self (snd (cycle example_flags i w))) = PyFloat 2000.
Proof.
  intros w i.
  assert (Hgen : has_flag (CP_flags (self w)) (GEN1 example_flags) = false)
    by (vm_compute; reflexivity).
  assert (Hblend : get_bool (in_params i) "BlendedACC" = true) by reflexivity.
  assert (Hstatus : CEStatus (enter i w) = 0) by reflexivity.
  assert (Hcount : CEFramesCounter (enter i w) = 0) by reflexivity.
  destruct (fst (cycle example_flags i w)) as [e | [acts can_sends]] eqn:Hc.
  { exfalso.
    assert (Hr : returned (fst (cycle example_flags i w)) = true)
      by (vm_compute; reflexivity).
    rewrite Hc in Hr. discriminate Hr. }
  exists acts, can_sends.
  destruct (stock_command_passes_through example_flags i w acts can_sends
              Hgen Hblend Hstatus Hcount Hc) as (Hacc & _ & Hlast & _).
  split; [exact Hgen |]. split; [exact Hblend |]. split; [exact Hstatus |].
  split; [exact Hcount |]. split; [reflexivity |]. split; [exact Hacc |].
  assert (Hv : acc (in_CS i) !! "ACCEL_CMD" = Some (PyFloat 2000)) by reflexivity.
  congruence.
Defined.

Lemma transition_counter_converges_witness :
  let w := snd (cycle example_flags blend_input (example_world 0)) in
  let inputs := repeat (long_input {[ "BlendedACC" := true ]}) 25 in
  has_flag (CP_flags (self w)) (GEN1 example_flags) = false
  /\ forallb blended_undisturbed inputs = true
  /\ forallb returned (outcomes example_flags inputs w) = true
  /\ CEStatus w <> 0
  /\ CEFramesCounter w = 1
  /\ CEFramesCounter (run example_flags inputs w) = 20.
Proof.
  intros w inputs.
  assert (Hgen : has_flag (CP_flags (self w)) (GEN1 example_flags) = false)
    by (vm_compute; reflexivity).
  assert (Hin : forallb blended_undisturbed inputs = true) by (vm_compute; reflexivity).
  assert (Hret : forallb returned (outcomes example_flags inputs w) = true)
    by (vm_compute; reflexivity).
  assert (Hon : CEStatus w <> 0) by (vm_compute; discriminate).
  assert (Hc : CEFramesCounter w = 1) by (vm_compute; reflexivity).
  split; [exact Hgen |]. split; [exact Hin |]. split; [exact Hret |].
  split; [exact Hon |]. split; [exact Hc |].
  assert (Hin' : Forall (fun j => blended_undisturbed j = true) inputs).
  { apply List.Forall_forall. intros j Hj. exact (proj1 (forallb_forall _ _) Hin j Hj). }
  pose proof (transition_counter_converges example_flags inputs w Hgen Hin'
                (forallb_returned _ Hret)) as H.
  cbv beta zeta in H. destruct H as (Hup & _).
  rewrite Hup; [rewrite Hc; reflexivity | exact Hon | rewrite Hc; discriminate].
Defined.

Lemma gen2_reads_resume_signal_witness :
  let w := example_world 0 in
  has_flag (CP_flags (self w)) (GEN1 example_flags) = false
  /\ latActive (in_CC silent_input) = false
  /\ fst (cycle example_flags silent_input w) = inl (KeyError "RESUME")
  /\ frame (self (snd (cycle example_flags silent_input w))) = 0
  /\ returned (fst (cycle example_flags (idle_input false false) w)) = true.
Proof.
  intros w.
  assert (Hgen : has_flag (CP_flags (self w)) (GEN1 example_flags) = false)
    by (vm_compute; reflexivity).
  split; [exact Hgen |]. split; [reflexivity |].
  destruct (gen2_reads_resume_signal example_flags silent_input w Hgen eq_refl)
    as (Hmissing & _).
  destruct (gen2_reads_resume_signal example_flags (idle_input false false) w Hgen eq_refl)
    as (_ & Hreturns).
  rewrite (Hmissing eq_refl eq_refl).
  split; [reflexivity |]. split; [reflexivity |].
  apply Hreturns; [right; eexists; reflexivity | reflexivity | vm_compute; discriminate].
Defined.

Lemma radar_filter_input_clipped_witness :
  let w := enter blend_input (example_world 5) in
  let CC := in_CC blend_input in
  longActive CC = true
  /\ get_bool (params w) "BlendedACC" = true
  /\ CEStatus w <> 0
  /\ clipped_accel (accel (actuators CC)) = PyInt 1000
  /\ returned (fst (gen1_radar_accel CC w)) = true
  /\ exists n,
       crz_info (CS (snd (gen1_radar_accel CC w))) !! "ACCEL_CMD" = Some (PyInt n)
       /\ filtered_acc_last (self (snd (gen1_radar_accel CC w))) = PyInt n.
Proof.
  intros w CC.
  assert (Hlong : longActive CC = true) by reflexivity.
  assert (Hblend : get_bool (params w) "BlendedACC" = true) by reflexivity.
  assert (Hon : CEStatus w <> 0) by (vm_compute; discriminate).
  assert (Hret : returned (fst (gen1_radar_accel CC w)) = true) by (vm_compute; reflexivity).
  split; [exact Hlong |]. split; [exact Hblend |]. split; [exact Hon |].
  split; [vm_compute; reflexivity |]. split; [exact Hret |].
  pose proof (radar_filter_input_clipped CC w Hlong Hblend Hon) as H.
  cbv beta zeta in H. destruct H as (_ & _ & _ & H).
  destruct (H Hret) as (a & f1 & f2 & y & n & _ & _ & _ & _ & ->).
  exists n. split; [| reflexivity].
  cbn [accel_writes with_params_memory with_CS with_self CS set_crz_info crz_info].
  apply lookup_insert_eq.
Defined.

Lemma radar_needs_stock_command_witness :
  let w := example_world 5 in
  has_flag (CP_flags (self w)) (GEN1 example_flags) = true
  /\ has_flag (CP_flags (self w)) (RADAR_INTERCEPTOR example_flags) = true
  /\ crz_info (in_CS silent_input) !! "ACCEL_CMD" = None
  /\ fst (cycle example_flags silent_input w) = inl (KeyError "ACCEL_CMD")
  /\ frame (self (snd (cycle example_flags silent_input w))) = 0.
Proof.
  intros w.
  assert (Hgen : has_flag (CP_flags (self w)) (GEN1 example_flags) = true)
    by (vm_compute; reflexivity).
  assert (Hradar : has_flag (CP_flags (self w)) (RADAR_INTERCEPTOR example_flags) = true)
    by (vm_compute; reflexivity).
  split; [exact Hgen |]. split; [exact Hradar |]. split; [reflexivity |].
  pose proof (radar_needs_stock_command example_flags silent_input w Hgen Hradar
                eq_refl eq_refl eq_refl eq_refl eq_refl) as H.
  cbv beta zeta in H. destruct H as (Hraise & Hframe & _).
  split; [exact Hraise | exact Hframe].
Defined.

(** * Properties of the car interface *)

Section InterfaceProperties.

Import Interface.

Context {CAR : Type} `{EqDecision CAR}.
Variable MazdaFlags : MazdaFlagsT.
Variable Options : MazdaOptionFlags.
Variable Panda : PandaFlags.
Variable V : CARS.t CAR.
Variable safety_param : Z.
Variable configure_torque_tune : CAR -> struct -> struct.

Lemma land_lor_same (a b : Z) : Z.land (Z.lor a b) b = b.
Proof.
  apply Z.bits_inj'. intros n Hn.
  rewrite Z.land_spec, Z.lor_spec. destruct (Z.testbit a n), (Z.testbit b n); reflexivity.
Qed.

Lemma land_lor_keeps (a b m : Z) : Z.land a m = m -> Z.land (Z.lor a b) m = m.
Proof.
  intros H. apply Z.bits_inj'. intros n Hn.
  apply (f_equal (fun x => Z.testbit x n)) in H.
  rewrite Z.land_spec in *. rewrite Z.lor_spec.
  destruct (Z.testbit a n), (Z.testbit b n), (Z.testbit m n); cbn in *; congruence.
Qed.

Lemma get_Z_insert_ne (ret : struct) k k' v :
  k <> k' -> get_Z (<[k' := v]> ret) k = get_Z ret k.
Proof. intros Hk. unfold get_Z, get_num. rewrite lookup_insert_ne by congruence. reflexivity. Qed.

Lemma get_Z_or_into (ret : struct) k mask :
  get_Z (or_into k mask ret) k = Z.lor (get_Z ret k) mask.
Proof. unfold or_into, get_Z at 1, get_num. rewrite lookup_insert_eq. reflexivity. Qed.

Lemma get_Z_or_into_ne (ret : struct) k k' mask :
  k <> k' -> get_Z (or_into k' mask ret) k = get_Z ret k.
Proof. intros Hk. unfold or_into. apply get_Z_insert_ne. exact Hk. Qed.

Lemma carries_lor_same a b : carries (Z.lor a b) b.
Proof. apply land_lor_same. Qed.

Lemma carries_lor_keeps a b m : carries a m -> carries (Z.lor a b) m.
Proof. apply land_lor_keeps. Qed.

Lemma carries_self a : carries a a.
Proof. unfold carries. apply Z.land_diag. Qed.

Ltac push_get :=
  repeat first
    [ rewrite get_Z_or_into
    | rewrite get_Z_or_into_ne by discriminate
    | rewrite get_Z_insert_ne by discriminate ].

Lemma gen1_options_flags (p : gmap string bool) (ret : struct) :
  let ret' := fst (gen1_options MazdaFlags Options Panda p ret) in
  get_Z ret' "flags"
  = opt p "NoFSC" (NO_FSC Options)
      (opt p "NoMRCC" (NO_MRCC Options)
         (opt p "RadarInterceptorEnabled" (RADAR_INTERCEPTOR MazdaFlags)
            (opt p "TorqueInterceptorEnabled" (TORQUE_INTERCEPTOR MazdaFlags)
               (get_Z ret "flags"))))
  /\ get_Z ret' safetyParam
     = opt p "NoFSC" (FLAG_MAZDA_NO_FSC Panda)
         (opt p "NoMRCC" (FLAG_MAZDA_NO_MRCC Panda)
            (opt p "RadarInterceptorEnabled" (FLAG_MAZDA_RADAR_INTERCEPTOR Panda)
               (opt p "TorqueInterceptorEnabled" (FLAG_MAZDA_TORQUE_INTERCEPTOR Panda)
                  (get_Z ret safetyParam)))).
Proof.
  unfold gen1_options, opt, safetyParam. cbv zeta.
  destruct (get_bool p "TorqueInterceptorEnabled");
    destruct (get_bool p "RadarInterceptorEnabled");
    destruct (get_bool p "NoMRCC"); destruct (get_bool p "NoFSC");
    cbn [fst]; split; push_get; reflexivity.
Qed.

Lemma gen2_tuning_flags (p : gmap string bool) (ret : struct) :
  get_Z (gen2_tuning Panda p ret) "flags" = get_Z ret "flags"
  /\ get_Z (gen2_tuning Panda p ret) safetyParam
     = Z.lor (get_Z ret safetyParam) (FLAG_MAZDA_GEN2 Panda).
Proof.
  unfold gen2_tuning, safetyParam. cbv zeta.
  destruct (get_bool p "CSLCEnabled"); split; push_get; reflexivity.
Qed.

(** The flags and the safety parameter as [_get_params] leaves them. *)
Lemma get_params_flags (ret ret' : struct) (candidate : CAR) (p : gmap string bool) stdout :
  _get_params MazdaFlags Options Panda V safety_param configure_torque_tune ret candidate p
  = inr (ret', stdout) ->
  get_Z ret' "flags"
  = (if bool_decide (candidate ∈ CARS.GEN1 V) then
       opt p "NoFSC" (NO_FSC Options)
         (opt p "NoMRCC" (NO_MRCC Options)
            (opt p "RadarInterceptorEnabled" (RADAR_INTERCEPTOR MazdaFlags)
               (opt p "TorqueInterceptorEnabled" (TORQUE_INTERCEPTOR MazdaFlags)
                  (get_Z ret "flags"))))
     else get_Z ret "flags")
  /\ get_Z ret' safetyParam
     = (let sp :=
          if bool_decide (candidate ∈ CARS.GEN1 V) then
            opt p "NoFSC" (FLAG_MAZDA_NO_FSC Panda)
              (opt p "NoMRCC" (FLAG_MAZDA_NO_MRCC Panda)
                 (opt p "RadarInterceptorEnabled" (FLAG_MAZDA_RADAR_INTERCEPTOR Panda)
                    (opt p "TorqueInterceptorEnabled" (FLAG_MAZDA_TORQUE_INTERCEPTOR Panda)
                       (Z.lor safety_param (FLAG_MAZDA_GEN1 Panda)))))
          else safety_param in
        if bool_decide (candidate ∈ CARS.GEN2 V)
        then Z.lor sp (FLAG_MAZDA_GEN2 Panda) else sp).
Proof.
  unfold _get_params. cbv zeta.
  set (ret0 := <["openpilotLongitudinalControl" := _]> _).
  assert (H0 : get_Z ret0 "flags" = get_Z ret "flags"
               /\ get_Z ret0 safetyParam = safety_param).
  { subst ret0. unfold safetyParam. split; push_get; [reflexivity |].
    unfold get_Z, get_num. rewrite lookup_insert_eq. reflexivity. }
  destruct H0 as [F0 S0].
  set (stage1 := if bool_decide (candidate ∈ CARS.GEN1 V) then _ else (ret0, [])).
  assert (H1 : get_Z (fst stage1) "flags"
               = (if bool_decide (candidate ∈ CARS.GEN1 V) then
                    opt p "NoFSC" (NO_FSC Options)
                      (opt p "NoMRCC" (NO_MRCC Options)
                         (opt p "RadarInterceptorEnabled" (RADAR_INTERCEPTOR MazdaFlags)
                            (opt p "TorqueInterceptorEnabled" (TORQUE_INTERCEPTOR MazdaFlags)
                               (get_Z ret "flags"))))
                  else get_Z ret "flags")
               /\ get_Z (fst stage1) safetyParam
                  = (if bool_decide (candidate ∈ CARS.GEN1 V) then
                       opt p "NoFSC" (FLAG_MAZDA_NO_FSC Panda)
                         (opt p "NoMRCC" (FLAG_MAZDA_NO_MRCC Panda)
                            (opt p "RadarInterceptorEnabled" (FLAG_MAZDA_RADAR_INTERCEPTOR Panda)
                               (opt p "TorqueInterceptorEnabled"
                                  (FLAG_MAZDA_TORQUE_INTERCEPTOR Panda)
                                  (Z.lor safety_param (FLAG_MAZDA_GEN1 Panda)))))
                     else safety_param)).
  { subst stage1. destruct (bool_decide (candidate ∈ CARS.GEN1 V)); [| auto].
    destruct (gen1_options_flags p (or_into safetyParam (FLAG_MAZDA_GEN1 Panda) ret0))
      as [-> ->].
    rewrite get_Z_or_into, get_Z_or_into_ne by discriminate. rewrite F0, S0. auto. }
  destruct stage1 as [ret1 out1]. cbn [fst] in H1. destruct H1 as [F1 S1].
  set (ret2 := if bool_decide (candidate ∈ CARS.GEN2 V) then _ else ret1).
  assert (H2 : get_Z ret2 "flags" = get_Z ret1 "flags"
               /\ get_Z ret2 safetyParam
                  = (if bool_decide (candidate ∈ CARS.GEN2 V)
                     then Z.lor (get_Z ret1 safetyParam) (FLAG_MAZDA_GEN2 Panda)
                     else get_Z ret1 safetyParam)).
  { subst ret2. destruct (bool_decide (candidate ∈ CARS.GEN2 V)); [| auto].
    apply gen2_tuning_flags. }
  destruct H2 as [F2 S2]. rewrite F1 in F2. rewrite S1 in S2.
  set (ret3 := <["lateralTuning" := _]> _).
  assert (H3 : get_Z ret3 "flags" = get_Z ret2 "flags"
               /\ get_Z ret3 safetyParam = get_Z ret2 safetyParam).
  { subst ret3. unfold safetyParam. split; push_get; reflexivity. }
  destruct H3 as [F3 S3]. rewrite F2 in F3. rewrite S2 in S3.
  clearbody ret3. clear F2 S2 F1 S1 F0 S0 ret2 ret0.
  destruct (_ && _).
  - destruct (PyNum.mul (CARS.DISABLE_SPEED V) _) as [e | v]; [discriminate |].
    cbn [result_bind]. destruct (PyNum.mul _ _) as [e | c]; [discriminate |].
    cbn [result_bind]. intros [= <- _]. unfold safetyParam in *.
    split; push_get; assumption.
  - cbn [result_bind]. destruct (PyNum.mul _ _) as [e | c]; [discriminate |].
    cbn [result_bind]. intros [= <- _]. unfold safetyParam in *.
    split; push_get; assumption.
Qed.

(** X17. [_get_params] only adds bits to the flags, and sets each hardware
    option in the flags and in the safety parameter together. For a platform
    of GEN1 the safety parameter carries the GEN1 flag and, for each of the
    four toggles that is on, the flags carry the option's bit and the safety
    parameter the matching Panda flag; for a platform of GEN2 the safety
    parameter carries the GEN2 flag; for a platform outside GEN1 the flags
    are left as they were. *)
Theorem option_bits_are_mirrored (ret ret' : struct) (candidate : CAR)
    (p : gmap string bool) stdout :
  _get_params MazdaFlags Options Panda V safety_param configure_torque_tune ret candidate p
  = inr (ret', stdout) ->
  let flags := get_Z ret' "flags" in
  let sp := get_Z ret' safetyParam in
  let mirrored (key : string) (bit panda_bit : Z) :=
    get_bool p key = true -> carries flags bit /\ carries sp panda_bit in
  (forall m, carries (get_Z ret "flags") m -> carries flags m)
  /\ (candidate ∉ CARS.GEN1 V -> flags = get_Z ret "flags")
  /\ (candidate ∈ CARS.GEN1 V ->
      carries sp (FLAG_MAZDA_GEN1 Panda)
      /\ mirrored "TorqueInterceptorEnabled" (TORQUE_INTERCEPTOR MazdaFlags)
           (FLAG_MAZDA_TORQUE_INTERCEPTOR Panda)
      /\ mirrored "RadarInterceptorEnabled" (RADAR_INTERCEPTOR MazdaFlags)
           (FLAG_MAZDA_RADAR_INTERCEPTOR Panda)
      /\ mirrored "NoMRCC" (NO_MRCC Options) (FLAG_MAZDA_NO_MRCC Panda)
      /\ mirrored "NoFSC" (NO_FSC Options) (FLAG_MAZDA_NO_FSC Panda))
  /\ (candidate ∈ CARS.GEN2 V -> carries sp (FLAG_MAZDA_GEN2 Panda)).
Proof.
  intros Hret. cbv zeta.
  destruct (get_params_flags ret ret' candidate p stdout Hret) as [-> ->]. cbv zeta.
  assert (Hopt : forall key mask x m, carries x m -> carries (opt p key mask x) m).
  { intros key mask x m Hx. unfold opt. destruct (get_bool p key); [| exact Hx].
    apply carries_lor_keeps. exact Hx. }
  assert (Hset : forall key mask x, get_bool p key = true -> carries (opt p key mask x) mask).
  { intros key mask x Hkey. unfold opt. rewrite Hkey. apply carries_lor_same. }
  split; [| split; [| split]].
  - intros m Hm. destruct (bool_decide _); [| exact Hm]. auto.
  - intros Hout. rewrite bool_decide_eq_false_2 by exact Hout. reflexivity.
  - intros Hin. rewrite (bool_decide_eq_true_2 _ Hin).
    assert (Hgen2 : forall x m, carries x m ->
              carries (if bool_decide (candidate ∈ CARS.GEN2 V)
                       then Z.lor x (FLAG_MAZDA_GEN2 Panda) else x) m).
    { intros x m Hx. destruct (bool_decide _); [apply carries_lor_keeps |]; exact Hx. }
    split; [apply Hgen2; do 4 apply Hopt; apply carries_lor_same |].
    split; [intros Hkey; split; [| apply Hgen2]; do 3 apply Hopt; apply Hset; exact Hkey |].
    split; [intros Hkey; split; [| apply Hgen2]; do 2 apply Hopt; apply Hset; exact Hkey |].
    split; [intros Hkey; split; [| apply Hgen2]; apply Hopt; apply Hset; exact Hkey |].
    intros Hkey; split; [| apply Hgen2]; apply Hset; exact Hkey.
  - intros Hin. rewrite (bool_decide_eq_true_2 _ Hin). apply carries_lor_same.
Qed.

Lemma gen1_options_min_speed (p : gmap string bool) (ret : struct) :
  fst (gen1_options MazdaFlags Options Panda p ret) !! "minSteerSpeed"
  = ret !! "minSteerSpeed".
Proof.
  unfold gen1_options, or_into, safetyParam. cbv zeta.
  destruct (get_bool p "TorqueInterceptorEnabled");
    destruct (get_bool p "RadarInterceptorEnabled");
    destruct (get_bool p "NoMRCC"); destruct (get_bool p "NoFSC");
    cbn [fst]; rewrite !lookup_insert_ne by discriminate; reflexivity.
Qed.

Lemma gen2_tuning_min_speed (p : gmap string bool) (ret : struct) :
  gen2_tuning Panda p ret !! "minSteerSpeed" = ret !! "minSteerSpeed".
Proof.
  unfold gen2_tuning, or_into, safetyParam. cbv zeta.
  destruct (get_bool p "CSLCEnabled");
    rewrite !lookup_insert_ne by discriminate; reflexivity.
Qed.

(** The attributes the last lines assign keep the flags. *)
Lemma get_params_min_speed (ret ret' : struct) (candidate : CAR) (p : gmap string bool) stdout :
  _get_params MazdaFlags Options Panda V safety_param configure_torque_tune ret candidate p
  = inr (ret', stdout) ->
  ret' !! "minSteerSpeed"
  = if bool_decide (candidate ∉ [CARS.MAZDA_CX5_2022 V; CARS.MAZDA_3_2019 V;
                               CARS.MAZDA_CX_30 V; CARS.MAZDA_CX_50 V])
       && negb (has_flag (get_Z ret' "flags") (TORQUE_INTERCEPTOR MazdaFlags))
    then match PyNum.mul (CARS.DISABLE_SPEED V) (PyFloat (CARS.KPH_TO_MS V)) with
         | inr v => Some (ANum v)
         | inl _ => None
         end
    else ret !! "minSteerSpeed".
Proof.
  unfold _get_params. cbv zeta.
  set (ret0 := <["openpilotLongitudinalControl" := _]> _).
  assert (H0 : ret0 !! "minSteerSpeed" = ret !! "minSteerSpeed").
  { subst ret0. unfold safetyParam. rewrite !lookup_insert_ne by discriminate. reflexivity. }
  set (stage1 := if bool_decide (candidate ∈ CARS.GEN1 V) then _ else (ret0, [])).
  assert (H1 : fst stage1 !! "minSteerSpeed" = ret !! "minSteerSpeed").
  { subst stage1. destruct (bool_decide (candidate ∈ CARS.GEN1 V)); [| exact H0].
    rewrite gen1_options_min_speed. unfold or_into, safetyParam.
    rewrite lookup_insert_ne by discriminate. exact H0. }
  destruct stage1 as [ret1 out1]. cbn [fst] in H1.
  set (ret2 := if bool_decide (candidate ∈ CARS.GEN2 V) then _ else ret1).
  assert (H2 : ret2 !! "minSteerSpeed" = ret !! "minSteerSpeed").
  { subst ret2. destruct (bool_decide (candidate ∈ CARS.GEN2 V)); [| exact H1].
    rewrite gen2_tuning_min_speed. exact H1. }
  set (ret3 := <["lateralTuning" := _]> _).
  assert (H3 : ret3 !! "minSteerSpeed" = ret !! "minSteerSpeed").
  { subst ret3. rewrite !lookup_insert_ne by discriminate. exact H2. }
  clearbody ret3. clear H2 H1 H0 ret2 ret0.
  destruct (_ && _) eqn:Hcond.
  - destruct (PyNum.mul (CARS.DISABLE_SPEED V) _) as [e | v]; [discriminate |].
    cbn [result_bind]. destruct (PyNum.mul _ _) as [e | c]; [discriminate |].
    cbn [result_bind]. intros [= <- _].
    rewrite !get_Z_insert_ne by discriminate. rewrite Hcond.
    rewrite lookup_insert_ne by discriminate. apply lookup_insert_eq.
  - cbn [result_bind]. destruct (PyNum.mul _ _) as [e | c]; [discriminate |].
    cbn [result_bind]. intros [= <- _].
    rewrite !get_Z_insert_ne by discriminate. rewrite Hcond.
    rewrite lookup_insert_ne by discriminate. exact H3.
Qed.

(** X24. The minimum steering speed. [_get_params] assigns it, as
    [DISABLE_SPEED * KPH_TO_MS], exactly for a platform that is none of the
    four named ones and whose flags, after the hardware options, do not
    carry the torque-interceptor bit; otherwise the attribute is left as it
    was. In particular a GEN1 platform with the torque interceptor installed
    is never given a minimum steering speed. *)
Theorem min_steer_speed_rule (ret ret' : struct) (candidate : CAR)
    (p : gmap string bool) stdout :
  _get_params MazdaFlags Options Panda V safety_param configure_torque_tune ret candidate p
  = inr (ret', stdout) ->
  let named :=
    [CARS.MAZDA_CX5_2022 V; CARS.MAZDA_3_2019 V; CARS.MAZDA_CX_30 V; CARS.MAZDA_CX_50 V] in
  let intercepted := has_flag (get_Z ret' "flags") (TORQUE_INTERCEPTOR MazdaFlags) in
  (candidate ∉ named -> intercepted = false ->
   exists v, PyNum.mul (CARS.DISABLE_SPEED V) (PyFloat (CARS.KPH_TO_MS V)) = inr v
             /\ ret' !! "minSteerSpeed" = Some (ANum v))
  /\ (candidate ∈ named \/ intercepted = true ->
      ret' !! "minSteerSpeed" = ret !! "minSteerSpeed")
  /\ (candidate ∈ CARS.GEN1 V -> get_bool p "TorqueInterceptorEnabled" = true ->
      TORQUE_INTERCEPTOR MazdaFlags <> 0 ->
      intercepted = true /\ ret' !! "minSteerSpeed" = ret !! "minSteerSpeed").
Proof.
  intros Hret. cbv zeta.
  pose proof (get_params_min_speed ret ret' candidate p stdout Hret) as Hmin.
  assert (Hreturns : bool_decide (candidate ∉ [CARS.MAZDA_CX5_2022 V; CARS.MAZDA_3_2019 V;
                                              CARS.MAZDA_CX_30 V; CARS.MAZDA_CX_50 V])
                     && negb (has_flag (get_Z ret' "flags") (TORQUE_INTERCEPTOR MazdaFlags))
                     = true ->
                     exists v, PyNum.mul (CARS.DISABLE_SPEED V) (PyFloat (CARS.KPH_TO_MS V))
                               = inr v).
  { intros Hcond. revert Hret. unfold _get_params. cbv zeta.
    destruct (if bool_decide (candidate ∈ CARS.GEN1 V) then _ else _) as [ret1 out1].
    set (ret3 := <["lateralTuning" := _]> _).
    pose proof (get_params_flags ret ret' candidate p stdout) as Hflags.
    destruct (bool_decide (candidate ∉ _) && negb (has_flag (get_Z ret3 "flags") _)) eqn:Hc3.
    - destruct (PyNum.mul (CARS.DISABLE_SPEED V) _) as [e | v];
        [cbn [result_bind]; intros Hx; discriminate Hx | eauto].
    - cbn [result_bind].
      destruct (PyNum.mul (get_num ret3 "wheelbase") _) as [e | c]; [discriminate |].
      cbn [result_bind]. intros [= <- _].
      rewrite get_Z_insert_ne in Hcond by discriminate. congruence. }
  split; [| split].
  - intros Hout Hno. rewrite (bool_decide_eq_true_2 _ Hout), Hno in Hmin, Hreturns.
    cbn [andb negb] in Hmin, Hreturns.
    destruct (Hreturns eq_refl) as [v Hv]. rewrite Hv in Hmin. eauto.
  - intros [Hin | Hyes].
    + rewrite bool_decide_eq_false_2 in Hmin by (intros Hn; exact (Hn Hin)). exact Hmin.
    + rewrite Hyes, andb_false_r in Hmin. exact Hmin.
  - intros Hin Hkey Hbit.
    assert (Hyes : has_flag (get_Z ret' "flags") (TORQUE_INTERCEPTOR MazdaFlags) = true).
    { destruct (get_params_flags ret ret' candidate p stdout Hret) as [Hf _].
      rewrite (bool_decide_eq_true_2 _ Hin) in Hf.
      assert (Hc : carries (get_Z ret' "flags") (TORQUE_INTERCEPTOR MazdaFlags)).
      { rewrite Hf. unfold opt at 1 2 3.
        destruct (get_bool p "NoFSC"), (get_bool p "NoMRCC"),
          (get_bool p "RadarInterceptorEnabled");
          repeat apply carries_lor_keeps; unfold opt; rewrite Hkey; apply carries_lor_same. }
      unfold has_flag. rewrite Hc. apply negb_true_iff, Z.eqb_neq. exact Hbit. }
    split; [exact Hyes |]. rewrite Hyes, andb_false_r in Hmin. exact Hmin.
Qed.

Context {F : Type} {FOF : FirstOrderFilter F}.

(** X18. A controller built from the parameters of a platform outside GEN1
    never commands the torque interceptor: if the flags handed to
    [_get_params] do not carry the torque-interceptor bit, neither do the
    flags it returns, and over any sequence of cycles of the controller
    constructed with them the auxiliary applied torque stays 0. *)
Theorem no_auxiliary_torque_outside_gen1 (ret ret' : struct) (candidate : CAR)
    (p : gmap string bool) stdout (P : CarControllerParams) (cs : CarState)
    (toggles : gmap string bool) (memory : gmap string Z) (inputs : list CycleInput) :
  candidate ∉ CARS.GEN1 V ->
  has_flag (get_Z ret "flags") (TORQUE_INTERCEPTOR MazdaFlags) = false ->
  _get_params MazdaFlags Options Panda V safety_param configure_torque_tune ret candidate p
  = inr (ret', stdout) ->
  let w : World F := init_world (get_Z ret' "flags") P cs toggles memory in
  has_flag (get_Z ret' "flags") (TORQUE_INTERCEPTOR MazdaFlags) = false
  /\ ti_apply_steer_last (self (run MazdaFlags inputs w)) = 0.
Proof.
  intros Hout Hflag Hret. cbv zeta.
  destruct (get_params_flags ret ret' candidate p stdout Hret) as [Hf _].
  rewrite bool_decide_eq_false_2 in Hf by exact Hout.
  rewrite Hf. split; [exact Hflag |].
  apply run_no_auxiliary_torque; [exact Hflag | reflexivity].
Qed.

Context {ButtonEvent Events Msg Ret FpRet : Type}.
Variable button_value : Buttons.t -> Z.
Variable create_button_events : Z -> Z -> list (Z * ButtonType) -> list ButtonEvent.
Variable create_common_events : Ret -> Events.
Variable events_add : EventName -> Events -> Events.
Variable to_msg : Events -> Msg.
Variable set_buttonEvents : list ButtonEvent -> Ret -> Ret.
Variable set_events : Msg -> Ret -> Ret.

Local Abbreviation added := (added_events MazdaFlags).

(** X19. The events [_update] adds to the common ones. They are added in
    the order lane keeping, steering, resume; at most one of [lkasDisabled]
    and [belowSteerSpeed] is among them, and only on a GEN1 car, like
    [steerTempUnavailable], which is added exactly when neither the stock
    cruise was active nor the torque interceptor allows steering;
    [resumeRequired] is added exactly when the coasting flag of the
    shared-memory store is not zero. That flag is set to 0 by the
    constructor of the controller and never written by [update]: while no
    other process writes it, [resumeRequired] is not added. *)
Theorem update_events (flags : Z) (cs : CarStateView) (memory : gmap string Z)
    (ret : Ret) (fp_ret : FpRet) :
  let ret1 :=
    set_buttonEvents
      (create_button_events (cruise_buttons cs) (prev_cruise_buttons cs)
         (BUTTONS_DICT button_value)
       ++ create_button_events (distance_button cs) (prev_distance_button cs)
            [(1, gapAdjustCruise)]
       ++ create_button_events (Z.b2z (lkas_enabled cs))
            (Z.b2z (lkas_previously_enabled cs)) [(1, lkas)]) ret in
  _update MazdaFlags button_value create_button_events create_common_events events_add
    to_msg set_buttonEvents set_events flags cs memory ret fp_ret
  = (set_events
       (to_msg (fold_left (fun events name => events_add name events)
                  (added flags cs memory) (create_common_events ret1))) ret1,
     fp_ret)
  /\ ~ (In lkasDisabled (added flags cs memory)
        /\ In belowSteerSpeed (added flags cs memory))
  /\ (forall name, In name (added flags cs memory) -> name <> resumeRequired ->
      has_flag flags (GEN1 MazdaFlags) = true)
  /\ (In steerTempUnavailable (added flags cs memory) <->
      has_flag flags (GEN1 MazdaFlags) = true
      /\ acc_active_last cs = false /\ Interface.ti_lkas_allowed cs = false)
  /\ (In resumeRequired (added flags cs memory) <-> get_int memory "Coasting" <> 0)
  /\ (forall controller_flags P car_state toggles memory0 inputs,
        Forall (fun i => writes_key "Coasting" i = false) inputs ->
        let w : World F := init_world controller_flags P car_state toggles memory0 in
        ~ In resumeRequired
            (added flags cs (params_memory (run MazdaFlags inputs w)))).
Proof.
  cbv zeta.
  assert (Hresume : forall m, In resumeRequired (added flags cs m) <-> get_int m "Coasting" <> 0).
  { intros m. unfold added_events. rewrite in_app_iff.
    destruct (Z.eqb_spec (get_int m "Coasting") 0) as [E | E]; cbn [negb].
    - split; [| intros Hne; contradiction].
      intros [Hin | []]. exfalso. revert Hin.
      destruct (has_flag flags (GEN1 MazdaFlags)); [| intros []].
      rewrite in_app_iff.
      destruct (lkas_disabled cs), (low_speed_alert cs), (negb _ && negb _);
        cbn [In]; intros Hin; decompose [or] Hin; try discriminate; assumption.
    - split; [intros _; exact E | intros _; right; left; reflexivity]. }
  split; [| split; [| split; [| split; [| split]]]].
  - unfold _update, added_events.
    destruct (has_flag flags (GEN1 MazdaFlags)), (lkas_disabled cs), (low_speed_alert cs),
      (negb (acc_active_last cs) && negb (Interface.ti_lkas_allowed cs)),
      (negb (get_int memory "Coasting" =? 0)); reflexivity.
  - unfold added_events. rewrite !in_app_iff.
    destruct (has_flag flags (GEN1 MazdaFlags)), (lkas_disabled cs), (low_speed_alert cs),
      (negb (acc_active_last cs) && negb (Interface.ti_lkas_allowed cs)),
      (negb (get_int memory "Coasting" =? 0)); cbn [In app];
      intros [H1 H2]; decompose [or] H1; decompose [or] H2; try discriminate; assumption.
  - intros name Hin Hne. unfold added_events in Hin. revert Hin. rewrite in_app_iff.
    destruct (has_flag flags (GEN1 MazdaFlags)); [reflexivity |].
    destruct (negb (get_int memory "Coasting" =? 0)); cbn [In];
      intros Hin; decompose [or] Hin; try contradiction; congruence.
  - unfold added_events. rewrite !in_app_iff.
    destruct (has_flag flags (GEN1 MazdaFlags)), (lkas_disabled cs), (low_speed_alert cs),
      (acc_active_last cs), (Interface.ti_lkas_allowed cs),
      (negb (get_int memory "Coasting" =? 0)); cbn [In app negb andb];
      split; intros Hx; decompose [or and] Hx; try discriminate; try contradiction; auto.
  - apply Hresume.
  - intros controller_flags P car_state toggles memory0 inputs Hw.
    rewrite Hresume. rewrite (run_coasting MazdaFlags inputs) by exact Hw. auto.
Qed.

End InterfaceProperties.

Lemma option_bits_are_mirrored_witness :
  let p : gmap string bool := {[ "TorqueInterceptorEnabled" := true ]} in
  exists ret' stdout,
    Interface.example_get_params "CX5" p = inr (ret', stdout)
    /\ Interface.carries (Interface.get_Z ret' "flags") 2
    /\ Interface.carries (Interface.get_Z ret' Interface.safetyParam) 4
    /\ Interface.carries (Interface.get_Z ret' Interface.safetyParam) 1.
Proof.
  intros p.
  destruct (Interface.example_get_params "CX5" p) as [e | [ret' stdout]] eqn:Hret.
  { exfalso.
    assert (Hr : returned (Interface.example_get_params "CX5" p) = true)
      by (vm_compute; reflexivity).
    rewrite Hret in Hr. discriminate Hr. }
  exists ret', stdout. split; [reflexivity |].
  pose proof (option_bits_are_mirrored example_flags Interface.example_options
                Interface.example_panda Interface.example_cars 0 (fun _ tuning => tuning)
                ∅ ret' "CX5" p stdout Hret) as H.
  cbv beta zeta in H. destruct H as (_ & _ & H & _).
  destruct H as (Hgen & Hti & _); [apply list_elem_of_here |].
  destruct (Hti eq_refl) as [Hflags Hsp]. auto.
Defined.

Lemma no_auxiliary_torque_outside_gen1_witness :
  let p : gmap string bool := {[ "TorqueInterceptorEnabled" := true ]} in
  exists ret' stdout,
    ("CX30" ∉ Interface.CARS.GEN1 Interface.example_cars)
    /\ Interface.example_get_params "CX30" p = inr (ret', stdout)
    /\ ti_apply_steer_last
         (self (run example_flags [steer_input 1; steer_input 1]
                  (init_world (Interface.get_Z ret' "flags") example_ccp
                     (example_CS false false false) ∅ ∅ : World SpecFilter.t))) = 0.
Proof.
  intros p.
  assert (Hout : "CX30" ∉ Interface.CARS.GEN1 Interface.example_cars).
  { cbn. rewrite !elem_of_cons, elem_of_nil.
    intros [E | [E | [E | []]]]; discriminate E. }
  destruct (Interface.example_get_params "CX30" p) as [e | [ret' stdout]] eqn:Hret.
  { exfalso.
    assert (Hr : returned (Interface.example_get_params "CX30" p) = true)
      by (vm_compute; reflexivity).
    rewrite Hret in Hr. discriminate Hr. }
  exists ret', stdout. split; [exact Hout |]. split; [reflexivity |].
  exact (proj2 (no_auxiliary_torque_outside_gen1 example_flags Interface.example_options
                  Interface.example_panda Interface.example_cars 0 (fun _ tuning => tuning)
                  ∅ ret' "CX30" p stdout example_ccp (example_CS false false false) ∅ ∅
                  [steer_input 1; steer_input 1] Hout eq_refl Hret)).
Defined.

Lemma min_steer_speed_rule_witness :
  let p : gmap string bool := {[ "TorqueInterceptorEnabled" := true ]} in
  exists ret' stdout,
    Interface.example_get_params "CX5" p = inr (ret', stdout)
    /\ has_flag (Interface.get_Z ret' "flags") (TORQUE_INTERCEPTOR example_flags) = true
    /\ ret' !! "minSteerSpeed" = None.
Proof.
  intros p.
  destruct (Interface.example_get_params "CX5" p) as [e | [ret' stdout]] eqn:Hret.
  { exfalso.
    assert (Hr : returned (Interface.example_get_params "CX5" p) = true)
      by (vm_compute; reflexivity).
    rewrite Hret in Hr. discriminate Hr. }
  exists ret', stdout. split; [reflexivity |].
  pose proof (min_steer_speed_rule example_flags Interface.example_options
                Interface.example_panda Interface.example_cars 0 (fun _ tuning => tuning)
                ∅ ret' "CX5" p stdout Hret) as H.
  cbv beta zeta in H. destruct H as (_ & _ & H).
  destruct H as [Hyes Hmin]; [apply list_elem_of_here | reflexivity | discriminate |].
  split; [exact Hyes | exact Hmin].
Defined.

(** * Properties of the microphone daemon *)

Section MicdProperties.

Import Micd.

Variable np_rms : list float -> float.
Variable np_log10 : float -> float.
Variable apply_a_weighting : list float -> list float.
Variable int16_bytes : list float -> list Z.

Local Abbreviation calculate_spl := (calculate_spl np_rms np_log10).
Local Abbreviation process_window := (process_window np_rms np_log10 apply_a_weighting).
Local Abbreviation process_windows := (process_windows np_rms np_log10 apply_a_weighting).
Local Abbreviation callback := (callback np_rms np_log10 apply_a_weighting).
Local Abbreviation step := (step np_rms np_log10 apply_a_weighting int16_bytes).
Local Abbreviation run := (run np_rms np_log10 apply_a_weighting int16_bytes).

Local Opaque FFT_SAMPLES.

Lemma FFT_SAMPLES_pos : (0 < FFT_SAMPLES)%nat.
Proof. Local Transparent FFT_SAMPLES. unfold FFT_SAMPLES. lia. Qed.

Lemma process_window_fields (self : Mic) :
  measurements (process_window self) = drop FFT_SAMPLES (measurements self)
  /\ frame_index (process_window self) = frame_index self
  /\ frame_index_last (process_window self) = frame_index_last self
  /\ raw_sample (process_window self) = raw_sample self
  /\ listening_allowed (process_window self) = listening_allowed self
  /\ indata_ready (process_window self) = indata_ready self.
Proof. repeat split. Qed.

Lemma div_sub_window (n : nat) :
  (FFT_SAMPLES <= n)%nat ->
  (FFT_SAMPLES + FFT_SAMPLES * ((n - FFT_SAMPLES) / FFT_SAMPLES)
   = FFT_SAMPLES * (n / FFT_SAMPLES))%nat
  /\ (n / FFT_SAMPLES = S ((n - FFT_SAMPLES) / FFT_SAMPLES))%nat.
Proof.
  intros Hn. pose proof FFT_SAMPLES_pos as Hpos.
  assert (E : (n / FFT_SAMPLES = S ((n - FFT_SAMPLES) / FFT_SAMPLES))%nat).
  { replace n with ((n - FFT_SAMPLES) + 1 * FFT_SAMPLES)%nat at 1 by lia.
    rewrite Nat.div_add by lia. lia. }
  split; [rewrite E; lia | exact E].
Qed.

Lemma small_div (n : nat) : (n < FFT_SAMPLES)%nat -> (n / FFT_SAMPLES = 0)%nat.
Proof. apply Nat.div_small. Qed.

(** The loop, given at least as many turns as the buffer has samples, stops
    with less than a window in the buffer: the samples after the last full
    window. *)
Lemma process_windows_buffer (fuel : nat) (self : Mic) :
  (length (measurements self) <= fuel)%nat ->
  let self' := process_windows fuel self in
  let total := measurements self in
  measurements self' = drop (FFT_SAMPLES * (length total / FFT_SAMPLES)) total
  /\ frame_index self' = frame_index self
  /\ frame_index_last self' = frame_index_last self
  /\ raw_sample self' = raw_sample self
  /\ listening_allowed self' = listening_allowed self
  /\ indata_ready self' = indata_ready self.
Proof.
  cbv zeta. revert self. induction fuel as [| fuel IH]; intros self Hfuel.
  - cbn [Micd.process_windows].
    assert (Hnil : measurements self = []) by (destruct (measurements self); [reflexivity | cbn in Hfuel; lia]).
    rewrite Hnil. cbn [length]. rewrite Nat.Div0.div_0_l, Nat.mul_0_r. repeat split.
  - cbn [Micd.process_windows].
    destruct (Nat.leb_spec FFT_SAMPLES (length (measurements self))) as [Hfull | Hpart].
    + destruct (process_window_fields self) as (Hm & Hf & Hl & Hr & Ha & Hi).
      pose proof FFT_SAMPLES_pos as Hpos.
      destruct (IH (process_window self)) as (IHm & IHf & IHl & IHr & IHa & IHi).
      { rewrite Hm, length_drop. lia. }
      rewrite IHm, IHf, IHl, IHr, IHa, IHi, Hm, Hf, Hl, Hr, Ha, Hi.
      split; [| repeat split].
      rewrite length_drop, drop_drop.
      destruct (div_sub_window (length (measurements self)) Hfull) as [-> _]. reflexivity.
    + rewrite small_div by exact Hpart. rewrite Nat.mul_0_r. repeat split.
Qed.

Lemma callback_frame_index (indata : list float) (frames : Z) (self : Mic) :
  frame_index (callback indata frames self) = frame_index self + frames
  /\ frame_index_last (callback indata frames self) = frame_index_last self.
Proof.
  unfold Micd.callback.
  set (self0 := {| measurements := measurements self ++ indata |}).
  destruct (process_windows_buffer (length (measurements self0)) self0 (le_n _))
    as (_ & Hf & Hl & _).
  cbn [frame_index frame_index_last]. rewrite Hf, Hl. split; reflexivity.
Qed.

(** X20. [callback] consumes the stream in full windows and keeps the rest:
    after it the buffer holds the samples of the old buffer and the new
    block that follow the last full window of 1280, which is less than a
    window, so the loop always ends; the frame index has advanced by the
    reported count, the index of the last update is untouched and the event
    is set. *)
Theorem callback_keeps_a_partial_window (indata : list float) (frames : Z) (self : Mic) :
  let total := measurements self ++ indata in
  let self' := callback indata frames self in
  measurements self' = drop (FFT_SAMPLES * (length total / FFT_SAMPLES)) total
  /\ length (measurements self') = (length total mod FFT_SAMPLES)%nat
  /\ (length (measurements self') < FFT_SAMPLES)%nat
  /\ frame_index self' = frame_index self + frames
  /\ frame_index_last self' = frame_index_last self
  /\ indata_ready self' = true.
Proof.
  cbv zeta. unfold Micd.callback.
  set (self0 := {| measurements := measurements self ++ indata |}).
  destruct (process_windows_buffer (length (measurements self0)) self0 (le_n _))
    as (Hm & Hf & Hl & _).
  cbn [measurements frame_index frame_index_last indata_ready].
  rewrite Hm, Hf, Hl. change (measurements self0) with (measurements self ++ indata).
  pose proof FFT_SAMPLES_pos as Hpos.
  assert (Hlen : length (drop (FFT_SAMPLES * (length (measurements self ++ indata) / FFT_SAMPLES))
                           (measurements self ++ indata))
                 = (length (measurements self ++ indata) mod FFT_SAMPLES)%nat).
  { rewrite length_drop.
    pose proof (Nat.div_mod_eq (length (measurements self ++ indata)) FFT_SAMPLES). lia. }
  split; [reflexivity |]. split; [exact Hlen |].
  split; [rewrite Hlen; apply Nat.mod_upper_bound; lia |].
  repeat split.
Qed.

Local Abbreviation window_levels := (window_levels np_rms np_log10 apply_a_weighting).
Local Abbreviation callbacks := (callbacks np_rms np_log10 apply_a_weighting).
Local Abbreviation update_raw := (update_raw int16_bytes).

Lemma process_window_levels (self : Mic) :
  (FFT_SAMPLES <= length (measurements self))%nat ->
  levels (process_window self) = window_levels (take FFT_SAMPLES (measurements self)).
Proof.
  intros Hfull. unfold Micd.window_levels, Micd.process_window, levels.
  cbn [measurements sound_pressure sound_pressure_weighted sound_pressure_level_weighted].
  rewrite take_take, Nat.min_id. reflexivity.
Qed.

Lemma process_windows_levels (fuel : nat) (self : Mic) :
  (length (measurements self) <= fuel)%nat ->
  levels (process_windows fuel self)
  = match (length (measurements self) / FFT_SAMPLES)%nat with
    | O => levels self
    | S j => window_levels (take FFT_SAMPLES (drop (FFT_SAMPLES * j) (measurements self)))
    end.
Proof.
  revert self. induction fuel as [| fuel IH]; intros self Hfuel.
  - cbn [Micd.process_windows].
    assert (Hnil : measurements self = [])
      by (destruct (measurements self); [reflexivity | cbn in Hfuel; lia]).
    rewrite Hnil. cbn [length]. rewrite Nat.Div0.div_0_l. reflexivity.
  - cbn [Micd.process_windows].
    destruct (Nat.leb_spec FFT_SAMPLES (length (measurements self))) as [Hfull | Hpart].
    + destruct (process_window_fields self) as (Hm & _).
      pose proof FFT_SAMPLES_pos as Hpos.
      rewrite IH by (rewrite Hm, length_drop; lia).
      rewrite Hm, length_drop.
      destruct (div_sub_window (length (measurements self)) Hfull) as [_ ->].
      destruct ((length (measurements self) - FFT_SAMPLES) / FFT_SAMPLES)%nat as [| j].
      * rewrite Nat.mul_0_r, drop_0. apply process_window_levels. exact Hfull.
      * rewrite drop_drop. do 3 f_equal. lia.
    + rewrite small_div by exact Hpart. reflexivity.
Qed.

(** X21. The levels a [Mic] publishes are those of the last full window:
    after [callback], if the old buffer and the new block together hold at
    least one window of 1280 samples, the three levels are the ones computed
    from the last full window of them; otherwise they are unchanged. *)
Theorem levels_of_the_last_full_window (indata : list float) (frames : Z) (self : Mic) :
  let total := measurements self ++ indata in
  levels (callback indata frames self)
  = match (length total / FFT_SAMPLES)%nat with
    | O => levels self
    | S j => window_levels (take FFT_SAMPLES (drop (FFT_SAMPLES * j) total))
    end.
Proof.
  cbv zeta. unfold Micd.callback.
  set (self0 := {| measurements := measurements self ++ indata |}).
  pose proof (process_windows_levels (length (measurements self0)) self0 (le_n _)) as H.
  change (measurements self0) with (measurements self ++ indata) in H.
  change (levels self0) with (levels self) in H.
  rewrite <- H. reflexivity.
Qed.

(** ** The raw sample *)

Lemma callback_raw_sample (indata : list float) (frames : Z) (self : Mic) :
  listening_allowed (callback indata frames self) = listening_allowed self
  /\ raw_sample (callback indata frames self)
     = if listening_allowed self then indata else raw_sample self.
Proof.
  unfold Micd.callback.
  set (self0 := {| measurements := measurements self ++ indata |}).
  destruct (process_windows_buffer (length (measurements self0)) self0 (le_n _))
    as (_ & _ & _ & Hr & Ha & _).
  cbn [listening_allowed raw_sample]. rewrite Hr, Ha. split; reflexivity.
Qed.

(** X22. Audio leaves the daemon as raw samples only while voice control is
    on. If the toggle is off at every update, then after any sequence of
    updates and callbacks from construction the raw sample is still the
    buffer the constructor allocated, and every raw message sent carries
    that buffer: no block handed to [callback] has been copied. *)
Theorem raw_sample_is_private (uninitialised : list float) (steps : list Step) :
  never_listening steps ->
  raw_sample (snd (run steps (init uninitialised))) = uninitialised
  /\ forall rawSample frameIndex,
       In (microphoneRaw rawSample frameIndex) (fst (run steps (init uninitialised))) ->
       rawSample = int16_bytes uninitialised.
Proof.
  intros Hnever.
  assert (Hinv : forall self : Mic,
            listening_allowed self = false -> raw_sample self = uninitialised ->
            raw_sample (snd (run steps self)) = uninitialised
            /\ forall rawSample frameIndex,
                 In (microphoneRaw rawSample frameIndex) (fst (run steps self)) ->
                 rawSample = int16_bytes uninitialised).
  { induction steps as [| s rest IH]; intros self Hoff Hraw.
    { split; [exact Hraw | intros ? ? []]. }
    unfold never_listening in Hnever.
    apply List.Forall_cons_iff in Hnever as [Hs Hrest].
    cbn [Micd.run].
    assert (Hstep : listening_allowed (snd (step s self)) = false
                    /\ raw_sample (snd (step s self)) = uninitialised
                    /\ forall rawSample frameIndex,
                         In (microphoneRaw rawSample frameIndex) (fst (fst (step s self))) ->
                         rawSample = int16_bytes uninitialised).
    { destruct s as [params | | indata frames]; cbn [Micd.step].
      - unfold update_levels. cbn [sound_pressure sound_pressure_weighted
          sound_pressure_level_weighted].
        destruct (result_bind _ _) as [e | msg] eqn:Hmsg; cbn [fst snd listening_allowed raw_sample].
        + split; [exact Hs |]. split; [exact Hraw | intros ? ? []].
        + split; [exact Hs |]. split; [exact Hraw |].
          intros raw idx [Hin | []]. subst msg.
          destruct (to_float _); [discriminate |]. cbn [result_bind] in Hmsg.
          destruct (to_float _); [discriminate |]. cbn [result_bind] in Hmsg.
          destruct (to_float _); discriminate.
      - cbn [fst snd listening_allowed raw_sample Micd.update_raw].
        split; [exact Hoff |]. split; [exact Hraw |].
        intros raw idx [[= <- _] | []]. rewrite Hraw. reflexivity.
      - cbn [fst snd]. destruct (callback_raw_sample indata frames self) as [-> ->].
        rewrite Hoff. split; [reflexivity |]. split; [exact Hraw | intros ? ? []]. }
    destruct (step s self) as [[sent log] self']. cbn [fst snd] in Hstep.
    destruct Hstep as (Hoff' & Hraw' & Hsent).
    specialize (IH Hrest self' Hoff' Hraw').
    destruct (run rest self') as [more final]. cbn [fst snd] in *.
    destruct IH as [IHraw IHsent]. split; [exact IHraw |].
    intros raw idx Hin. apply in_app_iff in Hin as [Hin | Hin]; eauto. }
  apply Hinv; reflexivity.
Qed.

(** ** The frame index *)

Lemma callbacks_frame_index (blocks : list (list float * Z)) (self : Mic) :
  Forall (fun block => snd block = SAMPLE_BUFFER) blocks ->
  frame_index (callbacks blocks self)
  = frame_index self + SAMPLE_BUFFER * Z.of_nat (length blocks)
  /\ frame_index_last (callbacks blocks self) = frame_index_last self.
Proof.
  revert self. induction blocks as [| [indata frames] rest IH]; intros self Hall.
  { cbn. split; [lia | reflexivity]. }
  inversion Hall as [| ? ? Hb Hrest]; subst. cbn [snd] in Hb. subst frames.
  unfold Micd.callbacks. cbn [fold_left fst snd].
  fold (callbacks rest (callback indata SAMPLE_BUFFER self)).
  destruct (IH (callback indata SAMPLE_BUFFER self) Hrest) as [-> ->].
  destruct (callback_frame_index indata SAMPLE_BUFFER self) as [-> ->].
  cbn [length]. rewrite Nat2Z.inj_succ. split; [lia | reflexivity].
Qed.


End MicdProperties.

Lemma raw_sample_is_private_witness :
  let rms := fun _ : list float => 0%float in
  let log10 := fun x : float => x in
  let weighting := fun window : list float => window in
  let bytes := fun _ : list float => @nil Z in
  let steps :=
    [Micd.UpdateLevels ∅; Micd.Callback [1; 2; 3]%float 3; Micd.UpdateRaw] in
  Micd.never_listening steps
  /\ Micd.raw_sample (snd (Micd.run rms log10 weighting bytes steps (Micd.init [0.5%float])))
     = [0.5%float].
Proof.
  intros rms log10 weighting bytes steps.
  assert (Hnever : Micd.never_listening steps).
  { repeat constructor. }
  split; [exact Hnever |].
  exact (proj1 (raw_sample_is_private rms log10 weighting bytes [0.5%float] steps Hnever)).
Defined.

